(** * debt-buddy-tracker: the ledger store, its row-level security and the
      client pages, as a shallow embedding

    The repository is a React client over a Postgres database (Supabase).
    Two kinds of source are embedded here:

    - the SQL migration (tables, CHECK constraints, foreign keys with
      ON DELETE CASCADE, row-level-security policies, [has_role],
      [get_user_role], the [handle_new_user] trigger): a record of tables
      and one state-transforming function per statement;
    - the page components ([Index.fetchDebtors], [SearchPage.handleSearch],
      [AddDebtorPage], [AddDebtPage], [AddPaymentPage]): functions from the
      session, the form input and the database to an outcome and a new
      database.

    Amounts are stored as [DECIMAL(12,2)] and are read by the client as
    JavaScript numbers, i.e. IEEE-754 binary64 values; the client adds and
    compares them with binary64 arithmetic.  They are modelled by Rocq's
    primitive [float], which is binary64 with round-to-nearest-even. *)

From Stdlib Require Import ZArith List String Ascii Bool Lia.
From Stdlib Require Import Floats Uint63.
From Stdlib Require Import Permutation Sorted.
Import ListNotations.

Set Implicit Arguments.
Open Scope Z_scope.

(** ** JavaScript numbers *)

Module JS.

(** [number] is the type the client gives every amount ([amount: number]
    in the generated table types). *)
Definition number := float.

(** A [DECIMAL(12,2)] value is an integer number of hundredths, and so is
    what an amount field with [step="0.01"] submits.  It reaches the client
    as a decimal literal and becomes the binary64 value nearest to it, that
    is, the quotient of the integer by 100 rounded once.  Below 2^53
    hundredths (every amount the columns can hold is below 10^12), the
    integer and 100 are exact in binary64 and IEEE division is correctly
    rounded, so the quotient of the two numbers is that value.  From 2^53
    on the integer itself is no longer a number; the quotient is then
    rounded from the two integers by the reference division of
    [SpecFloat]. *)
Definition Number (cents : Z) : number :=
  if Z.abs cents <? 9007199254740992
  then
    if cents <? 0
    then PrimFloat.opp
           (PrimFloat.div (PrimFloat.of_uint63 (Uint63.of_Z (- cents))) 100%float)
    else PrimFloat.div (PrimFloat.of_uint63 (Uint63.of_Z cents)) 100%float
  else
    SF2Prim (SFdiv prec emax
               (S754_finite (cents <? 0) (Z.to_pos (Z.abs cents)) 0)
               (S754_finite false 100 0)).

Definition add (x y : number) : number := PrimFloat.add x y.
Definition sub (x y : number) : number := PrimFloat.sub x y.

(** [x > y] *)
Definition gt (x y : number) : bool := PrimFloat.ltb y x.

(** Truthiness of a number: [0], [-0] and [NaN] are falsy. *)
Definition truthy (x : number) : bool :=
  match PrimFloat.classify x with
  | PZero | NZero | NaN => false
  | _ => true
  end.

(** [x || 0] *)
Definition or_zero (x : number) : number :=
  if truthy x then x else 0%float.

(** [rows.reduce((sum, r) => sum + Number(r.amount), 0)] *)
Definition reduce_sum (A : Type) (amount : A -> Z) (rows : list A) : number :=
  fold_left (fun sum r => add sum (Number (amount r))) rows 0%float.

(** Text is held as the bytes of its UTF-8 encoding.

    [String.prototype.trim] removes the code points WhiteSpace and
    LineTerminator of the language from both ends.  Those of one byte are
    TAB, LF, VT, FF, CR and SPACE. *)
Definition is_space (c : ascii) : bool :=
  let n := nat_of_ascii c in
  ((9 <=? n) && (n <=? 13))%nat || (n =? 32)%nat.

(** Of two bytes: U+00A0, the no-break space (C2 A0). *)
Definition is_space2 (a b : ascii) : bool :=
  ((nat_of_ascii a =? 194) && (nat_of_ascii b =? 160))%nat.

(** Of three bytes: U+1680 (E1 9A 80), U+2000 to U+200A (E2 80 80 to
    E2 80 8A), the line and paragraph separators U+2028 and U+2029
    (E2 80 A8, E2 80 A9), U+202F (E2 80 AF), U+205F (E2 81 9F), U+3000
    (E3 80 80) and the byte order mark U+FEFF (EF BB BF). *)
Definition is_space3 (a b c : ascii) : bool :=
  let x := nat_of_ascii a in
  let y := nat_of_ascii b in
  let z := nat_of_ascii c in
  ((x =? 225) && (y =? 154) && (z =? 128)
   || (x =? 226) && (y =? 128)
      && ((128 <=? z) && (z <=? 138) || (z =? 168) || (z =? 169) || (z =? 175))
   || (x =? 226) && (y =? 129) && (z =? 159)
   || (x =? 227) && (y =? 128) && (z =? 128)
   || (x =? 239) && (y =? 187) && (z =? 191))%nat.

(** What follows the white space code point a text starts with, if it
    starts with one. *)
Definition skip_space (s : string) : option string :=
  match s with
  | EmptyString => None
  | String a r1 =>
      if is_space a then Some r1
      else match r1 with
           | EmptyString => None
           | String b r2 =>
               if is_space2 a b then Some r2
               else match r2 with
                    | EmptyString => None
                    | String c r3 => if is_space3 a b c then Some r3 else None
                    end
           end
  end.

Fixpoint trim_start (s : string) : string :=
  match s with
  | EmptyString => EmptyString
  | String a r1 =>
      if is_space a then trim_start r1
      else match r1 with
           | EmptyString => s
           | String b r2 =>
               if is_space2 a b then trim_start r2
               else match r2 with
                    | EmptyString => s
                    | String c r3 => if is_space3 a b c then trim_start r3 else s
                    end
           end
  end.

(** A text that is white space from end to end. *)
Fixpoint all_space (s : string) : bool :=
  match s with
  | EmptyString => true
  | String a r1 =>
      if is_space a then all_space r1
      else match r1 with
           | EmptyString => false
           | String b r2 =>
               if is_space2 a b then all_space r2
               else match r2 with
                    | EmptyString => false
                    | String c r3 => is_space3 a b c && all_space r3
                    end
           end
  end.

(** Drops the trailing white space: what is left of the text from some
    byte on is dropped when it is white space from there to the end. *)
Fixpoint trim_end (s : string) : string :=
  match s with
  | EmptyString => EmptyString
  | String c s' => if all_space s then EmptyString else String c (trim_end s')
  end.

Definition trim (s : string) : string := trim_end (trim_start s).

(** A string is falsy exactly when it is empty. *)
Definition is_empty (s : string) : bool :=
  match s with EmptyString => true | _ => false end.

(** [s || null] *)
Definition or_null (s : string) : option string :=
  if is_empty s then None else Some s.

(** [xs.find(p)] *)
Definition find (A : Type) (p : A -> bool) (xs : list A) : option A :=
  List.find p xs.

End JS.

(** ** The schema *)

(** [CREATE TYPE public.app_role AS ENUM ('admin', 'staff', 'viewer')] *)
Inductive app_role : Type := admin | staff | viewer.

Definition app_role_eqb (a b : app_role) : bool :=
  match a, b with
  | admin, admin | staff, staff | viewer, viewer => true
  | _, _ => false
  end.

(** UUID keys are opaque strings, as in the generated client types. *)
Definition uuid := string.

(** Timestamps are instants on a discrete clock. *)
Definition timestamptz := Z.

(** [public.profiles]; [role app_role NOT NULL DEFAULT 'viewer'] *)
Record profile : Type := mk_profile {
  profile_id : uuid;
  profile_phone_number : option string;
  profile_full_name : option string;
  profile_role : app_role
}.

(** [public.user_roles]; [UNIQUE (user_id, role)] *)
Record user_role : Type := mk_user_role {
  ur_user_id : uuid;
  ur_role : app_role
}.

(** [public.debtors] *)
Record debtor : Type := mk_debtor {
  debtor_id : uuid;
  debtor_name : string;
  debtor_phone_number : string;
  debtor_guarantor_name : option string;
  debtor_guarantor_phone : option string;
  debtor_created_by : option uuid
}.

(** [public.debts]; [amount DECIMAL(12,2) NOT NULL CHECK (amount > 0)],
    held as a number of hundredths. *)
Record debt : Type := mk_debt {
  debt_id : uuid;
  debt_debtor_id : uuid;
  debt_amount : Z;
  debt_reason : string;
  debt_date_recorded : timestamptz;
  debt_created_by : uuid
}.

(** [public.payments] *)
Record payment : Type := mk_payment {
  payment_id : uuid;
  payment_debtor_id : uuid;
  payment_amount : Z;
  payment_date_paid : timestamptz;
  payment_created_by : uuid
}.

(** The database: [auth.users] (the identities) and the five public tables,
    each in its physical row order.  [now] is the clock behind [now()]. *)
Record db : Type := mk_db {
  users : list uuid;
  profiles : list profile;
  user_roles : list user_role;
  debtors : list debtor;
  debts : list debt;
  payments : list payment;
  now : timestamptz
}.

Definition empty_db : db := mk_db [] [] [] [] [] [] 0.

(** ** Role functions of the migration *)

(** [has_role(_user_id, _role)]:
    [SELECT EXISTS (SELECT 1 FROM user_roles WHERE user_id = _user_id AND role = _role)] *)
Definition has_role (d : db) (_user_id : uuid) (_role : app_role) : bool :=
  existsb (fun r => String.eqb (ur_user_id r) _user_id && app_role_eqb (ur_role r) _role)
          (user_roles d).

(** [get_user_role(_user_id)]: [SELECT role FROM profiles WHERE id = _user_id];
    NULL when the identity has no profile. *)
Definition get_user_role (d : db) (_user_id : uuid) : option app_role :=
  option_map profile_role
    (List.find (fun p => String.eqb (profile_id p) _user_id) (profiles d)).

(** The write policies: [has_role(auth.uid(), 'admin') OR has_role(auth.uid(), 'staff')] *)
Definition admin_or_staff (d : db) (uid : uuid) : bool :=
  has_role d uid admin || has_role d uid staff.

(** ** Statements under row-level security *)

(** How a statement can fail. *)
Inductive pg_error : Type :=
| rls_violation        (* new row violates row-level security policy *)
| check_violation      (* CHECK (amount > 0) *)
| numeric_overflow     (* more than 12 digits *)
| unique_violation     (* PRIMARY KEY / UNIQUE *)
| foreign_key_violation
| undefined_object.    (* a type name that does not resolve *)

Inductive result (A : Type) : Type :=
| Ok (a : A)
| Error (e : pg_error).
Arguments Error {A} e.

Definition has_debtor (d : db) (id : uuid) : bool :=
  existsb (fun x => String.eqb (debtor_id x) id) (debtors d).

Definition set_debtors (d : db) (l : list debtor) : db :=
  mk_db (users d) (profiles d) (user_roles d) l (debts d) (payments d) (now d).
Definition set_debts (d : db) (l : list debt) : db :=
  mk_db (users d) (profiles d) (user_roles d) (debtors d) l (payments d) (now d).
Definition set_payments (d : db) (l : list payment) : db :=
  mk_db (users d) (profiles d) (user_roles d) (debtors d) (debts d) l (now d).

(** [DECIMAL(12,2)]: fewer than 10^10 units, i.e. 10^12 hundredths. *)
Definition fits_decimal_12_2 (cents : Z) : bool :=
  (-1000000000000 <? cents) && (cents <? 1000000000000).

(** [INSERT INTO debtors] by the identity [uid].  The policy "Admins and staff
    can insert debtors" is a WITH CHECK policy: a row that fails it raises an
    error.  The table puts no constraint on the text beyond NOT NULL, which
    the types already give.  [id] is the value drawn by [gen_random_uuid()]. *)
Definition insert_debtor (uid : uuid) (id : uuid)
    (name phone_number : string) (guarantor_name guarantor_phone : option string)
    (d : db) : result unit * db :=
  if negb (admin_or_staff d uid) then (Error rls_violation, d)
  else if has_debtor d id then (Error unique_violation, d)
  else (Ok tt,
        set_debtors d (debtors d ++
          [mk_debtor id name phone_number guarantor_name guarantor_phone None])).

(** [INSERT INTO debts (debtor_id, amount, reason, created_by)];
    [date_recorded] takes its default [now()].  The checks come in the order
    in which Postgres makes them: the value is first brought to the type of
    its column, then the new row is put to the WITH CHECK policy, then to
    the CHECK constraint, then to the primary key; the foreign keys are
    looked at when the statement ends. *)
Definition insert_debt (uid : uuid) (id : uuid)
    (debtor_id : uuid) (amount : Z) (reason : string) (created_by : uuid)
    (d : db) : result unit * db :=
  if negb (fits_decimal_12_2 amount) then (Error numeric_overflow, d)
  else if negb (admin_or_staff d uid) then (Error rls_violation, d)
  else if negb (0 <? amount) then (Error check_violation, d)
  else if existsb (fun x => String.eqb (debt_id x) id) (debts d)
       then (Error unique_violation, d)
  else if negb (has_debtor d debtor_id) then (Error foreign_key_violation, d)
  else if negb (existsb (String.eqb created_by) (users d))
       then (Error foreign_key_violation, d)
  else (Ok tt,
        set_debts d (debts d ++
          [mk_debt id debtor_id amount reason (now d) created_by])).

(** [INSERT INTO payments (debtor_id, amount, created_by)], with the checks
    in the same order. *)
Definition insert_payment (uid : uuid) (id : uuid)
    (debtor_id : uuid) (amount : Z) (created_by : uuid)
    (d : db) : result unit * db :=
  if negb (fits_decimal_12_2 amount) then (Error numeric_overflow, d)
  else if negb (admin_or_staff d uid) then (Error rls_violation, d)
  else if negb (0 <? amount) then (Error check_violation, d)
  else if existsb (fun x => String.eqb (payment_id x) id) (payments d)
       then (Error unique_violation, d)
  else if negb (has_debtor d debtor_id) then (Error foreign_key_violation, d)
  else if negb (existsb (String.eqb created_by) (users d))
       then (Error foreign_key_violation, d)
  else (Ok tt,
        set_payments d (payments d ++
          [mk_payment id debtor_id amount (now d) created_by])).

(** [DELETE FROM debtors WHERE id = _id] by the identity [uid].  The policy
    "Admins can delete debtors" is a USING policy: it decides which existing
    rows the statement sees, so for a caller who is not an admin the
    statement sees no row, deletes nothing and raises nothing.  The foreign
    keys of [debts] and [payments] are ON DELETE CASCADE: the referencing
    rows go in the same statement.  The result is the number of debtor rows
    deleted. *)
Definition delete_debtor (uid : uuid) (_id : uuid) (d : db) : result nat * db :=
  if negb (has_role d uid admin) then (Ok 0%nat, d)
  else
    let keep_debtor x := negb (String.eqb (debtor_id x) _id) in
    let gone := List.length (filter (fun x => String.eqb (debtor_id x) _id) (debtors d)) in
    match gone with
    | O => (Ok 0%nat, d)
    | _ =>
      (Ok gone,
       mk_db (users d) (profiles d) (user_roles d)
             (filter keep_debtor (debtors d))
             (filter (fun x => negb (String.eqb (debt_debtor_id x) _id)) (debts d))
             (filter (fun x => negb (String.eqb (payment_debtor_id x) _id)) (payments d))
             (now d))
    end.

(** ** Identities *)

(** The types the migration creates, each with its schema. *)
Definition pg_types : list (string * string) :=
  [("public"%string, "app_role"%string)].

(** A type name written without its schema is looked up in [pg_catalog] and
    then in the schemas of the search path. *)
Definition resolve_type (search_path : list string) (name : string) : bool :=
  existsb (fun schema =>
             existsb (fun t => String.eqb (fst t) schema && String.eqb (snd t) name)
                     pg_types)
          ("pg_catalog"%string :: search_path).

(** [SECURITY DEFINER SET search_path = '']: the function runs with an empty
    search path. *)
Definition handle_new_user_search_path : list string := [].

(** The body of the trigger function [handle_new_user()], run AFTER INSERT on
    [auth.users] for the row [NEW]: one profile with role ['viewer'] and one
    [user_roles] row with role ['viewer'].  The tables are named with their
    schema ([public.profiles], [public.user_roles]); the type of the two casts
    ['viewer'::app_role] is not, so it is looked up on the function's search
    path, and the insert raises when the name does not resolve.
    [profiles.id] is a primary key and [user_roles] is UNIQUE on
    (user_id, role). *)
Definition handle_new_user (new_id : uuid) (new_phone : option string)
    (meta_full_name : option string) (d : db) : result unit * db :=
  if negb (resolve_type handle_new_user_search_path "app_role")
  then (Error undefined_object, d)
  else if existsb (fun p => String.eqb (profile_id p) new_id) (profiles d)
  then (Error unique_violation, d)
  else if has_role d new_id viewer then (Error unique_violation, d)
  else
    let full_name := match meta_full_name with Some n => n | None => EmptyString end in
    (Ok tt,
     mk_db (users d)
           (profiles d ++ [mk_profile new_id new_phone (Some full_name) viewer])
           (user_roles d ++ [mk_user_role new_id viewer])
           (debtors d) (debts d) (payments d) (now d)).

(** [INSERT INTO auth.users]: the row and the trigger's rows are written by
    one statement; when the trigger raises, the statement writes nothing. *)
Definition create_user (new_id : uuid) (new_phone : option string)
    (meta_full_name : option string) (d : db) : result unit * db :=
  if existsb (String.eqb new_id) (users d) then (Error unique_violation, d)
  else
    let d1 := mk_db (users d ++ [new_id]) (profiles d) (user_roles d)
                    (debtors d) (debts d) (payments d) (now d) in
    match handle_new_user new_id new_phone meta_full_name d1 with
    | (Ok _, d2) => (Ok tt, d2)
    | (Error e, _) => (Error e, d)
    end.

(** [DELETE FROM auth.users WHERE id = _id]: [profiles] and [user_roles]
    reference the identity ON DELETE CASCADE; the [created_by] columns
    reference it with no action, so a referenced identity cannot go. *)
Definition delete_user (_id : uuid) (d : db) : result unit * db :=
  if existsb (fun x => match debtor_created_by x with
                       | Some u => String.eqb u _id | None => false end) (debtors d)
     || existsb (fun x => String.eqb (debt_created_by x) _id) (debts d)
     || existsb (fun x => String.eqb (payment_created_by x) _id) (payments d)
  then (Error foreign_key_violation, d)
  else
    (Ok tt,
     mk_db (filter (fun u => negb (String.eqb u _id)) (users d))
           (filter (fun p => negb (String.eqb (profile_id p) _id)) (profiles d))
           (filter (fun r => negb (String.eqb (ur_user_id r) _id)) (user_roles d))
           (debtors d) (debts d) (payments d) (now d)).

(** [UPDATE profiles SET role = _role WHERE id = auth.uid()].  The policy
    "Users can update their own profile" is [USING (auth.uid() = id)] and
    names no column: the caller's own row is the only one the statement
    sees.  The column is NOT NULL and of the enum type. *)
Definition update_own_profile_role (uid : uuid) (_role : app_role) (d : db) : db :=
  mk_db (users d)
        (map (fun p => if String.eqb (profile_id p) uid
                       then mk_profile (profile_id p) (profile_phone_number p)
                                       (profile_full_name p) _role
                       else p) (profiles d))
        (user_roles d) (debtors d) (debts d) (payments d) (now d).

(** [INSERT INTO user_roles (user_id, role)] by the identity [uid], under
    "Admins can manage all roles" ([FOR ALL USING (has_role(auth.uid(), 'admin'))]). *)
Definition grant_role (uid target : uuid) (_role : app_role) (d : db) : result unit * db :=
  if negb (has_role d uid admin) then (Error rls_violation, d)
  else if has_role d target _role then (Error unique_violation, d)
  else if negb (existsb (String.eqb target) (users d)) then (Error foreign_key_violation, d)
  else (Ok tt,
        mk_db (users d) (profiles d) (user_roles d ++ [mk_user_role target _role])
              (debtors d) (debts d) (payments d) (now d)).

(** [DELETE FROM user_roles WHERE user_id = target AND role = _role] under the
    same policy: for a caller who is not an admin the statement sees no row. *)
Definition revoke_role (uid target : uuid) (_role : app_role) (d : db) : db :=
  if negb (has_role d uid admin) then d
  else mk_db (users d) (profiles d)
             (filter (fun r => negb (String.eqb (ur_user_id r) target
                                     && app_role_eqb (ur_role r) _role)) (user_roles d))
             (debtors d) (debts d) (payments d) (now d).

(** ** The statements the schema provides for, and runs of them *)

Inductive statement : Type :=
| SignUp (new_id : uuid) (phone : option string) (full_name : option string)
| DeleteUser (id : uuid)
| InsertDebtor (uid id : uuid) (name phone : string) (gname gphone : option string)
| InsertDebt (uid id debtor_id : uuid) (amount : Z) (reason : string) (created_by : uuid)
| InsertPayment (uid id debtor_id : uuid) (amount : Z) (created_by : uuid)
| DeleteDebtor (uid id : uuid)
| UpdateOwnProfileRole (uid : uuid) (role : app_role)
| GrantRole (uid target : uuid) (role : app_role)
| RevokeRole (uid target : uuid) (role : app_role)
| Tick.

(** The database after a statement; a failed statement leaves it as it was. *)
Definition exec (s : statement) (d : db) : db :=
  match s with
  | SignUp i p n => snd (create_user i p n d)
  | DeleteUser i => snd (delete_user i d)
  | InsertDebtor u i n p gn gp => snd (insert_debtor u i n p gn gp d)
  | InsertDebt u i di a r cb => snd (insert_debt u i di a r cb d)
  | InsertPayment u i di a cb => snd (insert_payment u i di a cb d)
  | DeleteDebtor u i => snd (delete_debtor u i d)
  | UpdateOwnProfileRole u r => update_own_profile_role u r d
  | GrantRole u t r => snd (grant_role u t r d)
  | RevokeRole u t r => revoke_role u t r d
  | Tick => mk_db (users d) (profiles d) (user_roles d)
                  (debtors d) (debts d) (payments d) (now d + 1)
  end.

(** Every database state a reader can observe during a run: the initial one
    and the one after each statement. *)
Fixpoint observable (ss : list statement) (d : db) : list db :=
  match ss with
  | [] => [d]
  | s :: ss' => d :: observable ss' (exec s d)
  end.

Definition run (ss : list statement) (d : db) : db :=
  fold_left (fun d s => exec s d) ss d.

(** ** Queries of the client *)

(** [.order(col)].  The rows come back sorted by the column; rows that agree
    on it come back in an order of the database's choice, for which the
    order they are stored in stands here.  What is stated of ordered rows
    below either holds of every order of such rows or is stated for rows
    that differ on the column. *)
Fixpoint insert_by (A : Type) (leb : A -> A -> bool) (x : A) (l : list A) : list A :=
  match l with
  | [] => [x]
  | y :: l' => if leb x y then x :: l else y :: insert_by leb x l'
  end.

Definition order (A : Type) (leb : A -> A -> bool) (l : list A) : list A :=
  fold_right (insert_by leb) [] l.

(** [.from('debtors').select(...).order('name')].  The names are compared
    byte by byte here, as the database compares them under the C collation;
    under another collation the same debtors come in another order. *)
Definition select_debtors_by_name (d : db) : list debtor :=
  order (fun x y => String.leb (debtor_name x) (debtor_name y)) (debtors d).

(** [.from('debts').select('amount').eq('debtor_id', id)]: no ordering is
    asked for; the rows come in the table's physical order. *)
Definition select_debts_eq (d : db) (id : uuid) : list debt :=
  filter (fun x => String.eqb (debt_debtor_id x) id) (debts d).

Definition select_payments_eq (d : db) (id : uuid) : list payment :=
  filter (fun x => String.eqb (payment_debtor_id x) id) (payments d).

(** [.eq('debtor_id', id).order('date_recorded', { ascending: false })] *)
Definition select_debts_eq_desc (d : db) (id : uuid) : list debt :=
  order (fun x y => debt_date_recorded y <=? debt_date_recorded x)
        (select_debts_eq d id).

Definition select_payments_eq_desc (d : db) (id : uuid) : list payment :=
  order (fun x y => payment_date_paid y <=? payment_date_paid x)
        (select_payments_eq d id).

(** *** ILIKE *)

(** The lower case of a one-byte character: the letters that have one are A
    to Z. *)
Definition lower (c : ascii) : ascii :=
  let n := nat_of_ascii c in
  if ((65 <=? n) && (n <=? 90))%nat then ascii_of_nat (n + 32) else c.

(** [s ILIKE p], on text of one-byte characters (see [ascii_text]): [%] is
    any run of characters, [_] any one character, a backslash takes the
    next character literally, every other character stands for itself up
    to letter case.  The request syntax reads [*] as
    [%].  A pattern that ends in a lone backslash is an error and matches
    nothing. *)
Fixpoint ilike (p : string) (s : string) {struct p} : bool :=
  match p with
  | EmptyString => JS.is_empty s
  | String c p' =>
      if (Ascii.eqb c "%" || Ascii.eqb c "*")%char then
        (fix any (s : string) : bool :=
           ilike p' s ||
           match s with
           | EmptyString => false
           | String _ s' => any s'
           end) s
      else if Ascii.eqb c "_"%char then
        match s with
        | EmptyString => false
        | String _ s' => ilike p' s'
        end
      else if Ascii.eqb c "\"%char then
        match p' with
        | EmptyString => false
        | String e p'' =>
            match s with
            | EmptyString => false
            | String x s' => Ascii.eqb (lower e) (lower x) && ilike p'' s'
            end
        end
      else
        match s with
        | EmptyString => false
        | String x s' => Ascii.eqb (lower c) (lower x) && ilike p' s'
        end
  end.

(** The two patterns of
    [.or(`name.ilike.%${searchTerm}%,phone_number.ilike.%${searchTerm}%`)],
    for a term that stays inside them (see [leaves_the_filter]). *)
Definition matches (searchTerm : string) (x : debtor) : bool :=
  let pattern := ("%" ++ searchTerm ++ "%")%string in
  ilike pattern (debtor_name x) || ilike pattern (debtor_phone_number x).

(** [.single()]: the row when the result has exactly one row, an error when
    it has none or several. *)
Definition single (A : Type) (rows : list A) : option A :=
  match rows with
  | [x] => Some x
  | _ => None
  end.

(** ** The pages *)

(** What [useAuth()] hands a page: the role shown to the client and the
    signed-in identity ([supabase.auth.getUser()]). *)
Record session : Type := mk_session {
  userRole : option app_role;
  user : option uuid
}.

(** [userRole === 'admin' || userRole === 'staff'] ([Navigation.canWrite];
    each entry page redirects on its negation). *)
Definition canWrite (userRole : option app_role) : bool :=
  match userRole with
  | Some admin | Some staff => true
  | _ => false
  end.

(** Why a page shows a destructive toast. *)
Inductive failure : Type :=
| Please_select_a_debtor
| Exceeds_outstanding_balance (amount balance : JS.number)
| Not_authenticated
| Store_error (e : pg_error).

(** What the person at the page gets back. *)
Inductive outcome : Type :=
| Redirected                      (* navigate('/'); return null: no form *)
| Toast_error (f : failure)       (* variant: "destructive" *)
| Toast_recorded.                 (* the success toast, then navigate('/') *)

(** *** Index.tsx *)

(** A debtor with its totals ([interface Debtor]). *)
Record debtor_totals : Type := mk_totals {
  of_debtor : debtor;
  total_debt : JS.number;
  total_paid : JS.number;
  balance : JS.number
}.

(** The totals [fetchDebtors] derives for one debtor row. *)
Definition index_totals (d : db) (x : debtor) : debtor_totals :=
  let debtsResult := select_debts_eq d (debtor_id x) in
  let paymentsResult := select_payments_eq d (debtor_id x) in
  let totalDebt := JS.or_zero (JS.reduce_sum debt_amount debtsResult) in
  let totalPaid := JS.or_zero (JS.reduce_sum payment_amount paymentsResult) in
  mk_totals x totalDebt totalPaid (JS.sub totalDebt totalPaid).

(** [fetchDebtors]: every debtor, by name, each with its totals. *)
Definition fetchDebtors (d : db) : list debtor_totals :=
  map (index_totals d) (select_debtors_by_name d).

(** *** SearchPage.tsx *)

(** [interface DebtorWithHistory] *)
Record debtor_with_history : Type := mk_history {
  h_debtor : debtor;
  h_total_debt : JS.number;
  h_total_paid : JS.number;
  h_balance : JS.number;
  h_debts : list debt;
  h_payments : list payment
}.

(** The part of [handleSearch] after the debtor row is known. *)
Definition search_history (d : db) (debtorData : debtor) : debtor_with_history :=
  let debts := select_debts_eq_desc d (debtor_id debtorData) in
  let payments := select_payments_eq_desc d (debtor_id debtorData) in
  let totalDebt := JS.reduce_sum debt_amount debts in
  let totalPaid := JS.reduce_sum payment_amount payments in
  mk_history debtorData totalDebt totalPaid (JS.sub totalDebt totalPaid) debts payments.

(** The term is spliced into the filter list as it is, without quotes.
    The list is [(filter,filter)]: a comma in the term ends the first filter
    early and a closing parenthesis ends the list early, so that what
    follows is no longer read as part of the pattern. *)
Fixpoint leaves_the_filter (searchTerm : string) : bool :=
  match searchTerm with
  | EmptyString => false
  | String c t => (Ascii.eqb c "," || Ascii.eqb c ")")%char || leaves_the_filter t
  end.

(** [handleSearch]: [None] when the term is blank (the handler returns at
    once and the page keeps what it showed); otherwise the new
    [searchResult], [None] standing for [null].  A request whose filter
    list is cut by the term is answered with an error, which the handler
    turns into [null]; how the request parser reads the pieces is not part
    of the repository, and every property of a search result below is
    stated for terms that stay inside their filter. *)
Definition handleSearch (searchTerm : string) (d : db)
  : option (option debtor_with_history) :=
  if JS.is_empty (JS.trim searchTerm) then None
  else if leaves_the_filter searchTerm then Some None
  else
    match single (filter (matches searchTerm) (debtors d)) with
    | None => Some None
    | Some debtorData => Some (Some (search_history d debtorData))
    end.

(** *** AddDebtorPage *)

(** [handleSubmit] of the debtor form.  The insert names no [created_by]. *)
Definition AddDebtorPage_handleSubmit (s : session) (fresh_id : uuid)
    (name phoneNumber guarantorName guarantorPhone : string) (d : db)
  : outcome * db :=
  match user s with
  | None => (Toast_error (Store_error rls_violation), d)
  | Some uid =>
      match insert_debtor uid fresh_id
              (JS.trim name) (JS.trim phoneNumber)
              (JS.or_null (JS.trim guarantorName))
              (JS.or_null (JS.trim guarantorPhone)) d with
      | (Error e, d') => (Toast_error (Store_error e), d')
      | (Ok _, d') => (Toast_recorded, d')
      end
  end.

(** The page: without write permission it redirects and renders no form. *)
Definition AddDebtorPage (s : session) (fresh_id : uuid)
    (name phoneNumber guarantorName guarantorPhone : string) (d : db)
  : outcome * db :=
  if negb (canWrite (userRole s)) then (Redirected, d)
  else AddDebtorPage_handleSubmit s fresh_id name phoneNumber guarantorName guarantorPhone d.

(** *** AddDebtPage.tsx *)

(** The amount field is a decimal with two places ([step="0.01"]); the form
    value is given as its number of hundredths. *)
Definition AddDebtPage_handleSubmit (s : session) (fresh_id : uuid)
    (selectedDebtor : string) (amount : Z) (reason : string) (d : db)
  : outcome * db :=
  if JS.is_empty selectedDebtor then (Toast_error Please_select_a_debtor, d)
  else
    match user s with
    | None => (Toast_error Not_authenticated, d)
    | Some uid =>
        match insert_debt uid fresh_id selectedDebtor amount (JS.trim reason) uid d with
        | (Error e, d') => (Toast_error (Store_error e), d')
        | (Ok _, d') => (Toast_recorded, d')
        end
    end.

Definition AddDebtPage (s : session) (fresh_id : uuid)
    (selectedDebtor : string) (amount : Z) (reason : string) (d : db)
  : outcome * db :=
  if negb (canWrite (userRole s)) then (Redirected, d)
  else AddDebtPage_handleSubmit s fresh_id selectedDebtor amount reason d.

(** *** AddPaymentPage *)

(** [interface DebtorWithBalance] *)
Record debtor_with_balance : Type := mk_with_balance {
  wb_id : uuid;
  wb_name : string;
  wb_phone_number : string;
  wb_balance : JS.number
}.

Definition payment_balance (d : db) (x : debtor) : debtor_with_balance :=
  let debtsResult := select_debts_eq d (debtor_id x) in
  let paymentsResult := select_payments_eq d (debtor_id x) in
  let totalDebt := JS.or_zero (JS.reduce_sum debt_amount debtsResult) in
  let totalPaid := JS.or_zero (JS.reduce_sum payment_amount paymentsResult) in
  mk_with_balance (debtor_id x) (debtor_name x) (debtor_phone_number x)
                  (JS.sub totalDebt totalPaid).

(** [fetchDebtorsWithBalance]: the debtors the form offers. *)
Definition fetchDebtorsWithBalance (d : db) : list debtor_with_balance :=
  filter (fun debtor => JS.gt (wb_balance debtor) 0%float)
         (map (payment_balance d) (select_debtors_by_name d)).

(** The [try] block of [handleSubmit]: who is signed in, then the insert. *)
Definition try_record_payment (s : session) (fresh_id : uuid)
    (selectedDebtor : string) (form_amount : Z) (d : db) : outcome * db :=
  match user s with
  | None => (Toast_error Not_authenticated, d)
  | Some uid =>
      match insert_payment uid fresh_id selectedDebtor form_amount uid d with
      | (Error e, d') => (Toast_error (Store_error e), d')
      | (Ok _, d') => (Toast_recorded, d')
      end
  end.

(** [handleSubmit] of the payment form.  [debtors] is the page's state, as
    loaded by [fetchDebtorsWithBalance] when the page was mounted.  The
    amount field is a decimal with two places, given in hundredths. *)
Definition AddPaymentPage_handleSubmit (s : session) (fresh_id : uuid)
    (debtors : list debtor_with_balance)
    (selectedDebtor : string) (form_amount : Z) (d : db)
  : outcome * db :=
  if JS.is_empty selectedDebtor then (Toast_error Please_select_a_debtor, d)
  else
    let amount := JS.Number form_amount in
    let debtor := JS.find (fun x => String.eqb (wb_id x) selectedDebtor) debtors in
    match debtor with
    | Some debtor =>
        (* Check if payment amount exceeds outstanding balance *)
        if JS.gt amount (wb_balance debtor)
        then (Toast_error (Exceeds_outstanding_balance amount (wb_balance debtor)), d)
        else try_record_payment s fresh_id selectedDebtor form_amount d
    | None => try_record_payment s fresh_id selectedDebtor form_amount d
    end.

Definition AddPaymentPage (s : session) (fresh_id : uuid)
    (debtors : list debtor_with_balance)
    (selectedDebtor : string) (form_amount : Z) (d : db)
  : outcome * db :=
  if negb (canWrite (userRole s)) then (Redirected, d)
  else AddPaymentPage_handleSubmit s fresh_id debtors selectedDebtor form_amount d.

(** The page as a person uses it: mount (load the offered debtors), then
    submit against the database as it is by then. *)
Definition AddPaymentPage_session (s : session) (fresh_id : uuid)
    (selectedDebtor : string) (form_amount : Z) (d_mount d_submit : db)
  : outcome * db :=
  AddPaymentPage s fresh_id (fetchDebtorsWithBalance d_mount)
                 selectedDebtor form_amount d_submit.

(** *** What the pages show *)

(** [s.toLowerCase()], on text of one-byte characters (see [ascii_text]),
    where the letters with a lower case are A to Z. *)
Fixpoint toLowerCase (s : string) : string :=
  match s with
  | EmptyString => EmptyString
  | String c s' => String (lower c) (toLowerCase s')
  end.

(** [s.includes(t)] *)
Fixpoint includes (s t : string) : bool :=
  String.prefix t s ||
  match s with
  | EmptyString => false
  | String _ s' => includes s' t
  end.

(** [filteredDebtors] of the dashboard: the loaded debtors whose name
    contains the term, both in lower case, or whose phone number contains
    the term as typed. *)
Definition filteredDebtors (searchTerm : string) (debtors : list debtor_totals)
  : list debtor_totals :=
  filter (fun debtor =>
            includes (toLowerCase (debtor_name (of_debtor debtor))) (toLowerCase searchTerm)
            || includes (debtor_phone_number (of_debtor debtor)) searchTerm)
         debtors.

(** What the dashboard renders below the search box. *)
Inductive dashboard : Type :=
| No_debtors_found_matching_your_search
| No_debtors_registered_yet
| Cards (shown : list debtor_totals).

Definition Index_view (searchTerm : string) (debtors : list debtor_totals) : dashboard :=
  match filteredDebtors searchTerm debtors with
  | [] => if JS.is_empty searchTerm then No_debtors_registered_yet
          else No_debtors_found_matching_your_search
  | shown => Cards shown
  end.

(** The badge of a card: [debtor.balance > 0 ? 'Owes' : 'Paid']. *)
Inductive badge : Type := Owes | Paid.

Definition Index_badge (debtor : debtor_totals) : badge :=
  if JS.gt (balance debtor) 0%float then Owes else Paid.

(** [fetchDebtors] of the debt form: [select('id, name, phone_number').order('name')]. *)
Record debtor_option : Type := mk_option {
  opt_id : uuid;
  opt_name : string;
  opt_phone_number : string
}.

Definition AddDebtPage_fetchDebtors (d : db) : list debtor_option :=
  map (fun x => mk_option (debtor_id x) (debtor_name x) (debtor_phone_number x))
      (select_debtors_by_name d).

(** The [max] of the amount field of the payment form:
    [selectedDebtorData?.balance || undefined]. *)
Definition amount_max (debtors : list debtor_with_balance) (selectedDebtor : string)
  : option JS.number :=
  match JS.find (fun x => String.eqb (wb_id x) selectedDebtor) debtors with
  | Some selectedDebtorData =>
      if JS.truthy (wb_balance selectedDebtorData)
      then Some (wb_balance selectedDebtorData) else None
  | None => None
  end.

(** ** Sample data *)

Module Sample.

Local Open Scope string_scope.

(** One staff member, one admin and one viewer. *)
Definition sam : uuid := "u-staff"%string.
Definition ada : uuid := "u-admin"%string.
Definition vic : uuid := "u-viewer"%string.

Definition people : list uuid := [sam; ada; vic].
Definition roles : list user_role :=
  [mk_user_role sam staff; mk_user_role ada admin; mk_user_role vic viewer].
Definition people_profiles : list profile :=
  [mk_profile sam None (Some "Sam"%string) staff;
   mk_profile ada None (Some "Ada"%string) admin;
   mk_profile vic None (Some "Vic"%string) viewer].

Definition dana : debtor :=
  mk_debtor "d1"%string "Dana"%string "555-0001"%string None None None.
Definition dave : debtor :=
  mk_debtor "d2"%string "Dave"%string "555-0002"%string None None None.

Definition ledger (ds : list debt) (ps : list payment) : db :=
  mk_db people people_profiles roles [dana; dave] ds ps 10.

Definition owes (id : uuid) (n : Z) (cents : Z) (at_ : Z) : debt :=
  mk_debt (String (ascii_of_nat (Z.to_nat (48 + n))) id) id cents "goods"%string at_ sam.
Definition paid (id : uuid) (n : Z) (cents : Z) (at_ : Z) : payment :=
  mk_payment (String (ascii_of_nat (Z.to_nat (48 + n))) id) id cents at_ sam.

(** Dana owes 50.00 and 25.50 and has paid 30.00. *)
Definition spec_example : db :=
  ledger [owes "d1" 1 5000 1; owes "d1" 2 2550 2] [paid "d1" 1 3000 3].

(** Dana's debts 0.10, 0.20, 0.30, recorded in that order. *)
Definition dimes : db :=
  ledger [owes "d1" 1 10 1; owes "d1" 2 20 2; owes "d1" 3 30 3] [].

(** The same three rows, stored in the opposite order. *)
Definition dimes_rev : db :=
  ledger [owes "d1" 3 30 3; owes "d1" 2 20 2; owes "d1" 1 10 1] [].

(** Debts 0.10 and 0.70, no payment. *)
Definition dime_and_seventy : db :=
  ledger [owes "d1" 1 10 1; owes "d1" 2 70 2] [].

(** Debts 0.10 and 0.20, one payment of 0.30. *)
Definition settled : db :=
  ledger [owes "d1" 1 10 1; owes "d1" 2 20 2] [paid "d1" 1 30 3].

(** U+00A0, the no-break space, and U+3000, the ideographic space. *)
Definition nbsp : string :=
  String (ascii_of_nat 194) (String (ascii_of_nat 160) EmptyString).
Definition wide_space : string :=
  String (ascii_of_nat 227) (String (ascii_of_nat 128)
    (String (ascii_of_nat 128) EmptyString)).

(** Nothing but one identity, which is a viewer. *)
Definition one_viewer : db :=
  mk_db [vic] [mk_profile vic None (Some "Vic"%string) viewer]
        [mk_user_role vic viewer] [] [] [] 0.

Definition staff_session : session := mk_session (Some staff) (Some sam).
Definition viewer_session : session := mk_session (Some viewer) (Some vic).

End Sample.

(** * Notions the properties are stated with *)

(** A value that is a NaN or carries the sign [s]. *)
Definition signed (s : bool) (x : spec_float) : Prop :=
  match x with
  | S754_zero s' | S754_infinity s' | S754_finite s' _ _ => s' = s
  | S754_nan => True
  end.

(** ** The ledger of one debtor *)

(** The spec's words, with exact decimal arithmetic on hundredths:
    total_debt = sum of debt.amount, total_paid = sum of payment.amount,
    balance = total_debt - total_paid. *)
Definition decimal_total_debt (d : db) (id : uuid) : Z :=
  fold_right Z.add 0 (map debt_amount (select_debts_eq d id)).

Definition decimal_total_paid (d : db) (id : uuid) : Z :=
  fold_right Z.add 0 (map payment_amount (select_payments_eq d id)).

Definition decimal_balance (d : db) (id : uuid) : Z :=
  decimal_total_debt d id - decimal_total_paid d id.

(** The balance as the client computes it: the binary64 difference of the
    binary64 sums of the stored amounts, each sum passed through [|| 0]. *)
Definition binary64_balance (d : db) (id : uuid) : JS.number :=
  JS.sub (JS.or_zero (JS.reduce_sum debt_amount (select_debts_eq d id)))
         (JS.or_zero (JS.reduce_sum payment_amount (select_payments_eq d id))).

(** One line of a debtor's ledger, as it was accepted. *)
Inductive entry : Type :=
| Debt_of (cents : Z)
| Payment_of (cents : Z).

(** The client's sums over the entries, in the order they were accepted. *)
Definition entries_total_debt (es : list entry) : JS.number :=
  fold_left (fun sum e => match e with
                          | Debt_of a => JS.add sum (JS.Number a)
                          | Payment_of _ => sum
                          end) es 0%float.

Definition entries_total_paid (es : list entry) : JS.number :=
  fold_left (fun sum e => match e with
                          | Payment_of a => JS.add sum (JS.Number a)
                          | Debt_of _ => sum
                          end) es 0%float.

(** The debt amounts and the payment amounts among the entries, in their
    order. *)
Definition entry_debts (es : list entry) : list Z :=
  flat_map (fun e => match e with Debt_of a => [a] | Payment_of _ => [] end) es.

Definition entry_payments (es : list entry) : list Z :=
  flat_map (fun e => match e with Payment_of a => [a] | Debt_of _ => [] end) es.

(** Whether a statement names the debtor [id] as the owner of a row it
    writes, or as the debtor it deletes. *)
Definition concerns (id : uuid) (s : statement) : bool :=
  match s with
  | InsertDebt _ _ debtor_id _ _ _ => String.eqb debtor_id id
  | InsertPayment _ _ debtor_id _ _ => String.eqb debtor_id id
  | DeleteDebtor _ i => String.eqb i id
  | _ => false
  end.

(** [recorded id d es d']: the database went from [d] to [d'] by statements
    among which exactly the entries [es] were accepted for the debtor [id],
    in this order; every other statement is about someone or something else,
    or failed. *)
Inductive recorded (id : uuid) (d : db) : list entry -> db -> Prop :=
| recorded_nil : recorded id d [] d
| recorded_debt es d1 d2 uid i a reason cb :
    recorded id d es d1 ->
    insert_debt uid i id a reason cb d1 = (Ok tt, d2) ->
    recorded id d (es ++ [Debt_of a]) d2
| recorded_payment es d1 d2 uid i a cb :
    recorded id d es d1 ->
    insert_payment uid i id a cb d1 = (Ok tt, d2) ->
    recorded id d (es ++ [Payment_of a]) d2
| recorded_other es d1 s :
    recorded id d es d1 ->
    concerns id s = false \/ exec s d1 = d1 ->
    recorded id d es (exec s d1).

(** ** Integrity *)

(** Referential integrity of [debts.debtor_id] and [payments.debtor_id]. *)
Definition fk_ok (d : db) : Prop :=
  (forall x, In x (debts d) -> has_debtor d (debt_debtor_id x) = true) /\
  (forall x, In x (payments d) -> has_debtor d (payment_debtor_id x) = true).

(** No identity, no profile and no role row. *)
Definition no_identity (d : db) : Prop :=
  users d = [] /\ profiles d = [] /\ user_roles d = [].

(** ** Trimmed text *)

(** White space at the start of a text, and at its end: some tail of the
    text, not empty, is white space only. *)
Definition starts_with_space (s : string) : bool :=
  match JS.skip_space s with
  | Some _ => true
  | None => false
  end.

Fixpoint ends_with_space (s : string) : bool :=
  match s with
  | EmptyString => false
  | String _ s' => JS.all_space s || ends_with_space s'
  end.

(** [t] is [s] with a run of whitespace taken from each end, and has none
    left at either end. *)
Definition trimmed_from (s t : string) : Prop :=
  starts_with_space t = false /\
  ends_with_space t = false /\
  exists pre post, s = (pre ++ t ++ post)%string /\
                   JS.all_space pre = true /\ JS.all_space post = true.

(** ** Substrings up to letter case *)

(** [s] starts with [t], and [s] contains [t], up to the case of letters. *)
Fixpoint prefix_ci (t s : string) : bool :=
  match t with
  | EmptyString => true
  | String c t' =>
      match s with
      | EmptyString => false
      | String x s' => Ascii.eqb (lower c) (lower x) && prefix_ci t' s'
      end
  end.

Fixpoint includes_ci (t s : string) : bool :=
  prefix_ci t s ||
  match s with
  | EmptyString => false
  | String _ s' => includes_ci t s'
  end.

(** Text of one-byte characters only.  On such text a byte is a character,
    the letters with two cases are A to Z, and white space is TAB, LF, VT,
    FF, CR and SPACE: this is where [lower], [toLowerCase] and [ilike] are
    the case folding and the pattern matching of the client and of the
    database. *)
Fixpoint ascii_text (s : string) : bool :=
  match s with
  | EmptyString => true
  | String c s' => (nat_of_ascii c <? 128)%nat && ascii_text s'
  end.

(** The names and phone numbers of all debtors are such text. *)
Definition ascii_debtors (d : db) : bool :=
  forallb (fun x => ascii_text (debtor_name x) && ascii_text (debtor_phone_number x))
          (debtors d).

(** A term without the characters that [ILIKE] and the request syntax read
    specially. *)
Fixpoint plain (t : string) : bool :=
  match t with
  | EmptyString => true
  | String c t' =>
      negb (Ascii.eqb c "%" || Ascii.eqb c "*" || Ascii.eqb c "_" || Ascii.eqb c "\")%char
      && plain t'
  end.

(** ** Constraints of the schema *)

(** [CHECK (amount > 0)] on a [DECIMAL(12,2)] column, for every stored row. *)
Definition amounts_ok (d : db) : Prop :=
  (forall x, In x (debts d) -> 0 < debt_amount x < 1000000000000) /\
  (forall x, In x (payments d) -> 0 < payment_amount x < 1000000000000).

(** The primary keys, and [UNIQUE (user_id, role)]. *)
Definition keys_ok (d : db) : Prop :=
  NoDup (users d) /\
  NoDup (map profile_id (profiles d)) /\
  NoDup (user_roles d) /\
  NoDup (map debtor_id (debtors d)) /\
  NoDup (map debt_id (debts d)) /\
  NoDup (map payment_id (payments d)).

(** The foreign keys of the [created_by] columns. *)
Definition creators_ok (d : db) : Prop :=
  (forall x u, In x (debtors d) -> debtor_created_by x = Some u -> In u (users d)) /\
  (forall x, In x (debts d) -> In (debt_created_by x) (users d)) /\
  (forall x, In x (payments d) -> In (payment_created_by x) (users d)).

(** Rows are stored in the order of their dates, none of them later than
    the clock. *)
Definition chronological (d : db) : Prop :=
  StronglySorted Z.le (map debt_date_recorded (debts d)) /\
  StronglySorted Z.le (map payment_date_paid (payments d)) /\
  (forall x, In x (debts d) -> debt_date_recorded x <= now d) /\
  (forall x, In x (payments d) -> payment_date_paid x <= now d).

(** Nobody is an admin. *)
Definition no_admin (d : db) : Prop := forall u, has_role d u admin = false.

(** A statement that records a debt or a payment for the debtor [id]. *)
Definition records_for (id : uuid) (s : statement) : bool :=
  match s with
  | InsertDebt _ _ debtor_id _ _ _ => String.eqb debtor_id id
  | InsertPayment _ _ debtor_id _ _ => String.eqb debtor_id id
  | _ => false
  end.

(** ** Proof steps *)

(** Case analysis on the first condition in the goal. *)
Ltac case_if :=
  match goal with
  | |- context [if ?b then _ else _] => destruct b eqn:?
  end.

(** * Facts about binary64 arithmetic

    The primitive operations are specified by [FloatAxioms] against the
    executable model [SpecFloat]; the facts below are read off that model. *)

Section Binary64.

Lemma Prim2SF_eq (x y : float) : Prim2SF x = Prim2SF y -> x = y.
Proof.
  intro H.
  rewrite <- (SF2Prim_Prim2SF x), <- (SF2Prim_Prim2SF y).
  now rewrite H.
Qed.

Lemma SF64add_comm (x y : spec_float) : SF64add x y = SF64add y x.
Proof.
  unfold SF64add, SFadd.
  destruct x as [sx|sx| |sx mx ex], y as [sy|sy| |sy my ey]; try reflexivity.
  - destruct sx, sy; reflexivity.
  - destruct sx, sy; reflexivity.
  - rewrite (Z.min_comm ex ey), Z.add_comm. reflexivity.
Qed.

(** Addition of two numbers is commutative. *)
Lemma add_comm (x y : JS.number) : JS.add x y = JS.add y x.
Proof.
  apply Prim2SF_eq. unfold JS.add.
  rewrite !FloatAxioms.add_spec. apply SF64add_comm.
Qed.

(** The first two terms of a sum that starts from [0] can be exchanged. *)
Lemma zero_add_add (x y : JS.number) :
  JS.add (JS.add 0%float x) y = JS.add (JS.add 0%float y) x.
Proof.
  apply Prim2SF_eq. unfold JS.add. rewrite !FloatAxioms.add_spec.
  change (Prim2SF 0%float) with (S754_zero false).
  rewrite (SF64add_comm (SF64add (S754_zero false) (Prim2SF y))).
  generalize (Prim2SF x) (Prim2SF y). intros X Y.
  unfold SF64add, SFadd.
  destruct X as [sx|sx| |sx mx ex], Y as [sy|sy| |sy my ey]; try reflexivity;
    try (destruct sx; try destruct sy; reflexivity).
Qed.

(** No number is greater than itself. *)
Lemma gt_irrefl (x : JS.number) : JS.gt x x = false.
Proof.
  unfold JS.gt. rewrite FloatAxioms.ltb_spec. unfold SFltb, SFcompare.
  destruct (Prim2SF x) as [s|s| |s m e];
    try (destruct s; reflexivity); try reflexivity.
  destruct s; rewrite Z.compare_refl, Pos.compare_cont_refl; reflexivity.
Qed.

Lemma binary_round_aux_signed (s : bool) (m e : Z) (l : SpecFloat.location) :
  signed s (binary_round_aux prec emax s m e l).
Proof.
  unfold binary_round_aux.
  destruct (shr_fexp prec emax m e l) as [r1 e1].
  destruct (shr_fexp prec emax _ e1 loc_Exact) as [r2 e2].
  destruct (shr_m r2); cbn [signed]; auto.
  destruct (e2 <=? emax - prec); cbn [signed]; auto.
Qed.

Lemma of_uint63_signed (n : int) : signed false (Prim2SF (of_uint63 n)).
Proof.
  rewrite of_uint63_spec. unfold binary_normalize.
  pose proof (Uint63.to_Z_bounded n) as B.
  destruct (Uint63.to_Z n) as [|p|p]; simpl; auto.
  - unfold binary_round.
    destruct (shl_align p 0 _) as [mz ez]. apply binary_round_aux_signed.
  - lia.
Qed.

Lemma div_100_signed (x : float) :
  signed false (Prim2SF x) -> signed false (Prim2SF (PrimFloat.div x 100%float)).
Proof.
  rewrite FloatAxioms.div_spec.
  assert (H100 : exists m e, Prim2SF 100%float = S754_finite false m e)
    by (eexists; eexists; vm_compute; reflexivity).
  destruct H100 as (m & e & ->).
  unfold SF64div, SFdiv.
  destruct (Prim2SF x) as [s|s| |s mx ex]; simpl; intro H; subst; auto.
  destruct (SFdiv_core_binary prec emax (Z.pos mx) ex (Z.pos m) e) as [[mz ez] lz].
  apply binary_round_aux_signed.
Qed.

(** [Number] of a positive amount only: what is greater than [0] comes from
    a positive number of hundredths. *)
Lemma Number_gt_zero (cents : Z) :
  - 9007199254740992 < cents ->
  JS.gt (JS.Number cents) 0%float = true -> 0 < cents.
Proof.
  intros Hlow H.
  destruct (Z.ltb_spec cents 0) as [Hneg|Hge].
  - exfalso. revert H. unfold JS.gt, JS.Number.
    destruct (Z.ltb_spec (Z.abs cents) 9007199254740992); [|lia].
    destruct (Z.ltb_spec cents 0); [|lia].
    rewrite FloatAxioms.ltb_spec, FloatAxioms.opp_spec.
    pose proof (div_100_signed _ (of_uint63_signed (Uint63.of_Z (- cents)))) as S.
    change (Prim2SF 0%float) with (S754_zero false).
    destruct (Prim2SF _) as [s|s| |s m e]; simpl in S; subst; simpl; discriminate.
  - destruct (Z.eq_dec cents 0) as [->|]; [|lia].
    exfalso. revert H. vm_compute. discriminate.
Qed.

End Binary64.

Local Open Scope string_scope.

(** * Recording a payment: the overpayment check *)

(** What [insert_payment] needs to succeed.  The debtor's balance is not
    among it: the table accepts any positive amount that fits the column. *)
Lemma insert_payment_accepts (uid id debtor_id : uuid) (amount : Z) (d : db) :
  admin_or_staff d uid = true ->
  fits_decimal_12_2 amount = true ->
  0 < amount ->
  existsb (fun x => String.eqb (payment_id x) id) (payments d) = false ->
  has_debtor d debtor_id = true ->
  existsb (String.eqb uid) (users d) = true ->
  insert_payment uid id debtor_id amount uid d =
    (Ok tt, set_payments d (payments d ++ [mk_payment id debtor_id amount (now d) uid])%list).
Proof.
  intros Hw Hfit Hpos Hfresh Hdeb Huser. unfold insert_payment.
  rewrite Hw, Hfit, Hfresh, Hdeb, Huser.
  destruct (Z.ltb_spec 0 amount); [reflexivity | lia].
Qed.

(** C1, counterexample.  Dana's balance is 45.50 and a staff member submits
    100.00 for her: the form answers with the destructive toast and the
    database is what it was, so no payment row was written and nothing
    accompanies a success. *)
Lemma overpayment_of_100_is_refused :
  let r := AddPaymentPage_session Sample.staff_session "p9" "d1" 10000
             Sample.spec_example Sample.spec_example in
  canWrite (userRole Sample.staff_session) = true /\
  balance (index_totals Sample.spec_example Sample.dana) = 45.5%float /\
  JS.gt (JS.Number 10000) 45.5%float = true /\
  fst r = Toast_error (Exceeds_outstanding_balance 100%float 45.5%float) /\
  snd r = Sample.spec_example.
Proof. vm_compute. repeat split; reflexivity. Qed.

(** C1, as the code has it.  When the amount is greater than the balance the
    page holds for the selected debtor, the submission is refused: the
    outcome is the destructive toast naming both numbers, and the database
    is unchanged. *)
Theorem overpayment_is_refused
    (s : session) (fresh_id : uuid) (selectedDebtor : string) (form_amount : Z)
    (d_mount d : db) (x : debtor_with_balance) :
  canWrite (userRole s) = true ->
  JS.is_empty selectedDebtor = false ->
  JS.find (fun y => String.eqb (wb_id y) selectedDebtor)
          (fetchDebtorsWithBalance d_mount) = Some x ->
  JS.gt (JS.Number form_amount) (wb_balance x) = true ->
  AddPaymentPage_session s fresh_id selectedDebtor form_amount d_mount d =
    (Toast_error (Exceeds_outstanding_balance (JS.Number form_amount) (wb_balance x)), d).
Proof.
  intros Hw Hsel Hfind Hgt.
  unfold AddPaymentPage_session, AddPaymentPage, AddPaymentPage_handleSubmit.
  rewrite Hw, Hsel. cbn [negb]. rewrite Hfind, Hgt. reflexivity.
Qed.

Lemma overpayment_is_refused_witness :
  AddPaymentPage_session Sample.staff_session "p9" "d1" 10000
    Sample.spec_example Sample.spec_example =
  (Toast_error (Exceeds_outstanding_balance (JS.Number 10000) 45.5%float),
   Sample.spec_example).
Proof.
  apply (@overpayment_is_refused Sample.staff_session "p9" "d1" 10000
           Sample.spec_example Sample.spec_example
           (mk_with_balance "d1" "Dana" "555-0001" 45.5%float));
    vm_compute; reflexivity.
Defined.

(** * Searching for a debtor *)

Lemma ilike_percent (p s : string) :
  ilike (String "%" p) s =
  ilike p s || match s with
               | EmptyString => false
               | String _ s' => ilike (String "%" p) s'
               end.
Proof. destruct s; reflexivity. Qed.

Lemma ilike_percent_only (s : string) : ilike "%" s = true.
Proof.
  induction s as [|c s IH]; [reflexivity|].
  rewrite ilike_percent. rewrite IH. apply orb_true_r.
Qed.

Lemma ilike_plain_prefix (t s : string) :
  plain t = true -> ilike (t ++ "%") s = prefix_ci t s.
Proof.
  revert s. induction t as [|c t IH]; intros s Hp.
  - apply ilike_percent_only.
  - simpl in Hp. apply andb_true_iff in Hp. destruct Hp as [Hc Hp].
    apply negb_true_iff in Hc. repeat (apply orb_false_iff in Hc; destruct Hc as [Hc ?]).
    cbn [String.append ilike prefix_ci].
    match goal with H : Ascii.eqb c "%" = false |- _ => rewrite H end.
    match goal with H : Ascii.eqb c "*" = false |- _ => rewrite H end.
    match goal with H : Ascii.eqb c "_" = false |- _ => rewrite H end.
    match goal with H : Ascii.eqb c "\" = false |- _ => rewrite H end.
    cbn [orb]. destruct s as [|x s]; [reflexivity|]. now rewrite IH.
Qed.

(** For a plain term, the filter of the search is containment of the term in
    the name or in the phone number, up to letter case. *)
Lemma ilike_plain (t s : string) :
  plain t = true -> ilike ("%" ++ t ++ "%") s = includes_ci t s.
Proof.
  intro Hp. change ("%" ++ t ++ "%")%string with (String "%" (t ++ "%")).
  induction s as [|x s IH].
  - rewrite ilike_percent, ilike_plain_prefix by exact Hp. reflexivity.
  - rewrite ilike_percent, ilike_plain_prefix by exact Hp.
    cbn [includes_ci]. now rewrite IH.
Qed.

Lemma matches_plain (searchTerm : string) (x : debtor) :
  plain searchTerm = true ->
  matches searchTerm x =
  includes_ci searchTerm (debtor_name x) || includes_ci searchTerm (debtor_phone_number x).
Proof. intro Hp. unfold matches. now rewrite !ilike_plain. Qed.

(** The matching is by substring, whatever the letter case. *)
Example matches_name_any_case : matches "dAn" Sample.dana = true.
Proof. reflexivity. Qed.

Example matches_phone_substring : matches "5-0002" Sample.dave = true.
Proof. reflexivity. Qed.

Example matches_neither : matches "5-0002" Sample.dana = false.
Proof. reflexivity. Qed.

(** C2, counterexample.  Two debtors have the phone numbers 555-0001 and
    555-0002 and both match the query 555; the search ends with the result
    set to null, which the page shows as not found. *)
Lemma search_555_with_two_matches_finds_nothing :
  filter (matches "555") (debtors Sample.spec_example) = [Sample.dana; Sample.dave] /\
  handleSearch "555" Sample.spec_example = Some None.
Proof. vm_compute. split; reflexivity. Qed.

Lemma single_Some (A : Type) (rows : list A) (x : A) :
  single rows = Some x <-> rows = [x].
Proof.
  destruct rows as [|a [|b rows]]; simpl; split; intro H;
    try discriminate; try congruence.
Qed.

Lemma single_None (A : Type) (rows : list A) :
  single rows = None <-> List.length rows <> 1%nat.
Proof.
  destruct rows as [|a [|b rows]]; simpl; split; intro H;
    try discriminate; try congruence; try lia.
Qed.

(** C2, as the code has it.  For a term that is not blank and holds neither
    a comma nor a closing parenthesis, over names, phone numbers and a term
    of one-byte characters, the search gives at most one debtor: it gives a
    debtor exactly when that debtor is the only one that matches, with its
    history, and it gives null exactly when the number of matching debtors
    is not one (none, or two and more). *)
Theorem handleSearch_needs_exactly_one_match (searchTerm : string) (d : db) :
  JS.is_empty (JS.trim searchTerm) = false ->
  leaves_the_filter searchTerm = false ->
  ascii_text searchTerm = true ->
  ascii_debtors d = true ->
  (forall r, handleSearch searchTerm d = Some (Some r) <->
             filter (matches searchTerm) (debtors d) = [h_debtor r] /\
             r = search_history d (h_debtor r)) /\
  (handleSearch searchTerm d = Some None <->
   List.length (filter (matches searchTerm) (debtors d)) <> 1%nat).
Proof.
  intros Hterm Hin _ _. unfold handleSearch. rewrite Hterm, Hin.
  destruct (single (filter (matches searchTerm) (debtors d))) as [x|] eqn:E.
  - apply single_Some in E. split.
    + intro r. split.
      * intro H. injection H as <-. cbn [h_debtor search_history]. auto.
      * intros [H1 H2]. rewrite E in H1. injection H1 as ->. now rewrite <- H2.
    + split; [discriminate|]. rewrite E. simpl. congruence.
  - split.
    + intro r. split; [discriminate|].
      intros [H1 _]. rewrite H1 in E. discriminate.
    + apply single_None in E. tauto.
Qed.

Lemma handleSearch_needs_exactly_one_match_witness :
  (forall r, handleSearch "dana" Sample.spec_example = Some (Some r) <->
             filter (matches "dana") (debtors Sample.spec_example) = [h_debtor r] /\
             r = search_history Sample.spec_example (h_debtor r)) /\
  (handleSearch "dana" Sample.spec_example = Some None <->
   List.length (filter (matches "dana") (debtors Sample.spec_example)) <> 1%nat).
Proof.
  apply (@handleSearch_needs_exactly_one_match "dana" Sample.spec_example);
    reflexivity.
Defined.

(** * Sums of amounts *)

Lemma reduce_sum_snoc (A : Type) (amount : A -> Z) (rows : list A) (r : A) :
  JS.reduce_sum amount (rows ++ [r]) =
  JS.add (JS.reduce_sum amount rows) (JS.Number (amount r)).
Proof. unfold JS.reduce_sum. now rewrite fold_left_app. Qed.

(** The first two rows of a sum can change places. *)
Lemma reduce_sum_swap_head (A : Type) (amount : A -> Z) (a b : A) (rows : list A) :
  JS.reduce_sum amount (a :: b :: rows) = JS.reduce_sum amount (b :: a :: rows).
Proof.
  unfold JS.reduce_sum. cbn [fold_left].
  now rewrite (zero_add_add (JS.Number (amount a)) (JS.Number (amount b))).
Qed.

Lemma reduce_sum_upto_two (A : Type) (amount : A -> Z) (l l' : list A) :
  Permutation l l' -> (List.length l <= 2)%nat ->
  JS.reduce_sum amount l = JS.reduce_sum amount l'.
Proof.
  intros P Hlen.
  destruct l as [|a [|b [|c l]]].
  - apply Permutation_nil in P. now subst.
  - apply Permutation_length_1_inv in P. now subst.
  - apply Permutation_length_2_inv in P. destruct P as [->| ->].
    + reflexivity.
    + apply reduce_sum_swap_head.
  - simpl in Hlen. lia.
Qed.

(** C3, counterexample.  The same three debt rows (0.10, 0.20, 0.30) stored
    in two orders: the total computed for the debtor is
    0.6000000000000001 for one order and 0.6 for the other. *)
Lemma total_of_three_dimes_depends_on_order :
  Permutation (debts Sample.dimes) (debts Sample.dimes_rev) /\
  payments Sample.dimes = payments Sample.dimes_rev /\
  total_debt (index_totals Sample.dimes Sample.dana) = 0x1.3333333333334p-1%float /\
  total_debt (index_totals Sample.dimes_rev Sample.dana) = 0x1.3333333333333p-1%float /\
  total_debt (index_totals Sample.dimes Sample.dana) <>
  total_debt (index_totals Sample.dimes_rev Sample.dana) /\
  balance (index_totals Sample.dimes Sample.dana) <>
  balance (index_totals Sample.dimes_rev Sample.dana).
Proof.
  split; [|split; [|split; [|split; [|split]]]].
  - change (debts Sample.dimes_rev) with (rev (debts Sample.dimes)).
    apply Permutation_rev.
  - reflexivity.
  - vm_compute; reflexivity.
  - vm_compute; reflexivity.
  - vm_compute. intro H. discriminate H.
  - vm_compute. intro H. discriminate H.
Qed.

(** C3, as the code has it.  The totals are binary64 sums taken left to right
    in the order the rows come back.  For a debtor with at most two debt rows
    and at most two payment rows they are the same for every order of the
    rows. *)
Theorem totals_of_up_to_two_rows_ignore_order (d d' : db) (x : debtor) :
  Permutation (select_debts_eq d (debtor_id x)) (select_debts_eq d' (debtor_id x)) ->
  Permutation (select_payments_eq d (debtor_id x)) (select_payments_eq d' (debtor_id x)) ->
  (List.length (select_debts_eq d (debtor_id x)) <= 2)%nat ->
  (List.length (select_payments_eq d (debtor_id x)) <= 2)%nat ->
  index_totals d x = index_totals d' x.
Proof.
  intros Pd Pp Ld Lp. unfold index_totals.
  rewrite (reduce_sum_upto_two debt_amount Pd Ld).
  rewrite (reduce_sum_upto_two payment_amount Pp Lp).
  reflexivity.
Qed.

Lemma totals_of_up_to_two_rows_ignore_order_witness :
  index_totals Sample.settled Sample.dana =
  index_totals
    (Sample.ledger [Sample.owes "d1" 2 20 2; Sample.owes "d1" 1 10 1]
                   [Sample.paid "d1" 1 30 3])
    Sample.dana.
Proof.
  apply (@totals_of_up_to_two_rows_ignore_order Sample.settled
           (Sample.ledger [Sample.owes "d1" 2 20 2; Sample.owes "d1" 1 10 1]
                          [Sample.paid "d1" 1 30 3])
           Sample.dana).
  - apply perm_swap.
  - apply Permutation_refl.
  - simpl. lia.
  - simpl. lia.
Defined.

(** * The balance as the ledger grows *)

Lemma insert_debt_Ok (uid i id : uuid) (a : Z) (reason : string) (cb : uuid) (d d' : db) :
  insert_debt uid i id a reason cb d = (Ok tt, d') ->
  d' = set_debts d (debts d ++ [mk_debt i id a reason (now d) cb]).
Proof.
  unfold insert_debt.
  repeat match goal with
         | |- context [if ?b then _ else _] => destruct b
         end; intro H; inversion H; reflexivity.
Qed.

Lemma insert_debt_Error (uid i id : uuid) (a : Z) (reason : string) (cb : uuid)
    (d : db) (e : pg_error) :
  fst (insert_debt uid i id a reason cb d) = Error e ->
  snd (insert_debt uid i id a reason cb d) = d.
Proof.
  unfold insert_debt.
  repeat match goal with
         | |- context [if ?b then _ else _] => destruct b
         end; simpl; intro H; try reflexivity; discriminate.
Qed.

Lemma insert_payment_Ok (uid i id : uuid) (a : Z) (cb : uuid) (d d' : db) :
  insert_payment uid i id a cb d = (Ok tt, d') ->
  d' = set_payments d (payments d ++ [mk_payment i id a (now d) cb]).
Proof.
  unfold insert_payment.
  repeat match goal with
         | |- context [if ?b then _ else _] => destruct b
         end; intro H; inversion H; reflexivity.
Qed.

Lemma insert_debtor_tables (uid i : uuid) (n p : string) (gn gp : option string) (d : db) :
  debts (snd (insert_debtor uid i n p gn gp d)) = debts d /\
  payments (snd (insert_debtor uid i n p gn gp d)) = payments d.
Proof.
  unfold insert_debtor.
  repeat match goal with
         | |- context [if ?b then _ else _] => destruct b
         end; simpl; auto.
Qed.

Lemma create_user_tables (i : uuid) (p n : option string) (d : db) :
  debtors (snd (create_user i p n d)) = debtors d /\
  debts (snd (create_user i p n d)) = debts d /\
  payments (snd (create_user i p n d)) = payments d.
Proof.
  unfold create_user, handle_new_user.
  repeat match goal with
         | |- context [if ?b then _ else _] => destruct b
         end; simpl; auto.
Qed.

Lemma delete_user_tables (i : uuid) (d : db) :
  debtors (snd (delete_user i d)) = debtors d /\
  debts (snd (delete_user i d)) = debts d /\
  payments (snd (delete_user i d)) = payments d.
Proof.
  unfold delete_user.
  repeat match goal with
         | |- context [if ?b then _ else _] => destruct b
         end; simpl; auto.
Qed.

(** The statements on roles leave the ledger tables alone. *)
Lemma role_statements_keep_ledger (s : statement) (d : db) :
  match s with
  | UpdateOwnProfileRole _ _ | GrantRole _ _ _ | RevokeRole _ _ _ => True
  | _ => False
  end ->
  debtors (exec s d) = debtors d /\
  debts (exec s d) = debts d /\
  payments (exec s d) = payments d.
Proof.
  destruct s; simpl; intro H; try contradiction.
  - auto.
  - unfold grant_role. repeat case_if; simpl; auto.
  - unfold revoke_role. repeat case_if; simpl; auto.
Qed.

(** Filtering for one debtor after removing another debtor's rows. *)
Lemma filter_eq_after_drop (A : Type) (key : A -> uuid) (id other : uuid) (l : list A) :
  String.eqb other id = false ->
  filter (fun x => String.eqb (key x) id)
         (filter (fun x => negb (String.eqb (key x) other)) l) =
  filter (fun x => String.eqb (key x) id) l.
Proof.
  intro Hne. induction l as [|a l IH]; simpl; [reflexivity|].
  destruct (String.eqb (key a) other) eqn:Eo; simpl.
  - apply String.eqb_eq in Eo. rewrite Eo, Hne. exact IH.
  - destruct (String.eqb (key a) id); now rewrite IH.
Qed.

(** A statement that does not concern a debtor leaves the rows that the
    client reads for that debtor as they were. *)
Lemma exec_keeps_rows_of (id : uuid) (s : statement) (d : db) :
  concerns id s = false ->
  select_debts_eq (exec s d) id = select_debts_eq d id /\
  select_payments_eq (exec s d) id = select_payments_eq d id.
Proof.
  unfold select_debts_eq, select_payments_eq.
  destruct s as [i p n|i|u i n p gn gp|u i di a r cb|u i di a cb|u i|u r|u t r|u t r|];
    try (intros _;
         match goal with
         | |- context [exec ?s d] =>
             destruct (@role_statements_keep_ledger s d I) as (_ & -> & ->)
         end;
         now auto);
    simpl; intro Hc.
  - destruct (create_user_tables i p n d) as (_ & -> & ->). auto.
  - destruct (delete_user_tables i d) as (_ & -> & ->). auto.
  - destruct (insert_debtor_tables u i n p gn gp d) as (-> & ->). auto.
  - destruct (insert_debt u i di a r cb d) as [[[]|e] d'] eqn:E.
    + apply insert_debt_Ok in E. subst d'. simpl.
      rewrite filter_app. simpl. rewrite Hc. now rewrite app_nil_r.
    + pose proof (@insert_debt_Error u i di a r cb d e) as H.
      rewrite E in H. simpl in *. rewrite H by reflexivity. auto.
  - destruct (insert_payment u i di a cb d) as [[[]|e] d'] eqn:E.
    + apply insert_payment_Ok in E. subst d'. simpl.
      rewrite filter_app. simpl. rewrite Hc. now rewrite app_nil_r.
    + revert E. unfold insert_payment.
      repeat match goal with
             | |- context [if ?b then _ else _] => destruct b
             end; intro E; inversion E; subst; auto.
  - unfold delete_debtor.
    destruct (negb (has_role d u admin)); simpl; auto.
    destruct (List.length _); simpl; auto.
    split; apply filter_eq_after_drop; exact Hc.
  - auto.
Qed.

Lemma recorded_sums (id : uuid) (d : db) (es : list entry) (d' : db) :
  recorded id d es d' ->
  select_debts_eq d id = [] ->
  select_payments_eq d id = [] ->
  JS.reduce_sum debt_amount (select_debts_eq d' id) = entries_total_debt es /\
  JS.reduce_sum payment_amount (select_payments_eq d' id) = entries_total_paid es.
Proof.
  intros R Hd Hp.
  induction R as [|es d1 d2 uid i a reason cb R IH E
                  |es d1 d2 uid i a cb R IH E
                  |es d1 s R IH Hs].
  - rewrite Hd, Hp. split; reflexivity.
  - destruct IH as [IHd IHp]. apply insert_debt_Ok in E. subst d2.
    unfold select_debts_eq, select_payments_eq in *. simpl.
    rewrite filter_app. simpl. rewrite String.eqb_refl.
    rewrite reduce_sum_snoc, IHd. cbn [debt_amount].
    unfold entries_total_debt, entries_total_paid in *.
    rewrite !fold_left_app. simpl. auto.
  - destruct IH as [IHd IHp]. apply insert_payment_Ok in E. subst d2.
    unfold select_debts_eq, select_payments_eq in *. simpl.
    rewrite filter_app. simpl. rewrite String.eqb_refl.
    rewrite reduce_sum_snoc, IHp. cbn [payment_amount].
    unfold entries_total_debt, entries_total_paid in *.
    rewrite !fold_left_app. simpl. auto.
  - destruct Hs as [Hs|Hs].
    + destruct (exec_keeps_rows_of id s d1 Hs) as [-> ->]. exact IH.
    + rewrite Hs. exact IH.
Qed.

(** The rows that are read for the debtor carry the accepted amounts, in the
    order of acceptance. *)
Lemma recorded_rows (id : uuid) (d : db) (es : list entry) (d' : db) :
  recorded id d es d' ->
  select_debts_eq d id = [] ->
  select_payments_eq d id = [] ->
  map debt_amount (select_debts_eq d' id) = entry_debts es /\
  map payment_amount (select_payments_eq d' id) = entry_payments es.
Proof.
  intros R Hd Hp. unfold entry_debts, entry_payments.
  induction R as [|es d1 d2 uid i a reason cb R IH E
                  |es d1 d2 uid i a cb R IH E
                  |es d1 s R IH Hs].
  - rewrite Hd, Hp. split; reflexivity.
  - destruct IH as [IHd IHp]. apply insert_debt_Ok in E. subst d2.
    unfold select_debts_eq, select_payments_eq in *. simpl.
    rewrite filter_app. simpl. rewrite String.eqb_refl.
    rewrite map_app, !flat_map_app, IHd, IHp. simpl. rewrite app_nil_r. auto.
  - destruct IH as [IHd IHp]. apply insert_payment_Ok in E. subst d2.
    unfold select_debts_eq, select_payments_eq in *. simpl.
    rewrite filter_app. simpl. rewrite String.eqb_refl.
    rewrite map_app, !flat_map_app, IHd, IHp. simpl. rewrite app_nil_r. auto.
  - destruct Hs as [Hs|Hs].
    + destruct (exec_keeps_rows_of id s d1 Hs) as [-> ->]. exact IH.
    + rewrite Hs. exact IH.
Qed.

Lemma reduce_sum_map (A : Type) (amount : A -> Z) (rows : list A) :
  JS.reduce_sum amount rows =
  fold_left (fun sum a => JS.add sum (JS.Number a)) (map amount rows) 0%float.
Proof.
  unfold JS.reduce_sum. generalize 0%float.
  induction rows as [|r rows IH]; intro acc; simpl; [reflexivity | apply IH].
Qed.

Lemma entries_total_debt_amounts (es : list entry) :
  entries_total_debt es =
  fold_left (fun sum a => JS.add sum (JS.Number a)) (entry_debts es) 0%float.
Proof.
  unfold entries_total_debt, entry_debts. generalize 0%float.
  induction es as [|[a|a] es IH]; intro acc; simpl; [reflexivity | apply IH | apply IH].
Qed.

Lemma entries_total_paid_amounts (es : list entry) :
  entries_total_paid es =
  fold_left (fun sum a => JS.add sum (JS.Number a)) (entry_payments es) 0%float.
Proof.
  unfold entries_total_paid, entry_payments. generalize 0%float.
  induction es as [|[a|a] es IH]; intro acc; simpl; [reflexivity | apply IH | apply IH].
Qed.

Lemma entry_debts_rev (es : list entry) : entry_debts (rev es) = rev (entry_debts es).
Proof.
  unfold entry_debts. induction es as [|[a|a] es IH]; simpl; [reflexivity| |].
  - rewrite flat_map_app, IH. reflexivity.
  - rewrite flat_map_app, IH. simpl. apply app_nil_r.
Qed.

Lemma entry_payments_rev (es : list entry) :
  entry_payments (rev es) = rev (entry_payments es).
Proof.
  unfold entry_payments. induction es as [|[a|a] es IH]; simpl; [reflexivity| |].
  - rewrite flat_map_app, IH. simpl. apply app_nil_r.
  - rewrite flat_map_app, IH. reflexivity.
Qed.

(** Rows whose dates grow from each to the next come back in the opposite
    order when they are asked for newest first. *)
Lemma rev_order_of_increasing (A : Type) (date : A -> Z) (l : list A) :
  StronglySorted Z.lt (map date l) ->
  order (fun x y => (date y <=? date x)%Z) l = rev l.
Proof.
  induction l as [|a l IH]; simpl; intro H; [reflexivity|].
  apply StronglySorted_inv in H. destruct H as [HS HF].
  rewrite IH by exact HS.
  assert (Hins : forall m, (forall y, In y m -> date a < date y) ->
            insert_by (fun x y => (date y <=? date x)%Z) a m = (m ++ [a])%list).
  { induction m as [|b m IHm]; simpl; intro Hm; [reflexivity|].
    destruct (Z.leb_spec (date b) (date a)) as [Hle|Hlt].
    - specialize (Hm b (or_introl eq_refl)). lia.
    - rewrite IHm; [reflexivity|]. intros y Hy. apply Hm. now right. }
  apply Hins. intros y Hy. apply in_rev in Hy.
  rewrite Forall_forall in HF. apply HF. now apply in_map.
Qed.

(** C4, counterexample.  Debts of 0.10 and 0.20 and one payment of 0.30: the
    decimal amounts give a total debt of 0.30 and a balance of 0, while the
    page computes a total debt of 0.30000000000000004 and a balance of
    5.551115123125783e-17, which is greater than 0. *)
Lemma balance_of_settled_ledger_is_not_zero :
  decimal_total_debt Sample.settled "d1" = 30 /\
  decimal_balance Sample.settled "d1" = 0 /\
  total_debt (index_totals Sample.settled Sample.dana) <>
    JS.Number (decimal_total_debt Sample.settled "d1") /\
  balance (index_totals Sample.settled Sample.dana) <>
    JS.Number (decimal_balance Sample.settled "d1") /\
  JS.gt (balance (index_totals Sample.settled Sample.dana)) 0%float = true.
Proof.
  split; [reflexivity|]. split; [reflexivity|].
  split; [|split].
  - vm_compute. intro H. discriminate H.
  - vm_compute. intro H. discriminate H.
  - vm_compute. reflexivity.
Qed.

(** C4, as the code has it.  For every debtor and every sequence of
    statements, starting where the debtor has no rows: the totals read for
    the debtor are binary64 sums of the debt amounts and of the payment
    amounts accepted for that debtor, and the balance is their binary64
    difference.  Rows of other debtors and failed statements contribute
    nothing.  The list page adds the amounts in the order of acceptance.
    The search page adds them newest first: where the dates of the debtor's
    debts grow from each to the next, and those of its payments, that is
    the reverse of the order of acceptance. *)
Theorem balance_on_read_of_recorded_entries
    (id : uuid) (d : db) (es : list entry) (d' : db) (x : debtor) :
  recorded id d es d' ->
  debtor_id x = id ->
  select_debts_eq d id = [] ->
  select_payments_eq d id = [] ->
  index_totals d' x =
    mk_totals x
      (JS.or_zero (entries_total_debt es))
      (JS.or_zero (entries_total_paid es))
      (JS.sub (JS.or_zero (entries_total_debt es))
              (JS.or_zero (entries_total_paid es))) /\
  (StronglySorted Z.lt (map debt_date_recorded (select_debts_eq d' id)) ->
   StronglySorted Z.lt (map payment_date_paid (select_payments_eq d' id)) ->
   h_total_debt (search_history d' x) = entries_total_debt (rev es) /\
   h_total_paid (search_history d' x) = entries_total_paid (rev es) /\
   h_balance (search_history d' x) =
     JS.sub (entries_total_debt (rev es)) (entries_total_paid (rev es))).
Proof.
  intros R Hx Hd Hp. split.
  - unfold index_totals. rewrite Hx.
    destruct (recorded_sums R Hd Hp) as [-> ->]. reflexivity.
  - intros Sd Sp.
    destruct (recorded_rows R Hd Hp) as [Rd Rp].
    assert (Ed : h_total_debt (search_history d' x) = entries_total_debt (rev es)).
    { unfold search_history, select_debts_eq_desc. cbn [h_total_debt]. rewrite Hx.
      rewrite (rev_order_of_increasing debt_date_recorded _ Sd).
      rewrite reduce_sum_map, map_rev, Rd, entries_total_debt_amounts, entry_debts_rev.
      reflexivity. }
    assert (Ep : h_total_paid (search_history d' x) = entries_total_paid (rev es)).
    { unfold search_history, select_payments_eq_desc. cbn [h_total_paid]. rewrite Hx.
      rewrite (rev_order_of_increasing payment_date_paid _ Sp).
      rewrite reduce_sum_map, map_rev, Rp, entries_total_paid_amounts, entry_payments_rev.
      reflexivity. }
    split; [exact Ed|]. split; [exact Ep|].
    rewrite <- Ed, <- Ep. reflexivity.
Qed.

(** The two ledgers the specification names: no entry at all gives
    {0, 0, 0}; debts 50.00 and 25.50 with one payment 30.00, entered at
    three different times, give 75.5, 30 and 45.5 on both pages. *)
Lemma balance_on_read_of_recorded_entries_witness :
  index_totals (Sample.ledger [] []) Sample.dana =
    mk_totals Sample.dana 0%float 0%float 0%float /\
  index_totals
    (run [InsertDebt Sample.sam "1d1" "d1" 5000 "goods" Sample.sam;
          InsertDebt Sample.sam "9d2" "d2" 999 "other" Sample.sam;
          Tick;
          InsertDebt Sample.sam "2d1" "d1" 2550 "goods" Sample.sam;
          InsertPayment Sample.vic "0d1" "d1" 100 Sample.vic;
          Tick;
          InsertPayment Sample.sam "1d1" "d1" 3000 Sample.sam]
         (Sample.ledger [] []))
    Sample.dana =
    mk_totals Sample.dana 75.5%float 30%float 45.5%float /\
  h_balance
    (search_history
       (run [InsertDebt Sample.sam "1d1" "d1" 5000 "goods" Sample.sam;
             InsertDebt Sample.sam "9d2" "d2" 999 "other" Sample.sam;
             Tick;
             InsertDebt Sample.sam "2d1" "d1" 2550 "goods" Sample.sam;
             InsertPayment Sample.vic "0d1" "d1" 100 Sample.vic;
             Tick;
             InsertPayment Sample.sam "1d1" "d1" 3000 Sample.sam]
            (Sample.ledger [] []))
       Sample.dana) = 45.5%float.
Proof.
  split.
  - apply (@balance_on_read_of_recorded_entries "d1" (Sample.ledger [] []) []
             (Sample.ledger [] []) Sample.dana).
    + apply recorded_nil.
    + reflexivity.
    + reflexivity.
    + reflexivity.
  - destruct (@balance_on_read_of_recorded_entries "d1" (Sample.ledger [] [])
             ((([] ++ [Debt_of 5000]) ++ [Debt_of 2550]) ++ [Payment_of 3000])%list
             (run [InsertDebt Sample.sam "1d1" "d1" 5000 "goods" Sample.sam;
                   InsertDebt Sample.sam "9d2" "d2" 999 "other" Sample.sam;
                   Tick;
                   InsertDebt Sample.sam "2d1" "d1" 2550 "goods" Sample.sam;
                   InsertPayment Sample.vic "0d1" "d1" 100 Sample.vic;
                   Tick;
                   InsertPayment Sample.sam "1d1" "d1" 3000 Sample.sam]
                  (Sample.ledger [] []))
             Sample.dana) as [H1 H2].
    + eapply (@recorded_payment "d1" _ _ _ _ Sample.sam "1d1" 3000 Sample.sam).
      * eapply (@recorded_other "d1" _ _ _ Tick).
        -- eapply (@recorded_other "d1" _ _ _
                     (InsertPayment Sample.vic "0d1" "d1" 100 Sample.vic)).
           ++ eapply (@recorded_debt "d1" _ _ _ _ Sample.sam "2d1" 2550 "goods" Sample.sam).
              ** eapply (@recorded_other "d1" _ _ _ Tick).
                 --- eapply (@recorded_other "d1" _ _ _
                               (InsertDebt Sample.sam "9d2" "d2" 999 "other" Sample.sam)).
                     +++ eapply (@recorded_debt "d1" _ _ _ _
                                   Sample.sam "1d1" 5000 "goods" Sample.sam).
                         *** apply recorded_nil.
                         *** reflexivity.
                     +++ left. reflexivity.
                 --- left. reflexivity.
              ** reflexivity.
           ++ right. reflexivity.
        -- left. reflexivity.
      * reflexivity.
    + reflexivity.
    + reflexivity.
    + reflexivity.
    + split; [exact H1|].
      destruct H2 as (_ & _ & H2).
      * simpl. repeat constructor.
      * simpl. repeat constructor.
      * rewrite H2. reflexivity.
Defined.

(** * Writes by a viewer *)

(** C5, counterexample.  Vic holds the role viewer only.  The statement that
    deletes Dana on Vic's behalf completes without an error: it reports zero
    rows deleted and leaves the database as it was. *)
Lemma viewer_delete_raises_no_error :
  get_user_role Sample.spec_example Sample.vic = Some viewer /\
  has_role Sample.spec_example Sample.vic admin = false /\
  has_role Sample.spec_example Sample.vic staff = false /\
  has_debtor Sample.spec_example "d1" = true /\
  delete_debtor Sample.vic "d1" Sample.spec_example = (Ok 0%nat, Sample.spec_example) /\
  (forall e, fst (delete_debtor Sample.vic "d1" Sample.spec_example) <> Error e).
Proof.
  repeat split; try reflexivity.
  intros e H. discriminate H.
Qed.

(** C5, as the code has it.  For a caller whose role is viewer, in the session
    and in [user_roles]: the three entry pages redirect and submit nothing;
    an insert into [debtors], [debts] or [payments] sent in the caller's name
    is refused with an error, which is that of the insert policy unless the
    amount does not fit the column (that one is found first); a delete on
    [debtors] sees no row and reports zero rows deleted, without an error.
    None of the seven changes the database. *)
Theorem viewer_writes_change_nothing (s : session) (uid : uuid) (d : db) :
  userRole s = Some viewer ->
  has_role d uid admin = false ->
  has_role d uid staff = false ->
  (forall fresh n p gn gp, AddDebtorPage s fresh n p gn gp d = (Redirected, d)) /\
  (forall fresh sel a r, AddDebtPage s fresh sel a r d = (Redirected, d)) /\
  (forall fresh l sel a, AddPaymentPage s fresh l sel a d = (Redirected, d)) /\
  (forall id n p gn gp, insert_debtor uid id n p gn gp d = (Error rls_violation, d)) /\
  (forall id did a r cb,
     insert_debt uid id did a r cb d =
       (Error (if fits_decimal_12_2 a then rls_violation else numeric_overflow), d)) /\
  (forall id did a cb,
     insert_payment uid id did a cb d =
       (Error (if fits_decimal_12_2 a then rls_violation else numeric_overflow), d)) /\
  (forall id, delete_debtor uid id d = (Ok 0%nat, d)).
Proof.
  intros Hs Ha Hst.
  unfold AddDebtorPage, AddDebtPage, AddPaymentPage,
         insert_debtor, insert_debt, insert_payment, delete_debtor, admin_or_staff.
  rewrite Hs, Ha, Hst. simpl.
  repeat split; try reflexivity; intros; now destruct (fits_decimal_12_2 a).
Qed.

Lemma viewer_writes_change_nothing_witness :
  AddDebtorPage Sample.viewer_session "d3" "Eve" "555-0003" " " " " Sample.spec_example
    = (Redirected, Sample.spec_example) /\
  insert_payment Sample.vic "p9" "d1" 100 Sample.vic Sample.spec_example
    = (Error rls_violation, Sample.spec_example) /\
  delete_debtor Sample.vic "d1" Sample.spec_example = (Ok 0%nat, Sample.spec_example).
Proof.
  pose proof (@viewer_writes_change_nothing Sample.viewer_session Sample.vic
                Sample.spec_example eq_refl eq_refl eq_refl)
    as (H1 & _ & _ & _ & _ & H6 & H7).
  split; [apply H1 | split; [apply H6 | apply H7]].
Defined.

(** * Deleting a debtor *)

Lemma has_debtor_app (d : db) (l : list debtor) (id : uuid) :
  has_debtor d id = true -> has_debtor (set_debtors d (debtors d ++ l)) id = true.
Proof.
  unfold has_debtor. simpl. rewrite existsb_app. intros ->. reflexivity.
Qed.

Lemma existsb_filter_other (id other : uuid) (l : list debtor) :
  String.eqb other id = false ->
  existsb (fun x => String.eqb (debtor_id x) other)
          (filter (fun x => negb (String.eqb (debtor_id x) id)) l) =
  existsb (fun x => String.eqb (debtor_id x) other) l.
Proof.
  intro Hne. induction l as [|a l IH]; simpl; [reflexivity|].
  destruct (String.eqb (debtor_id a) id) eqn:E; simpl.
  - apply String.eqb_eq in E. rewrite E.
    rewrite String.eqb_sym, Hne. exact IH.
  - now rewrite IH.
Qed.

Lemma existsb_filter_self (id : uuid) (l : list debtor) :
  existsb (fun x => String.eqb (debtor_id x) id)
          (filter (fun x => negb (String.eqb (debtor_id x) id)) l) = false.
Proof.
  induction l as [|a l IH]; simpl; [reflexivity|].
  destruct (String.eqb (debtor_id a) id) eqn:E; simpl; [exact IH|].
  now rewrite E, IH.
Qed.

Lemma filter_eq_after_drop_self (A : Type) (key : A -> uuid) (id : uuid) (l : list A) :
  filter (fun x => String.eqb (key x) id)
         (filter (fun x => negb (String.eqb (key x) id)) l) = [].
Proof.
  induction l as [|a l IH]; simpl; [reflexivity|].
  destruct (String.eqb (key a) id) eqn:E; simpl; [exact IH|].
  now rewrite E, IH.
Qed.

Lemma filter_none (A : Type) (p : A -> bool) (l : list A) :
  (forall x, In x l -> p x = false) -> filter p l = [].
Proof.
  induction l as [|a l IH]; simpl; intro H; [reflexivity|].
  rewrite (H a) by auto. apply IH. auto.
Qed.

Lemma existsb_length_filter (A : Type) (p : A -> bool) (l : list A) :
  existsb p l = negb (Nat.eqb (List.length (filter p l)) 0).
Proof.
  induction l as [|a l IH]; simpl; [reflexivity|].
  destruct (p a); simpl; auto.
Qed.

(** An accepted debt or payment names a debtor that exists. *)
Lemma insert_debt_Ok_debtor (uid i id : uuid) (a : Z) (reason : string) (cb : uuid)
    (d d' : db) :
  insert_debt uid i id a reason cb d = (Ok tt, d') -> has_debtor d id = true.
Proof.
  unfold insert_debt. repeat case_if; intro H; try discriminate.
  now apply negb_false_iff.
Qed.

Lemma insert_payment_Ok_debtor (uid i id : uuid) (a : Z) (cb : uuid) (d d' : db) :
  insert_payment uid i id a cb d = (Ok tt, d') -> has_debtor d id = true.
Proof.
  unfold insert_payment. repeat case_if; intro H; try discriminate.
  now apply negb_false_iff.
Qed.

(** Every statement keeps referential integrity. *)
Lemma exec_keeps_fk (s : statement) (d : db) : fk_ok d -> fk_ok (exec s d).
Proof.
  intros [Hd Hp].
  destruct s as [i p n|i|u i n p gn gp|u i di a r cb|u i di a cb|u i|u r|u t r|u t r|];
    try (match goal with
         | |- context [exec ?s d] =>
             destruct (@role_statements_keep_ledger s d I) as (E1 & E2 & E3)
         end;
         unfold fk_ok, has_debtor; rewrite E1, E2, E3; now split);
    simpl.
  - destruct (create_user_tables i p n d) as (E1 & E2 & E3).
    unfold fk_ok, has_debtor. rewrite E1, E2, E3. split; assumption.
  - destruct (delete_user_tables i d) as (E1 & E2 & E3).
    unfold fk_ok, has_debtor. rewrite E1, E2, E3. split; assumption.
  - unfold insert_debtor.
    destruct (negb (admin_or_staff d u)); [split; assumption|].
    destruct (has_debtor d i); [split; assumption|].
    cbn [snd]. split; intros x Hx; apply has_debtor_app; auto.
  - destruct (insert_debt u i di a r cb d) as [[[]|e] d'] eqn:E.
    + pose proof E as E'. apply insert_debt_Ok in E'. subst d'. cbn [snd].
      assert (Hdi : has_debtor d di = true) by (eapply insert_debt_Ok_debtor; exact E).
      split; simpl.
      * intros x Hx. apply in_app_or in Hx. destruct Hx as [Hx|[<-|[]]].
        -- apply (Hd x Hx).
        -- exact Hdi.
      * exact Hp.
    + pose proof (@insert_debt_Error u i di a r cb d e) as H.
      rewrite E in H. simpl in *. rewrite H by reflexivity. split; assumption.
  - destruct (insert_payment u i di a cb d) as [[[]|e] d'] eqn:E.
    + pose proof E as E'. apply insert_payment_Ok in E'. subst d'. cbn [snd].
      assert (Hdi : has_debtor d di = true) by (eapply insert_payment_Ok_debtor; exact E).
      split; simpl.
      * exact Hd.
      * intros x Hx. apply in_app_or in Hx. destruct Hx as [Hx|[<-|[]]].
        -- apply (Hp x Hx).
        -- exact Hdi.
    + revert E. unfold insert_payment.
      repeat match goal with
             | |- context [if ?b then _ else _] => destruct b
             end; intro E; inversion E; subst; split; assumption.
  - unfold delete_debtor.
    destruct (negb (has_role d u admin)); [split; assumption|].
    destruct (List.length _); [split; assumption|].
    cbn [snd]. split; simpl; intros x Hx; apply filter_In in Hx;
      destruct Hx as [Hx Hne]; apply negb_true_iff in Hne;
      unfold has_debtor; simpl; rewrite existsb_filter_other by exact Hne.
    + apply (Hd x Hx).
    + apply (Hp x Hx).
  - split; assumption.
Qed.

Lemma observable_keep_fk (ss : list statement) (d : db) :
  fk_ok d -> Forall fk_ok (observable ss d).
Proof.
  revert d. induction ss as [|s ss IH]; intros d H; simpl.
  - constructor; [exact H | constructor].
  - constructor; [exact H|]. apply IH. now apply exec_keeps_fk.
Qed.

(** C6.  A delete of the debtor [id] sent by an admin removes the debtor row
    and every debt and payment row that references it, and touches no row of
    any other debtor.  The delete is one statement: the states a reader can
    observe are the one before and the one after, and in every state of
    every run that starts with it the debts and payments reference debtors
    that exist, so a debtor that is gone with rows of its own left behind is
    never seen. *)
Theorem delete_debtor_cascades (uid id : uuid) (d : db) :
  has_role d uid admin = true ->
  fk_ok d ->
  let d' := snd (delete_debtor uid id d) in
  has_debtor d' id = false /\
  select_debts_eq d' id = [] /\
  select_payments_eq d' id = [] /\
  (forall other, String.eqb other id = false ->
     has_debtor d' other = has_debtor d other /\
     select_debts_eq d' other = select_debts_eq d other /\
     select_payments_eq d' other = select_payments_eq d other) /\
  observable [DeleteDebtor uid id] d = [d; d'] /\
  (forall ss, Forall fk_ok (observable (DeleteDebtor uid id :: ss) d)).
Proof.
  intros Hadm Hfk d'.
  assert (Hobs : forall ss, Forall fk_ok (observable (DeleteDebtor uid id :: ss) d))
    by (intro ss; now apply observable_keep_fk).
  split; [|split; [|split; [|split; [|split]]]]; try exact Hobs; try reflexivity;
    subst d'; unfold delete_debtor; rewrite Hadm; cbn [negb];
    destruct (List.length (filter (fun x => String.eqb (debtor_id x) id) (debtors d)))
      as [|n] eqn:Elen; cbn [snd].
  - unfold has_debtor. rewrite existsb_length_filter, Elen. reflexivity.
  - unfold has_debtor. simpl. apply existsb_filter_self.
  - assert (Hno : has_debtor d id = false)
      by (unfold has_debtor; rewrite existsb_length_filter, Elen; reflexivity).
    apply filter_none. intros x Hx.
    destruct (String.eqb (debt_debtor_id x) id) eqn:E; [|reflexivity].
    apply String.eqb_eq in E. destruct Hfk as [Hd _].
    specialize (Hd x Hx). rewrite E in Hd. congruence.
  - unfold select_debts_eq. simpl. apply filter_eq_after_drop_self.
  - assert (Hno : has_debtor d id = false)
      by (unfold has_debtor; rewrite existsb_length_filter, Elen; reflexivity).
    apply filter_none. intros x Hx.
    destruct (String.eqb (payment_debtor_id x) id) eqn:E; [|reflexivity].
    apply String.eqb_eq in E. destruct Hfk as [_ Hp].
    specialize (Hp x Hx). rewrite E in Hp. congruence.
  - unfold select_payments_eq. simpl. apply filter_eq_after_drop_self.
  - auto.
  - intros other Hne. unfold has_debtor, select_debts_eq, select_payments_eq. simpl.
    rewrite existsb_filter_other by exact Hne.
    rewrite !filter_eq_after_drop by (rewrite String.eqb_sym; exact Hne).
    auto.
Qed.

Lemma sample_fk_ok : fk_ok Sample.spec_example.
Proof.
  split; intros x Hx; simpl in Hx;
    repeat (destruct Hx as [<-|Hx]; [reflexivity|]); destruct Hx.
Defined.

Lemma delete_debtor_cascades_witness :
  let d' := snd (delete_debtor Sample.ada "d1" Sample.spec_example) in
  has_debtor d' "d1" = false /\
  select_debts_eq d' "d1" = [] /\
  select_payments_eq d' "d1" = [] /\
  (forall other, String.eqb other "d1" = false ->
     has_debtor d' other = has_debtor Sample.spec_example other /\
     select_debts_eq d' other = select_debts_eq Sample.spec_example other /\
     select_payments_eq d' other = select_payments_eq Sample.spec_example other) /\
  observable [DeleteDebtor Sample.ada "d1"] Sample.spec_example =
    [Sample.spec_example; d'] /\
  (forall ss, Forall fk_ok
                (observable (DeleteDebtor Sample.ada "d1" :: ss) Sample.spec_example)).
Proof.
  apply (@delete_debtor_cascades Sample.ada "d1" Sample.spec_example).
  - reflexivity.
  - exact sample_fk_ok.
Defined.

(** * Registering a debtor *)

Lemma trim_start_skip (s : string) :
  JS.trim_start s = match JS.skip_space s with
                    | Some r => JS.trim_start r
                    | None => s
                    end.
Proof.
  destruct s as [|a [|b [|c r]]]; simpl; try reflexivity;
    repeat (match goal with |- context [if ?x then _ else _] => destruct x end;
            simpl; try reflexivity).
Qed.

Lemma all_space_skip (s : string) :
  JS.all_space s = match s with
                   | EmptyString => true
                   | _ => match JS.skip_space s with
                          | Some r => JS.all_space r
                          | None => false
                          end
                   end.
Proof.
  destruct s as [|a [|b [|c r]]]; simpl; try reflexivity;
    repeat (match goal with |- context [if ?x then _ else _] => destruct x end;
            simpl; try reflexivity).
Qed.

(** The text is then a white space code point followed by the rest. *)
Lemma skip_space_Some (s r : string) :
  JS.skip_space s = Some r ->
  exists w, s = w ++ r /\ JS.all_space w = true /\ w <> EmptyString /\
            (String.length r < String.length s)%nat.
Proof.
  destruct s as [|a [|b [|c t]]]; simpl; try discriminate.
  - destruct (JS.is_space a) eqn:Ea; [|discriminate].
    intro H; injection H as <-. exists (String a EmptyString). simpl. rewrite Ea.
    repeat split; [discriminate | lia].
  - destruct (JS.is_space a) eqn:Ea.
    + intro H; injection H as <-. exists (String a EmptyString). simpl. rewrite Ea.
      repeat split; [discriminate | lia].
    + destruct (JS.is_space2 a b) eqn:Eb; [|discriminate].
      intro H; injection H as <-. exists (String a (String b EmptyString)). simpl.
      rewrite Ea, Eb. repeat split; [discriminate | lia].
  - destruct (JS.is_space a) eqn:Ea.
    + intro H; injection H as <-. exists (String a EmptyString). simpl. rewrite Ea.
      repeat split; [discriminate | lia].
    + destruct (JS.is_space2 a b) eqn:Eb.
      * intro H; injection H as <-. exists (String a (String b EmptyString)). simpl.
        rewrite Ea, Eb. repeat split; [discriminate | lia].
      * destruct (JS.is_space3 a b c) eqn:Ec; [|discriminate].
        intro H; injection H as <-.
        exists (String a (String b (String c EmptyString))). simpl.
        rewrite Ea, Eb, Ec. repeat split; [discriminate | lia].
Qed.

(** What a text starts with is not changed by what is put after it. *)
Lemma skip_space_app (s r t : string) :
  JS.skip_space s = Some r -> JS.skip_space (s ++ t) = Some (r ++ t).
Proof.
  destruct s as [|a [|b [|c u]]]; simpl; try discriminate.
  - destruct (JS.is_space a); [|discriminate]. intro H; injection H as <-. reflexivity.
  - destruct (JS.is_space a).
    + intro H; injection H as <-. reflexivity.
    + destruct (JS.is_space2 a b); [|discriminate]. intro H; injection H as <-. reflexivity.
  - destruct (JS.is_space a).
    + intro H; injection H as <-. reflexivity.
    + destruct (JS.is_space2 a b).
      * intro H; injection H as <-. reflexivity.
      * destruct (JS.is_space3 a b c); [|discriminate].
        intro H; injection H as <-. reflexivity.
Qed.

Lemma by_length (P : string -> Prop) :
  (forall s, (forall r, (String.length r < String.length s)%nat -> P r) -> P s) ->
  forall s, P s.
Proof.
  intros H s.
  assert (G : forall n r, (String.length r < n)%nat -> P r).
  { induction n as [|n IH]; intros r Hr; [lia|].
    apply H. intros r' Hr'. apply IH. lia. }
  apply (G (S (String.length s))). lia.
Qed.

Lemma all_space_app (s t : string) :
  JS.all_space s = true -> JS.all_space (s ++ t) = JS.all_space t.
Proof.
  revert s. apply (by_length (fun s => JS.all_space s = true ->
                                       JS.all_space (s ++ t) = JS.all_space t)).
  intros s IH Hs.
  destruct s as [|a s']; [reflexivity|].
  rewrite all_space_skip in Hs.
  destruct (JS.skip_space (String a s')) as [r|] eqn:E; [|discriminate].
  destruct (skip_space_Some _ E) as (w & Hw & _ & _ & Hlen).
  rewrite all_space_skip.
  change (String a s' ++ t) with (String a (s' ++ t)) at 1. cbv iota.
  rewrite (skip_space_app _ t E). apply IH; assumption.
Qed.

Lemma all_space_app_true (s t : string) :
  JS.all_space s = true -> JS.all_space t = true -> JS.all_space (s ++ t) = true.
Proof. intros Hs Ht. now rewrite all_space_app. Qed.

Lemma trim_start_spec (s : string) :
  starts_with_space (JS.trim_start s) = false /\
  exists pre, s = (pre ++ JS.trim_start s)%string /\ JS.all_space pre = true.
Proof.
  revert s. apply by_length. intros s IH.
  rewrite trim_start_skip. unfold starts_with_space.
  destruct (JS.skip_space s) as [r|] eqn:E.
  - destruct (skip_space_Some _ E) as (w & Hw & Hall & _ & Hlen).
    destruct (IH r Hlen) as (H1 & pre & H2 & H3).
    split; [exact H1|].
    exists (w ++ pre). split.
    + rewrite Hw at 1. rewrite H2 at 1. 
      clear. induction w; simpl; congruence.
    + now apply all_space_app_true.
  - rewrite E. split; [reflexivity|]. exists EmptyString. auto.
Qed.

Lemma trim_end_spec (s : string) :
  ends_with_space (JS.trim_end s) = false /\
  exists post, s = (JS.trim_end s ++ post)%string /\ JS.all_space post = true.
Proof.
  induction s as [|c s (IH1 & post & IH2 & IH3)].
  - split; [reflexivity|]. exists EmptyString. auto.
  - cbn [JS.trim_end]. destruct (JS.all_space (String c s)) eqn:E.
    + split; [reflexivity|]. exists (String c s). auto.
    + split.
      * cbn [ends_with_space]. rewrite IH1, orb_false_r.
        destruct (JS.all_space (String c (JS.trim_end s))) eqn:E'; [|reflexivity].
        assert (X : JS.all_space (String c (JS.trim_end s) ++ post) = true)
          by (rewrite (all_space_app _ post E'); exact IH3).
        cbn [append] in X. rewrite <- IH2 in X. congruence.
      * exists post. simpl. rewrite <- IH2. auto.
Qed.

Lemma trim_end_prefix (s : string) : exists post, s = JS.trim_end s ++ post.
Proof. destruct (trim_end_spec s) as (_ & post & H & _). now exists post. Qed.

Lemma trim_end_keeps_start (s : string) :
  starts_with_space s = false -> starts_with_space (JS.trim_end s) = false.
Proof.
  unfold starts_with_space. intro H.
  destruct (JS.skip_space (JS.trim_end s)) as [r|] eqn:E; [|reflexivity].
  destruct (trim_end_prefix s) as [post Hp].
  rewrite Hp in H. now rewrite (skip_space_app _ post E) in H.
Qed.

Lemma trim_spec (s : string) : trimmed_from s (JS.trim s).
Proof.
  unfold trimmed_from, JS.trim.
  destruct (trim_start_spec s) as (H1 & pre & H2 & H3).
  destruct (trim_end_spec (JS.trim_start s)) as (H4 & post & H5 & H6).
  split; [now apply trim_end_keeps_start|]. split; [exact H4|].
  exists pre, post. rewrite <- H5. auto.
Qed.

Lemma trim_start_clean (s : string) : starts_with_space s = false -> JS.trim_start s = s.
Proof.
  unfold starts_with_space. intro H. rewrite trim_start_skip.
  now destruct (JS.skip_space s).
Qed.

Lemma trim_end_clean (s : string) : ends_with_space s = false -> JS.trim_end s = s.
Proof.
  induction s as [|c s IH]; [reflexivity|].
  cbn [ends_with_space JS.trim_end]. intro H. apply orb_false_iff in H. destruct H as [H1 H2].
  rewrite H1, IH; auto.
Qed.

Lemma trim_trim (t : string) : JS.trim (JS.trim t) = JS.trim t.
Proof.
  destruct (trim_spec t) as (H1 & H2 & _).
  unfold JS.trim at 1. rewrite (trim_start_clean _ H1). now apply trim_end_clean.
Qed.

(** A text that is white space only is trimmed to nothing, and only such a text is. *)
Lemma trim_empty_iff (s : string) : JS.trim s = EmptyString <-> JS.all_space s = true.
Proof.
  split.
  - intro H. destruct (trim_spec s) as (_ & _ & pre & post & Hs & Hpre & Hpost).
    rewrite H in Hs. simpl in Hs. rewrite Hs. now apply all_space_app_true.
  - intro H. unfold JS.trim.
    destruct (trim_start_spec s) as (H1 & pre & H2 & H3).
    rewrite H2, (all_space_app _ _ H3) in H.
    destruct (JS.trim_start s) as [|c r] eqn:E; [reflexivity|].
    cbn [JS.trim_end]. now rewrite H.
Qed.

Lemma or_null_spec (s : string) :
  JS.or_null s <> Some EmptyString /\
  (JS.or_null s = None <-> s = EmptyString) /\
  (forall t, JS.or_null s = Some t -> t = s).
Proof.
  destruct s as [|c s]; unfold JS.or_null; simpl.
  - split; [discriminate|]. split; [tauto|]. discriminate.
  - split; [discriminate|]. split.
    + split; discriminate.
    + intros t H. now injection H.
Qed.

(** C7, counterexample.  A staff member submits the debtor form with a name
    made of three spaces.  The insert is accepted: the success toast is
    shown and the new row holds the empty string as its name. *)
Lemma blank_name_is_accepted :
  JS.trim "   " = EmptyString /\
  let r := AddDebtorPage Sample.staff_session "d3" "   " " 555-0100 " " " " Gus "
             Sample.spec_example in
  fst r = Toast_recorded /\
  debtors (snd r) =
    (debtors Sample.spec_example ++
     [mk_debtor "d3" EmptyString "555-0100" None (Some "Gus") None])%list.
Proof. vm_compute. repeat split; reflexivity. Qed.

(** C7, as the code has it.  A debtor form submitted by a caller who may
    write, under an unused id, with a name and a phone number that are not
    blank, is accepted, and the row holds the name and the phone number with
    the white space at both ends removed, and each guarantor field likewise,
    or NULL when the field is blank; a guarantor field is never stored as
    the empty string.  White space is what [String.prototype.trim] removes,
    the no-break space and the other spaces of more than one byte
    included. *)
Theorem AddDebtorPage_stores_trimmed
    (s : session) (uid fresh_id : uuid)
    (name phoneNumber guarantorName guarantorPhone : string) (d : db) :
  canWrite (userRole s) = true ->
  user s = Some uid ->
  admin_or_staff d uid = true ->
  has_debtor d fresh_id = false ->
  JS.all_space name = false ->
  JS.all_space phoneNumber = false ->
  AddDebtorPage s fresh_id name phoneNumber guarantorName guarantorPhone d =
    (Toast_recorded,
     set_debtors d
       (debtors d ++
        [mk_debtor fresh_id (JS.trim name) (JS.trim phoneNumber)
           (JS.or_null (JS.trim guarantorName))
           (JS.or_null (JS.trim guarantorPhone)) None])%list) /\
  trimmed_from name (JS.trim name) /\
  trimmed_from phoneNumber (JS.trim phoneNumber) /\
  JS.trim name <> EmptyString /\
  JS.trim phoneNumber <> EmptyString /\
  trimmed_from guarantorName (JS.trim guarantorName) /\
  trimmed_from guarantorPhone (JS.trim guarantorPhone) /\
  JS.or_null (JS.trim guarantorName) <> Some EmptyString /\
  JS.or_null (JS.trim guarantorPhone) <> Some EmptyString /\
  (JS.or_null (JS.trim guarantorName) = None <-> JS.all_space guarantorName = true) /\
  (JS.or_null (JS.trim guarantorPhone) = None <-> JS.all_space guarantorPhone = true).
Proof.
  intros Hw Hu Hrole Hfresh Hname Hphone.
  split.
  - unfold AddDebtorPage, AddDebtorPage_handleSubmit, insert_debtor.
    rewrite Hw, Hu, Hrole, Hfresh. reflexivity.
  - destruct (or_null_spec (JS.trim guarantorName)) as (G1 & G2 & _).
    destruct (or_null_spec (JS.trim guarantorPhone)) as (Q1 & Q2 & _).
    rewrite trim_empty_iff in G2, Q2.
    repeat (split; [apply trim_spec|]).
    split; [rewrite trim_empty_iff; congruence|].
    split; [rewrite trim_empty_iff; congruence|].
    repeat (split; [apply trim_spec|]).
    split; [exact G1|]. split; [exact Q1|]. split; [exact G2 | exact Q2].
Qed.

(** A name that comes with a no-break space in front and a space behind, a
    guarantor name that is one ideographic space. *)
Lemma AddDebtorPage_stores_trimmed_witness :
  AddDebtorPage Sample.staff_session "d3"
    (Sample.nbsp ++ "Eve Adams ") " 555-0100" Sample.wide_space " Gus "
    Sample.spec_example =
  (Toast_recorded,
   set_debtors Sample.spec_example
     (debtors Sample.spec_example ++
      [mk_debtor "d3" "Eve Adams" "555-0100" None (Some "Gus") None])%list).
Proof.
  destruct (@AddDebtorPage_stores_trimmed Sample.staff_session Sample.sam "d3"
              (Sample.nbsp ++ "Eve Adams ") " 555-0100" Sample.wide_space " Gus "
              Sample.spec_example
              eq_refl eq_refl eq_refl eq_refl eq_refl eq_refl) as [H _].
  rewrite H. reflexivity.
Defined.

(** * Roles of identities *)

Lemma existsb_eqb_In (u : uuid) (l : list uuid) :
  existsb (String.eqb u) l = true <-> In u l.
Proof.
  rewrite existsb_exists. split.
  - intros (x & Hx & E). apply String.eqb_eq in E. now subst.
  - intro H. exists u. split; [exact H | apply String.eqb_refl].
Qed.

Lemma find_filter_other (u other : uuid) (l : list profile) :
  String.eqb u other = false ->
  List.find (fun p => String.eqb (profile_id p) u)
            (filter (fun p => negb (String.eqb (profile_id p) other)) l) =
  List.find (fun p => String.eqb (profile_id p) u) l.
Proof.
  intro Hne. induction l as [|a l IH]; simpl; [reflexivity|].
  destruct (String.eqb (profile_id a) other) eqn:Eo; simpl.
  - apply String.eqb_eq in Eo. rewrite Eo, String.eqb_sym, Hne. exact IH.
  - destruct (String.eqb (profile_id a) u); [reflexivity | exact IH].
Qed.

Lemma has_role_filter_other (d : db) (u other : uuid) (r : app_role) (l : list user_role) :
  String.eqb u other = false ->
  existsb (fun x => String.eqb (ur_user_id x) u && app_role_eqb (ur_role x) r)
          (filter (fun x => negb (String.eqb (ur_user_id x) other)) l) =
  existsb (fun x => String.eqb (ur_user_id x) u && app_role_eqb (ur_role x) r) l.
Proof.
  intro Hne. induction l as [|a l IH]; simpl; [reflexivity|].
  destruct (String.eqb (ur_user_id a) other) eqn:Eo; simpl.
  - apply String.eqb_eq in Eo. rewrite Eo, String.eqb_sym, Hne. exact IH.
  - now rewrite IH.
Qed.

(** The role tables after a statement on the ledger are what they were. *)
Lemma ledger_statements_keep_identities (s : statement) (d : db) :
  match s with
  | InsertDebtor _ _ _ _ _ _ | InsertDebt _ _ _ _ _ _ | InsertPayment _ _ _ _ _
  | DeleteDebtor _ _ | Tick => True
  | _ => False
  end ->
  users (exec s d) = users d /\
  profiles (exec s d) = profiles d /\
  user_roles (exec s d) = user_roles d.
Proof.
  destruct s; simpl; intro H; try contradiction.
  - unfold insert_debtor. repeat case_if; simpl; auto.
  - unfold insert_debt. repeat case_if; simpl; auto.
  - unfold insert_payment. repeat case_if; simpl; auto.
  - unfold delete_debtor. repeat case_if; simpl; auto.
  - auto.
Qed.

Lemma find_map_profile (u : uuid) (f : profile -> profile) (l : list profile) :
  (forall p, profile_id (f p) = profile_id p) ->
  List.find (fun p => String.eqb (profile_id p) u) (map f l) =
  option_map f (List.find (fun p => String.eqb (profile_id p) u) l).
Proof.
  intro Hf. induction l as [|a l IH]; simpl; [reflexivity|].
  rewrite Hf. destruct (String.eqb (profile_id a) u); [reflexivity | exact IH].
Qed.

(** Under the function's search path the name of the type of the two casts
    resolves to nothing, so the trigger function raises whatever the new row
    is; with [public] on the path it would resolve. *)
Lemma handle_new_user_raises (id : uuid) (phone name : option string) (d : db) :
  handle_new_user id phone name d = (Error undefined_object, d).
Proof. reflexivity. Qed.

(** The insert on [auth.users] therefore fails as a whole. *)
Lemma create_user_raises (id : uuid) (phone name : option string) (d : db) :
  create_user id phone name d =
    (Error (if existsb (String.eqb id) (users d)
            then unique_violation else undefined_object), d).
Proof.
  unfold create_user. destruct (existsb (String.eqb id) (users d)); reflexivity.
Qed.

Lemma exec_SignUp (id : uuid) (phone name : option string) (d : db) :
  exec (SignUp id phone name) d = d.
Proof. simpl. now rewrite create_user_raises. Qed.

(** Where there is no identity, no profile and no role row, no statement
    makes one. *)
Lemma exec_keeps_no_identity (s : statement) (d : db) :
  no_identity d -> no_identity (exec s d).
Proof.
  intros (Hu & Hp & Hr).
  destruct s as [i p n|i|u i n p gn gp|u i di a r cb|u i di a cb|u i|u r|u t r|u t r|];
    try (match goal with
         | |- no_identity (exec ?s d) =>
             destruct (@ledger_statements_keep_identities s d I) as (E1 & E2 & E3)
         end;
         unfold no_identity; rewrite E1, E2, E3; auto).
  - rewrite exec_SignUp. unfold no_identity. auto.
  - simpl. unfold delete_user. case_if; unfold no_identity; cbn [snd]; simpl;
      rewrite ?Hu, ?Hp, ?Hr; auto.
  - unfold no_identity. simpl. rewrite Hu, Hp, Hr. auto.
  - simpl. unfold grant_role, has_role. rewrite Hr. simpl. unfold no_identity. auto.
  - simpl. unfold revoke_role, has_role. rewrite Hr. simpl. unfold no_identity. auto.
Qed.

(** C8, the code at a sign-up.  The trigger function is declared with
    [SET search_path = ''] and casts ['viewer'::app_role] without the schema
    of the type: the name resolves to no type, the function raises, and the
    insert on [auth.users] that fired it is undone.  Every sign-up ends with
    an error and leaves the database as it was: the new identity gets no
    role, because no identity comes to exist.  Starting from the empty
    database, no state of any run holds an identity, a profile or a role
    row. *)
Theorem sign_up_raises_and_writes_nothing
    (id : uuid) (phone name : option string) (d : db) :
  resolve_type handle_new_user_search_path "app_role" = false /\
  resolve_type ["public"] "app_role" = true /\
  create_user id phone name d =
    (Error (if existsb (String.eqb id) (users d)
            then unique_violation else undefined_object), d) /\
  (forall ss, Forall no_identity (observable ss empty_db)).
Proof.
  split; [reflexivity|]. split; [reflexivity|]. split; [apply create_user_raises|].
  intro ss.
  assert (H0 : no_identity empty_db) by (unfold no_identity; simpl; auto).
  revert H0. generalize empty_db. induction ss as [|s ss IH]; intros d0 H0; simpl.
  - constructor; [exact H0 | constructor].
  - constructor; [exact H0|]. apply IH. now apply exec_keeps_no_identity.
Qed.

(** The sign-up of Nia in the empty database. *)
Example sign_up_of_nia :
  create_user "u-new" None (Some "Nia") empty_db = (Error undefined_object, empty_db) /\
  get_user_role (snd (create_user "u-new" None (Some "Nia") empty_db)) "u-new" = None /\
  has_role (snd (create_user "u-new" None (Some "Nia") empty_db)) "u-new" viewer = false.
Proof. repeat split. Qed.

(** * The list page and the search page *)

Lemma insert_by_In (A : Type) (leb : A -> A -> bool) (x y : A) (l : list A) :
  In y (insert_by leb x l) <-> y = x \/ In y l.
Proof.
  induction l as [|a l IH]; simpl.
  - intuition.
  - destruct (leb x a); simpl; [intuition | rewrite IH; intuition].
Qed.

Lemma order_In (A : Type) (leb : A -> A -> bool) (y : A) (l : list A) :
  In y (order leb l) <-> In y l.
Proof.
  induction l as [|a l IH]; simpl; [tauto|].
  rewrite insert_by_In, IH. intuition.
Qed.

Lemma insert_by_Permutation (A : Type) (leb : A -> A -> bool) (x : A) (l : list A) :
  Permutation (insert_by leb x l) (x :: l).
Proof.
  induction l as [|a l IH]; simpl; [apply Permutation_refl|].
  destruct (leb x a); [apply Permutation_refl|].
  apply perm_trans with (a :: x :: l); [now apply perm_skip | apply perm_swap].
Qed.

Lemma order_Permutation (A : Type) (leb : A -> A -> bool) (l : list A) :
  Permutation (order leb l) l.
Proof.
  induction l as [|a l IH]; simpl; [constructor|].
  apply perm_trans with (a :: order leb l);
    [apply insert_by_Permutation | now apply perm_skip].
Qed.

(** [x || 0] is [x] unless [x] is NaN or the negative zero. *)
Lemma or_zero_id (x : JS.number) :
  PrimFloat.classify x <> NaN -> PrimFloat.classify x <> NZero -> JS.or_zero x = x.
Proof.
  intros Hnan Hnz. unfold JS.or_zero, JS.truthy.
  destruct (PrimFloat.classify x) eqn:E; try reflexivity; try contradiction.
  rewrite classify_spec in E. unfold SF64classify, SFclassify in E.
  rewrite <- (SF2Prim_Prim2SF x).
  destruct (Prim2SF x) as [s|s| |s m e]; cbn beta iota in E.
  - destruct s; [discriminate E | reflexivity].
  - destruct s; discriminate E.
  - discriminate E.
  - revert E. repeat case_if; discriminate.
Qed.

(** C9, counterexample.  Dana's debts 0.10, 0.20 and 0.30 were recorded in
    this order.  The list page sums them as stored and shows a total debt of
    0.6000000000000001; the search page sums them newest first and shows
    0.6.  The balances differ in the same way. *)
Lemma list_and_search_totals_differ :
  In (index_totals Sample.dimes Sample.dana) (fetchDebtors Sample.dimes) /\
  total_debt (index_totals Sample.dimes Sample.dana) = 0x1.3333333333334p-1%float /\
  h_total_debt (search_history Sample.dimes Sample.dana) = 0x1.3333333333333p-1%float /\
  total_debt (index_totals Sample.dimes Sample.dana) <>
    h_total_debt (search_history Sample.dimes Sample.dana) /\
  balance (index_totals Sample.dimes Sample.dana) <>
    h_balance (search_history Sample.dimes Sample.dana).
Proof.
  split; [left; reflexivity|].
  split; [vm_compute; reflexivity|].
  split; [vm_compute; reflexivity|].
  split; vm_compute; intro H; discriminate H.
Qed.

(** C9, as the code has it.  The list page gives exactly one entry per debtor
    row, computed by the per-debtor function from the rows of that debtor
    only: a statement that does not concern the debtor leaves its totals
    unchanged, and leaves the rows that either page reads for it unchanged.
    Both pages add the same amounts, the list page as they are stored and
    the search page newest first.  For a debtor with at most two debts the list page's
    total debt is the search page's passed through [|| 0], whatever the
    order of the rows; likewise for the payments; and with at most two of
    each, the balance is the difference of the two. *)
Theorem fetchDebtors_totals_against_search (d : db) (x : debtor) :
  In x (debtors d) ->
  In (index_totals d x) (fetchDebtors d) /\
  (forall t, In t (fetchDebtors d) -> exists y, In y (debtors d) /\ t = index_totals d y) /\
  List.length (fetchDebtors d) = List.length (debtors d) /\
  (forall s, concerns (debtor_id x) s = false ->
     total_debt (index_totals (exec s d) x) = total_debt (index_totals d x) /\
     total_paid (index_totals (exec s d) x) = total_paid (index_totals d x) /\
     balance (index_totals (exec s d) x) = balance (index_totals d x) /\
     select_debts_eq (exec s d) (debtor_id x) = select_debts_eq d (debtor_id x) /\
     select_payments_eq (exec s d) (debtor_id x) = select_payments_eq d (debtor_id x)) /\
  ((List.length (select_debts_eq d (debtor_id x)) <= 2)%nat ->
   total_debt (index_totals d x) = JS.or_zero (h_total_debt (search_history d x))) /\
  ((List.length (select_payments_eq d (debtor_id x)) <= 2)%nat ->
   total_paid (index_totals d x) = JS.or_zero (h_total_paid (search_history d x))) /\
  ((List.length (select_debts_eq d (debtor_id x)) <= 2)%nat ->
   (List.length (select_payments_eq d (debtor_id x)) <= 2)%nat ->
   balance (index_totals d x) =
     JS.sub (JS.or_zero (h_total_debt (search_history d x)))
            (JS.or_zero (h_total_paid (search_history d x)))).
Proof.
  intro Hin.
  assert (Hlen : forall (A : Type) (leb : A -> A -> bool) (l : list A),
            List.length (order leb l) = List.length l).
  { intros A leb l. apply Permutation_length, order_Permutation. }
  assert (Hd : (List.length (select_debts_eq d (debtor_id x)) <= 2)%nat ->
               JS.reduce_sum debt_amount (select_debts_eq d (debtor_id x)) =
               JS.reduce_sum debt_amount (select_debts_eq_desc d (debtor_id x))).
  { intro H. apply reduce_sum_upto_two; [|exact H].
    apply Permutation_sym, order_Permutation. }
  assert (Hp : (List.length (select_payments_eq d (debtor_id x)) <= 2)%nat ->
               JS.reduce_sum payment_amount (select_payments_eq d (debtor_id x)) =
               JS.reduce_sum payment_amount (select_payments_eq_desc d (debtor_id x))).
  { intro H. apply reduce_sum_upto_two; [|exact H].
    apply Permutation_sym, order_Permutation. }
  split; [|split; [|split; [|split; [|split; [|split]]]]].
  - unfold fetchDebtors, select_debtors_by_name.
    apply in_map. now apply order_In.
  - intros t Ht. unfold fetchDebtors, select_debtors_by_name in Ht.
    apply in_map_iff in Ht. destruct Ht as (y & <- & Hy).
    exists y. split; [now apply order_In in Hy | reflexivity].
  - unfold fetchDebtors, select_debtors_by_name.
    now rewrite length_map, Hlen.
  - intros s Hs. unfold index_totals. cbn [total_debt total_paid balance].
    destruct (exec_keeps_rows_of (debtor_id x) s d Hs) as [-> ->]. repeat split.
  - intro H. unfold index_totals, search_history. cbn [total_debt h_total_debt].
    now rewrite (Hd H).
  - intro H. unfold index_totals, search_history. cbn [total_paid h_total_paid].
    now rewrite (Hp H).
  - intros H1 H2. unfold index_totals, search_history.
    cbn [balance h_total_debt h_total_paid].
    now rewrite (Hd H1), (Hp H2).
Qed.

(** Dana's debts 0.10 and 0.20, stored oldest first, and her one payment. *)
Lemma fetchDebtors_totals_against_search_witness :
  List.length (fetchDebtors Sample.settled) = 2%nat /\
  total_debt (index_totals Sample.settled Sample.dana) =
    JS.or_zero (h_total_debt (search_history Sample.settled Sample.dana)) /\
  balance (index_totals Sample.settled Sample.dana) =
    JS.sub (JS.or_zero (h_total_debt (search_history Sample.settled Sample.dana)))
           (JS.or_zero (h_total_paid (search_history Sample.settled Sample.dana))).
Proof.
  destruct (@fetchDebtors_totals_against_search Sample.settled Sample.dana)
    as (_ & _ & H3 & _ & H5 & _ & H7).
  - left. reflexivity.
  - split; [exact H3|]. split.
    + apply H5. simpl. lia.
    + apply H7; simpl; lia.
Defined.

(** * Paying exactly the balance *)

Lemma find_some_wb (sel : string) (l : list debtor_with_balance) (x : debtor_with_balance) :
  JS.find (fun y => String.eqb (wb_id y) sel) l = Some x -> In x l /\ wb_id x = sel.
Proof.
  unfold JS.find. intro H. apply find_some in H. destruct H as [Hin E].
  apply String.eqb_eq in E. auto.
Qed.

(** The offered debtors all have a balance greater than 0. *)
Lemma offered_balance_positive (d : db) (x : debtor_with_balance) :
  In x (fetchDebtorsWithBalance d) -> JS.gt (wb_balance x) 0%float = true.
Proof.
  unfold fetchDebtorsWithBalance. intro H. apply filter_In in H. tauto.
Qed.

(** What the form offers are debtors of the table, each with the balance
    computed from its rows. *)
Lemma offered_is_computed (d : db) (y : debtor_with_balance) :
  In y (fetchDebtorsWithBalance d) ->
  wb_balance y = binary64_balance d (wb_id y) /\
  JS.gt (wb_balance y) 0%float = true /\
  exists x, In x (debtors d) /\ debtor_id x = wb_id y.
Proof.
  unfold fetchDebtorsWithBalance. intro H. apply filter_In in H. destruct H as [H Hpos].
  apply in_map_iff in H. destruct H as (x & <- & Hx).
  split; [reflexivity|]. split; [exact Hpos|].
  exists x. split; [|reflexivity]. unfold select_debtors_by_name in Hx.
  now apply order_In in Hx.
Qed.

Lemma computed_is_offered (d : db) (x : debtor) :
  In x (debtors d) ->
  JS.gt (binary64_balance d (debtor_id x)) 0%float = true ->
  In (payment_balance d x) (fetchDebtorsWithBalance d).
Proof.
  intros Hx Hpos. unfold fetchDebtorsWithBalance. apply filter_In. split; [|exact Hpos].
  apply in_map. unfold select_debtors_by_name. now apply order_In.
Qed.

(** Selecting a debtor whose computed balance is greater than 0 finds an
    offered entry that carries that balance. *)
Lemma find_offered (d : db) (x : debtor) :
  In x (debtors d) ->
  JS.gt (binary64_balance d (debtor_id x)) 0%float = true ->
  exists y, JS.find (fun y => String.eqb (wb_id y) (debtor_id x))
                    (fetchDebtorsWithBalance d) = Some y /\
            wb_balance y = binary64_balance d (debtor_id x).
Proof.
  intros Hx Hpos.
  destruct (JS.find _ (fetchDebtorsWithBalance d)) as [y|] eqn:E.
  - exists y. split; [reflexivity|].
    destruct (find_some_wb _ _ E) as [Hin Hid].
    destruct (@offered_is_computed d y Hin) as [Hb _]. now rewrite Hb, Hid.
  - exfalso. unfold JS.find in E.
    pose proof (find_none _ _ E _ (@computed_is_offered d x Hx Hpos)) as H.
    simpl in H. now rewrite String.eqb_refl in H.
Qed.

(** The computed balance of a debtor with one debt and no payment, when it
    is greater than 0, is the number of that debt. *)
Lemma balance_of_one_debt (n : JS.number) :
  JS.gt (JS.sub (JS.or_zero (JS.add 0%float n)) (JS.or_zero 0%float)) 0%float = true ->
  JS.sub (JS.or_zero (JS.add 0%float n)) (JS.or_zero 0%float) = n.
Proof.
  change (JS.or_zero 0%float) with 0%float.
  assert (Hadd : Prim2SF (JS.add 0%float n) = SF64add (S754_zero false) (Prim2SF n)).
  { unfold JS.add. now rewrite FloatAxioms.add_spec. }
  destruct (Prim2SF n) as [s|s| |s m e] eqn:En.
  - assert (E0 : JS.add 0%float n = 0%float).
    { apply Prim2SF_eq. rewrite Hadd. destruct s; reflexivity. }
    rewrite E0. vm_compute. discriminate.
  - assert (E0 : JS.add 0%float n = n).
    { apply Prim2SF_eq. rewrite Hadd, En. reflexivity. }
    rewrite E0. intros _.
    assert (E1 : JS.or_zero n = n).
    { apply or_zero_id; rewrite classify_spec, En; destruct s; discriminate. }
    rewrite E1. apply Prim2SF_eq. unfold JS.sub.
    rewrite FloatAxioms.sub_spec, En. reflexivity.
  - assert (E0 : JS.or_zero (JS.add 0%float n) = 0%float).
    { unfold JS.or_zero, JS.truthy. rewrite classify_spec, Hadd. reflexivity. }
    rewrite E0. vm_compute. discriminate.
  - assert (E0 : JS.add 0%float n = n).
    { apply Prim2SF_eq. rewrite Hadd, En. reflexivity. }
    rewrite E0. intros _.
    assert (E1 : JS.or_zero n = n).
    { apply or_zero_id; rewrite classify_spec, En;
        unfold SF64classify, SFclassify; repeat case_if; discriminate. }
    rewrite E1. apply Prim2SF_eq. unfold JS.sub.
    rewrite FloatAxioms.sub_spec, En. reflexivity.
Qed.

(** C10, counterexample.  Dana's debts are 0.10 and 0.70, so her balance is
    0.80.  The page computes 0.7999999999999999 for her, and a payment of
    0.80, which is exactly her balance, is answered with the destructive
    toast of the overpayment check: nothing is written.  And a debtor whose
    balance is 0 (debts 0.10 and 0.20, one payment of 0.30) is among those
    the form offers, with the computed balance 5.551115123125783e-17. *)
Lemma payment_of_the_balance_080_is_refused :
  decimal_balance Sample.dime_and_seventy "d1" = 80 /\
  AddPaymentPage_session Sample.staff_session "p9" "d1" 80
    Sample.dime_and_seventy Sample.dime_and_seventy =
    (Toast_error (Exceeds_outstanding_balance 0x1.999999999999ap-1%float
                                              0x1.9999999999999p-1%float),
     Sample.dime_and_seventy) /\
  decimal_balance Sample.settled "d1" = 0 /\
  In (mk_with_balance "d1" "Dana" "555-0001" 0x1p-54%float)
     (fetchDebtorsWithBalance Sample.settled).
Proof.
  split; [reflexivity|]. split; [vm_compute; reflexivity|].
  split; [reflexivity|]. left. vm_compute. reflexivity.
Qed.

(** C10, as the code has it.  A caller who may write submits a payment for
    a debtor of the table, the form having been loaded from the database as
    it is.  The form offers the debtor exactly when the balance the client
    computes for it, in binary64, is greater than 0.  For an offered debtor
    the payment is inserted, with the success toast, exactly when the
    number of the amount is not greater than that computed balance, and is
    answered with the destructive toast of the overpayment check, nothing
    written, exactly when it is greater.  Where the debtor has one debt and
    no payment, the computed balance is the number of that debt, and paying
    exactly the debt is accepted. *)
Theorem payment_of_exact_balance_is_recorded
    (s : session) (uid fresh_id : uuid) (form_amount : Z) (d : db) (x : debtor) :
  canWrite (userRole s) = true ->
  user s = Some uid ->
  admin_or_staff d uid = true ->
  existsb (String.eqb uid) (users d) = true ->
  existsb (fun p => String.eqb (payment_id p) fresh_id) (payments d) = false ->
  In x (debtors d) ->
  JS.is_empty (debtor_id x) = false ->
  0 < form_amount < 1000000000000 ->
  let id := debtor_id x in
  let b := binary64_balance d id in
  let r := AddPaymentPage_session s fresh_id id form_amount d d in
  ((exists y, In y (fetchDebtorsWithBalance d) /\ wb_id y = id) <->
   JS.gt b 0%float = true) /\
  (JS.gt b 0%float = true ->
   (JS.gt (JS.Number form_amount) b = false <->
    r = (Toast_recorded,
         set_payments d
           (payments d ++ [mk_payment fresh_id id form_amount (now d) uid])%list)) /\
   (JS.gt (JS.Number form_amount) b = true <->
    r = (Toast_error (Exceeds_outstanding_balance (JS.Number form_amount) b), d)) /\
   (forall row,
      select_debts_eq d id = [row] ->
      select_payments_eq d id = [] ->
      b = JS.Number (debt_amount row) /\
      (form_amount = debt_amount row ->
       r = (Toast_recorded,
            set_payments d
              (payments d ++ [mk_payment fresh_id id form_amount (now d) uid])%list)))).
Proof.
  intros Hw Hu Hrole Huser Hfresh Hx Hid [Hpos Hfit] id b r. subst id b r.
  assert (Hdeb : has_debtor d (debtor_id x) = true).
  { unfold has_debtor. apply existsb_exists. exists x. split; [exact Hx|].
    apply String.eqb_refl. }
  assert (Hfits : fits_decimal_12_2 form_amount = true).
  { unfold fits_decimal_12_2. apply andb_true_iff. split; apply Z.ltb_lt; lia. }
  split.
  - split.
    + intros (y & Hy & E). destruct (@offered_is_computed d y Hy) as (Hb & Hgt & _).
      now rewrite <- E, <- Hb.
    + intro Hgt. exists (payment_balance d x). split; [|reflexivity].
      now apply computed_is_offered.
  - intro Hgt.
    destruct (@find_offered d x Hx Hgt) as (y & Hfind & Hb).
    assert (Hr : AddPaymentPage_session s fresh_id (debtor_id x) form_amount d d =
                 if JS.gt (JS.Number form_amount) (binary64_balance d (debtor_id x))
                 then (Toast_error
                         (Exceeds_outstanding_balance
                            (JS.Number form_amount) (binary64_balance d (debtor_id x))), d)
                 else (Toast_recorded,
                       set_payments d
                         (payments d ++
                          [mk_payment fresh_id (debtor_id x) form_amount (now d) uid])%list)).
    { unfold AddPaymentPage_session, AddPaymentPage, AddPaymentPage_handleSubmit.
      rewrite Hw, Hid. cbn [negb]. rewrite Hfind, Hb.
      destruct (JS.gt (JS.Number form_amount) (binary64_balance d (debtor_id x)));
        [reflexivity|].
      unfold try_record_payment. rewrite Hu.
      now rewrite insert_payment_accepts. }
    rewrite Hr.
    split; [|split].
    + destruct (JS.gt (JS.Number form_amount) (binary64_balance d (debtor_id x))); split;
        intro H; try reflexivity; discriminate H.
    + destruct (JS.gt (JS.Number form_amount) (binary64_balance d (debtor_id x))); split;
        intro H; try reflexivity; discriminate H.
    + intros row Hd Hp.
      assert (Eb : binary64_balance d (debtor_id x) = JS.Number (debt_amount row)).
      { unfold binary64_balance in *. rewrite Hd, Hp in Hgt |- *.
        apply balance_of_one_debt. exact Hgt. }
      split; [exact Eb|].
      intros ->. rewrite Eb, gt_irrefl. reflexivity.
Qed.

(** Dana owes 50.00 and 25.50 and has paid 30.00: the computed balance is
    45.5, and a payment of 45.50 is recorded. *)
Lemma payment_of_exact_balance_is_recorded_witness :
  AddPaymentPage_session Sample.staff_session "p9" "d1" 4550
    Sample.spec_example Sample.spec_example =
  (Toast_recorded,
   set_payments Sample.spec_example
     (payments Sample.spec_example ++ [mk_payment "p9" "d1" 4550 10 Sample.sam])%list).
Proof.
  destruct (@payment_of_exact_balance_is_recorded Sample.staff_session Sample.sam
              "p9" 4550 Sample.spec_example Sample.dana
              eq_refl eq_refl eq_refl eq_refl eq_refl) as [_ H].
  - left. reflexivity.
  - reflexivity.
  - lia.
  - destruct H as [H _]; [vm_compute; reflexivity|].
    apply H. vm_compute. reflexivity.
Defined.

(** * Further properties of the pages and of the schema *)

(** ** The order of what the pages list *)

Lemma insert_by_Sorted (A : Type) (leb : A -> A -> bool) (x : A) (l : list A) :
  (forall a b, leb a b = true \/ leb b a = true) ->
  Sorted (fun a b => leb a b = true) l ->
  Sorted (fun a b => leb a b = true) (insert_by leb x l).
Proof.
  intros Htot HS. induction HS as [|a l HS IH HR]; simpl.
  - repeat constructor.
  - destruct (leb x a) eqn:E.
    + constructor; [now constructor | now constructor].
    + constructor; [exact IH|].
      assert (Hax : leb a x = true) by (destruct (Htot a x); congruence).
      destruct HR as [|b l' Hab]; simpl.
      * now constructor.
      * destruct (leb x b); now constructor.
Qed.

Lemma order_Sorted (A : Type) (leb : A -> A -> bool) (l : list A) :
  (forall a b, leb a b = true \/ leb b a = true) ->
  Sorted (fun a b => leb a b = true) (order leb l).
Proof.
  intro Htot. induction l as [|a l IH]; simpl; [constructor|].
  now apply insert_by_Sorted.
Qed.

Lemma map_of_debtor_index_totals (d : db) (l : list debtor) :
  map of_debtor (map (index_totals d) l) = l.
Proof.
  induction l as [|a l IH]; [reflexivity|].
  cbn [map]. rewrite IH. reflexivity.
Qed.

(** X1.  The dashboard lists every debtor row once, in ascending order of
    the name, and the debt form offers the same debtors in the same order. *)
Theorem fetchDebtors_lists_all_debtors_by_name (d : db) :
  Permutation (map of_debtor (fetchDebtors d)) (debtors d) /\
  Sorted (fun x y => String.leb (debtor_name x) (debtor_name y) = true)
         (map of_debtor (fetchDebtors d)) /\
  map opt_id (AddDebtPage_fetchDebtors d) =
  map (fun t => debtor_id (of_debtor t)) (fetchDebtors d).
Proof.
  unfold fetchDebtors, AddDebtPage_fetchDebtors, select_debtors_by_name.
  rewrite map_of_debtor_index_totals. split; [|split].
  - apply order_Permutation.
  - apply order_Sorted. intros a b. apply String.leb_total.
  - rewrite !map_map. reflexivity.
Qed.

Lemma Zleb_flip_total (A : Type) (date : A -> Z) (a b : A) :
  (date b <=? date a)%Z = true \/ (date a <=? date b)%Z = true.
Proof.
  destruct (Z.leb_spec (date b) (date a)); [now left|].
  right. apply Z.leb_le. lia.
Qed.

(** X2.  The history of a search result holds exactly the debts and the
    payments of the debtor that was found, every row once, each list with
    the newest row first. *)
Theorem search_history_holds_the_debtors_rows (d : db) (x : debtor) :
  let h := search_history d x in
  Permutation (h_debts h) (select_debts_eq d (debtor_id x)) /\
  Permutation (h_payments h) (select_payments_eq d (debtor_id x)) /\
  Sorted (fun a b => (debt_date_recorded b <=? debt_date_recorded a)%Z = true) (h_debts h) /\
  Sorted (fun a b => (payment_date_paid b <=? payment_date_paid a)%Z = true) (h_payments h) /\
  (forall r, In r (h_debts h) <-> In r (debts d) /\ debt_debtor_id r = debtor_id x) /\
  (forall r, In r (h_payments h) <-> In r (payments d) /\ payment_debtor_id r = debtor_id x).
Proof.
  cbn [search_history h_debts h_payments].
  unfold select_debts_eq_desc, select_payments_eq_desc.
  split; [apply order_Permutation|]. split; [apply order_Permutation|].
  split; [apply order_Sorted; intros a b; apply Zleb_flip_total|].
  split; [apply order_Sorted; intros a b; apply Zleb_flip_total|].
  split; intro r; rewrite order_In; unfold select_debts_eq, select_payments_eq;
    rewrite filter_In, String.eqb_eq; reflexivity.
Qed.

(** ** The search box of the dashboard *)

Lemma prefix_empty (s : string) : String.prefix EmptyString s = true.
Proof. destruct s; reflexivity. Qed.

Lemma includes_empty (s : string) : includes s EmptyString = true.
Proof. destruct s; simpl; reflexivity. Qed.

Lemma filter_all (A : Type) (p : A -> bool) (l : list A) :
  (forall x, p x = true) -> filter p l = l.
Proof.
  intro H. induction l as [|a l IH]; simpl; [reflexivity|].
  now rewrite H, IH.
Qed.

Lemma filteredDebtors_empty_term (l : list debtor_totals) :
  filteredDebtors EmptyString l = l.
Proof.
  unfold filteredDebtors. apply filter_all. intro x.
  cbn [toLowerCase]. now rewrite includes_empty.
Qed.

(** X3.  With nothing typed into the search box the dashboard shows every
    loaded debtor, and the message that no debtors are registered yet
    appears exactly when the box is empty and no debtor is loaded: a term
    that matches nothing gives the other message. *)
Theorem dashboard_with_empty_search_box (searchTerm : string) (l : list debtor_totals) :
  filteredDebtors EmptyString l = l /\
  (Index_view searchTerm l = No_debtors_registered_yet <->
   searchTerm = EmptyString /\ l = []) /\
  (Index_view searchTerm l = No_debtors_found_matching_your_search <->
   searchTerm <> EmptyString /\ filteredDebtors searchTerm l = []).
Proof.
  split; [apply filteredDebtors_empty_term|].
  unfold Index_view. split.
  - split.
    + destruct (filteredDebtors searchTerm l) eqn:E; [|discriminate].
      destruct searchTerm; simpl; [|discriminate]. intros _.
      rewrite filteredDebtors_empty_term in E. auto.
    + intros [-> ->]. reflexivity.
  - split.
    + destruct (filteredDebtors searchTerm l) eqn:E; [|discriminate].
      destruct searchTerm; simpl; [discriminate|]. intros _. split; [discriminate | reflexivity].
    + intros [Hne ->]. destruct searchTerm; [congruence | reflexivity].
Qed.

Lemma prefix_lower (t s : string) :
  String.prefix (toLowerCase t) (toLowerCase s) = prefix_ci t s.
Proof.
  revert s. induction t as [|a t IH]; intro s; [destruct s; reflexivity|].
  destruct s as [|b s]; [reflexivity|]. cbn [toLowerCase String.prefix prefix_ci].
  destruct (ascii_dec (lower a) (lower b)) as [E|E].
  - rewrite E, Ascii.eqb_refl. apply IH.
  - apply Ascii.eqb_neq in E. now rewrite E.
Qed.

Lemma includes_lower (s t : string) :
  includes (toLowerCase s) (toLowerCase t) = includes_ci t s.
Proof.
  induction s as [|b s IH]; cbn [toLowerCase includes includes_ci].
  - rewrite <- (prefix_lower t EmptyString). reflexivity.
  - rewrite IH, <- (prefix_lower t (String b s)). reflexivity.
Qed.

Lemma prefix_ci_of_prefix (t s : string) :
  String.prefix t s = true -> prefix_ci t s = true.
Proof.
  revert s. induction t as [|a t IH]; intro s; [reflexivity|].
  destruct s as [|b s]; [discriminate|]. cbn [String.prefix prefix_ci].
  destruct (ascii_dec a b) as [->|]; [|discriminate].
  intro H. rewrite Ascii.eqb_refl. now apply IH.
Qed.

Lemma includes_ci_of_includes (s t : string) :
  includes s t = true -> includes_ci t s = true.
Proof.
  induction s as [|b s IH]; cbn [includes includes_ci]; intro H;
    apply orb_true_iff in H; apply orb_true_iff; destruct H as [H|H].
  - left. now apply prefix_ci_of_prefix.
  - discriminate.
  - left. now apply prefix_ci_of_prefix.
  - right. now apply IH.
Qed.

Lemma filter_length_le (A : Type) (p q : A -> bool) (l : list A) :
  (forall x, In x l -> p x = true -> q x = true) ->
  (List.length (filter p l) <= List.length (filter q l))%nat.
Proof.
  induction l as [|a l IH]; simpl; intro H; [lia|].
  assert (IH' : (List.length (filter p l) <= List.length (filter q l))%nat)
    by (apply IH; intros x Hx; apply H; now right).
  destruct (p a) eqn:Ep.
  - rewrite (H a (or_introl eq_refl) Ep). simpl. lia.
  - destruct (q a); simpl; lia.
Qed.

Lemma filter_map_length (A B : Type) (f : A -> B) (q : B -> bool) (l : list A) :
  List.length (filter (fun x => q (f x)) l) = List.length (filter q (map f l)).
Proof.
  induction l as [|a l IH]; simpl; [reflexivity|].
  destruct (q (f a)); simpl; now rewrite IH.
Qed.

Lemma Permutation_filter_length (A : Type) (q : A -> bool) (l l' : list A) :
  Permutation l l' -> List.length (filter q l) = List.length (filter q l').
Proof.
  induction 1 as [|a l l' P IH|a b l|l l' l'' P1 IH1 P2 IH2]; simpl.
  - reflexivity.
  - destruct (q a); simpl; now rewrite IH.
  - destruct (q a), (q b); reflexivity.
  - now rewrite IH1.
Qed.

(** X4.  Over names, phone numbers and a term of one-byte characters, for a
    term that is not blank and holds no wildcard character, no comma and no
    closing parenthesis: every debtor the dashboard keeps for the term is
    one the search page's filter matches; so when the dashboard shows two or
    more debtors for a term, the search page finds nothing for the same
    term. *)
Theorem dashboard_filter_against_search (searchTerm : string) (d : db) :
  plain searchTerm = true ->
  JS.is_empty (JS.trim searchTerm) = false ->
  leaves_the_filter searchTerm = false ->
  ascii_text searchTerm = true ->
  ascii_debtors d = true ->
  (forall t, In t (filteredDebtors searchTerm (fetchDebtors d)) ->
             In (of_debtor t) (debtors d) /\ matches searchTerm (of_debtor t) = true) /\
  ((2 <= List.length (filteredDebtors searchTerm (fetchDebtors d)))%nat ->
   handleSearch searchTerm d = Some None).
Proof.
  intros Hplain Hterm Hinside _ _.
  assert (Himp : forall t, In t (fetchDebtors d) ->
            (includes (toLowerCase (debtor_name (of_debtor t))) (toLowerCase searchTerm)
             || includes (debtor_phone_number (of_debtor t)) searchTerm) = true ->
            matches searchTerm (of_debtor t) = true).
  { intros t _ H. rewrite matches_plain by exact Hplain.
    apply orb_true_iff in H. apply orb_true_iff. destruct H as [H|H].
    - left. now rewrite <- includes_lower.
    - right. now apply includes_ci_of_includes. }
  split.
  - intros t Ht. unfold filteredDebtors in Ht. apply filter_In in Ht.
    destruct Ht as [Hin Hf]. split; [|now apply Himp].
    unfold fetchDebtors, select_debtors_by_name in Hin.
    apply in_map_iff in Hin. destruct Hin as (y & <- & Hy).
    now apply order_In in Hy.
  - intro H2. unfold handleSearch. rewrite Hterm, Hinside.
    assert (Hlen : (2 <= List.length (filter (matches searchTerm) (debtors d)))%nat).
    { eapply Nat.le_trans; [exact H2|].
      unfold filteredDebtors.
      eapply Nat.le_trans; [apply (filter_length_le _ (fun t => matches searchTerm (of_debtor t))); exact Himp|].
      rewrite (filter_map_length of_debtor (matches searchTerm)).
      rewrite (Permutation_filter_length (matches searchTerm)
                 (l := map of_debtor (fetchDebtors d)) (l' := debtors d)); [lia|].
      unfold fetchDebtors, select_debtors_by_name.
      rewrite map_of_debtor_index_totals. apply order_Permutation. }
    destruct (single (filter (matches searchTerm) (debtors d))) as [x|] eqn:E;
      [|reflexivity].
    apply single_Some in E. rewrite E in Hlen. simpl in Hlen. lia.
Qed.

Lemma dashboard_filter_against_search_witness :
  handleSearch "555" Sample.spec_example = Some None.
Proof.
  apply (@dashboard_filter_against_search "555" Sample.spec_example
           eq_refl eq_refl eq_refl eq_refl eq_refl).
  vm_compute. lia.
Defined.

(** ** The payment form against the dashboard *)

Lemma filter_map_swap (A B : Type) (f : A -> B) (q : B -> bool) (l : list A) :
  filter q (map f l) = map f (filter (fun x => q (f x)) l).
Proof.
  induction l as [|a l IH]; simpl; [reflexivity|].
  destruct (q (f a)); simpl; now rewrite IH.
Qed.

(** X5.  The payment form offers exactly the debtors whose card on the
    dashboard carries the badge Owes, in the dashboard's order and with the
    dashboard's balance. *)
Theorem payment_form_offers_who_owes (d : db) :
  fetchDebtorsWithBalance d =
  map (fun t => mk_with_balance (debtor_id (of_debtor t)) (debtor_name (of_debtor t))
                                (debtor_phone_number (of_debtor t)) (balance t))
      (filter (fun t => match Index_badge t with Owes => true | Paid => false end)
              (fetchDebtors d)).
Proof.
  unfold fetchDebtorsWithBalance, fetchDebtors.
  rewrite (filter_map_swap (index_totals d)), map_map.
  rewrite (filter_map_swap (payment_balance d)).
  set (l := select_debtors_by_name d). clearbody l.
  induction l as [|a l IH]; [reflexivity|].
  cbn [filter]. unfold Index_badge at 1.
  change (balance (index_totals d a)) with (wb_balance (payment_balance d a)).
  destruct (JS.gt (wb_balance (payment_balance d a)) 0%float); cbn [map]; now rewrite IH.
Qed.

(** A number greater than [0] is truthy. *)
Lemma gt_zero_truthy (x : JS.number) : JS.gt x 0%float = true -> JS.truthy x = true.
Proof.
  unfold JS.gt, JS.truthy.
  rewrite FloatAxioms.ltb_spec, classify_spec.
  change (Prim2SF 0%float) with (S754_zero false).
  unfold SFltb, SFcompare, SF64classify, SFclassify.
  destruct (Prim2SF x) as [s|s| |s m e]; try discriminate.
  - destruct s; [discriminate | reflexivity].
  - destruct s; [discriminate|]. intros _. repeat case_if; reflexivity.
Qed.

(** X6.  Once a debtor the form offers is selected, the amount field's
    upper bound is that debtor's balance (it is never left undefined), and
    the check at submission refuses exactly the amounts above that bound. *)
Theorem amount_field_bound_is_the_balance
    (s : session) (fresh_id : uuid) (selectedDebtor : string) (form_amount : Z)
    (d_mount d : db) (x : debtor_with_balance) :
  canWrite (userRole s) = true ->
  JS.is_empty selectedDebtor = false ->
  JS.find (fun y => String.eqb (wb_id y) selectedDebtor)
          (fetchDebtorsWithBalance d_mount) = Some x ->
  amount_max (fetchDebtorsWithBalance d_mount) selectedDebtor = Some (wb_balance x) /\
  ((exists a b, fst (AddPaymentPage_session s fresh_id selectedDebtor form_amount d_mount d)
                = Toast_error (Exceeds_outstanding_balance a b)) <->
   JS.gt (JS.Number form_amount) (wb_balance x) = true).
Proof.
  intros Hw Hsel Hfind.
  destruct (find_some_wb _ _ Hfind) as [Hin _].
  pose proof (offered_balance_positive _ _ Hin) as Hpos.
  split.
  - unfold amount_max. rewrite Hfind, (gt_zero_truthy Hpos). reflexivity.
  - unfold AddPaymentPage_session, AddPaymentPage, AddPaymentPage_handleSubmit.
    rewrite Hw, Hsel. cbn [negb]. rewrite Hfind.
    destruct (JS.gt (JS.Number form_amount) (wb_balance x)) eqn:Egt.
    + split; [intros _; reflexivity|]. intros _. simpl. eauto.
    + split; [|discriminate]. intros (a & b & H). exfalso. revert H.
      unfold try_record_payment. destruct (user s); [|discriminate].
      destruct (insert_payment _ _ _ _ _ _) as [[[]|e] d3]; discriminate.
Qed.

Lemma amount_field_bound_is_the_balance_witness :
  amount_max (fetchDebtorsWithBalance Sample.spec_example) "d1" = Some 45.5%float.
Proof.
  apply (@amount_field_bound_is_the_balance Sample.staff_session "p9" "d1" 4550
           Sample.spec_example Sample.spec_example
           (mk_with_balance "d1" "Dana" "555-0001" 45.5%float)
           eq_refl eq_refl eq_refl).
Defined.

(** ** What the entry forms write *)

Lemma fits_decimal_bounds (a : Z) :
  fits_decimal_12_2 a = true -> -1000000000000 < a < 1000000000000.
Proof.
  unfold fits_decimal_12_2. intro H. apply andb_true_iff in H.
  destruct H as [H1 H2]. apply Z.ltb_lt in H1. apply Z.ltb_lt in H2. lia.
Qed.

(** What an accepted debt has passed. *)
Lemma insert_debt_Ok_conditions (uid i id : uuid) (a : Z) (reason : string) (cb : uuid)
    (d d' : db) :
  insert_debt uid i id a reason cb d = (Ok tt, d') ->
  admin_or_staff d uid = true /\
  0 < a < 1000000000000 /\
  existsb (fun x => String.eqb (debt_id x) i) (debts d) = false /\
  has_debtor d id = true /\
  existsb (String.eqb cb) (users d) = true.
Proof.
  unfold insert_debt. repeat case_if; intro H; try discriminate.
  repeat match goal with
         | H : negb _ = false |- _ => apply negb_false_iff in H
         end.
  match goal with H : fits_decimal_12_2 a = true |- _ => apply fits_decimal_bounds in H end.
  match goal with H : (0 <? a)%Z = true |- _ => apply Z.ltb_lt in H end.
  repeat split; try assumption; lia.
Qed.

Lemma insert_payment_Ok_conditions (uid i id : uuid) (a : Z) (cb : uuid) (d d' : db) :
  insert_payment uid i id a cb d = (Ok tt, d') ->
  admin_or_staff d uid = true /\
  0 < a < 1000000000000 /\
  existsb (fun x => String.eqb (payment_id x) i) (payments d) = false /\
  has_debtor d id = true /\
  existsb (String.eqb cb) (users d) = true.
Proof.
  unfold insert_payment. repeat case_if; intro H; try discriminate.
  repeat match goal with
         | H : negb _ = false |- _ => apply negb_false_iff in H
         end.
  match goal with H : fits_decimal_12_2 a = true |- _ => apply fits_decimal_bounds in H end.
  match goal with H : (0 <? a)%Z = true |- _ => apply Z.ltb_lt in H end.
  repeat split; try assumption; lia.
Qed.

Lemma insert_payment_Error (uid i id : uuid) (a : Z) (cb : uuid) (d : db) (e : pg_error) :
  fst (insert_payment uid i id a cb d) = Error e ->
  snd (insert_payment uid i id a cb d) = d.
Proof.
  unfold insert_payment. repeat case_if; simpl; intro H; try reflexivity; discriminate.
Qed.

(** X7.  Whatever is submitted to the debt form, either nothing is written,
    or the success toast is shown and exactly one debt row is appended: for
    the selected debtor, who exists, with the submitted amount, which is
    positive and fits the column, with the trimmed reason, dated by the
    clock and created by the signed-in caller, who holds admin or staff.
    The reason is not checked: it may be empty after trimming. *)
Theorem AddDebtPage_writes_one_debt_or_nothing
    (s : session) (fresh_id : uuid) (selectedDebtor : string) (amount : Z)
    (reason : string) (d : db) :
  let r := AddDebtPage s fresh_id selectedDebtor amount reason d in
  (fst r <> Toast_recorded /\ snd r = d) \/
  (fst r = Toast_recorded /\
   exists uid,
     user s = Some uid /\
     canWrite (userRole s) = true /\
     admin_or_staff d uid = true /\
     selectedDebtor <> EmptyString /\
     has_debtor d selectedDebtor = true /\
     0 < amount < 1000000000000 /\
     snd r = set_debts d
               (debts d ++
                [mk_debt fresh_id selectedDebtor amount (JS.trim reason) (now d) uid])%list).
Proof.
  unfold AddDebtPage, AddDebtPage_handleSubmit.
  destruct (canWrite (userRole s)) eqn:Hw; cbn [negb];
    [|left; split; [discriminate | reflexivity]].
  destruct selectedDebtor as [|c sel] eqn:Esel; cbn [JS.is_empty];
    [left; split; [discriminate | reflexivity]|].
  rewrite <- Esel.
  destruct (user s) as [uid|]; [|left; split; [discriminate | reflexivity]].
  destruct (insert_debt uid fresh_id selectedDebtor amount (JS.trim reason) uid d)
    as [[[]|e] d'] eqn:E; cbn [fst snd].
  - right. split; [reflexivity|]. exists uid.
    destruct (insert_debt_Ok_conditions _ _ _ _ _ _ _ E) as (H1 & H2 & _ & H4 & _).
    apply insert_debt_Ok in E.
    repeat split; try assumption; try lia. rewrite Esel. discriminate.
  - left. split; [discriminate|].
    pose proof (@insert_debt_Error uid fresh_id selectedDebtor amount (JS.trim reason) uid d e) as H.
    rewrite E in H. now apply H.
Qed.

(** X8.  Whatever is submitted to the payment form, either nothing is
    written, or the success toast is shown and exactly one payment row is
    appended: for the selected debtor, who exists, with the submitted
    amount, positive and fitting the column, dated by the clock and created
    by the signed-in caller, who holds admin or staff.  When the selected
    debtor is among those the page holds, the recorded amount is not greater
    than the balance the page holds for it. *)
Theorem AddPaymentPage_writes_one_payment_or_nothing
    (s : session) (fresh_id : uuid) (debtors : list debtor_with_balance)
    (selectedDebtor : string) (form_amount : Z) (d : db) :
  let r := AddPaymentPage s fresh_id debtors selectedDebtor form_amount d in
  (fst r <> Toast_recorded /\ snd r = d) \/
  (fst r = Toast_recorded /\
   (forall x, JS.find (fun y => String.eqb (wb_id y) selectedDebtor) debtors = Some x ->
              JS.gt (JS.Number form_amount) (wb_balance x) = false) /\
   exists uid,
     user s = Some uid /\
     canWrite (userRole s) = true /\
     admin_or_staff d uid = true /\
     selectedDebtor <> EmptyString /\
     has_debtor d selectedDebtor = true /\
     0 < form_amount < 1000000000000 /\
     snd r = set_payments d
               (payments d ++
                [mk_payment fresh_id selectedDebtor form_amount (now d) uid])%list).
Proof.
  unfold AddPaymentPage, AddPaymentPage_handleSubmit.
  destruct (canWrite (userRole s)) eqn:Hw; cbn [negb];
    [|left; split; [discriminate | reflexivity]].
  destruct selectedDebtor as [|c sel] eqn:Esel; cbn [JS.is_empty];
    [left; split; [discriminate | reflexivity]|].
  rewrite <- Esel.
  assert (Htry :
    let r := try_record_payment s fresh_id selectedDebtor form_amount d in
    (fst r <> Toast_recorded /\ snd r = d) \/
    (fst r = Toast_recorded /\
     exists uid,
       user s = Some uid /\ canWrite (userRole s) = true /\
       admin_or_staff d uid = true /\ selectedDebtor <> EmptyString /\
       has_debtor d selectedDebtor = true /\ 0 < form_amount < 1000000000000 /\
       snd r = set_payments d
                 (payments d ++
                  [mk_payment fresh_id selectedDebtor form_amount (now d) uid])%list)).
  { unfold try_record_payment.
    destruct (user s) as [uid|]; [|left; split; [discriminate | reflexivity]].
    destruct (insert_payment uid fresh_id selectedDebtor form_amount uid d)
      as [[[]|e] d'] eqn:E; cbn [fst snd].
    - right. split; [reflexivity|]. exists uid.
      destruct (insert_payment_Ok_conditions _ _ _ _ _ _ E) as (H1 & H2 & _ & H4 & _).
      apply insert_payment_Ok in E.
      repeat split; try assumption; try lia. rewrite Esel. discriminate.
    - left. split; [discriminate|].
      pose proof (@insert_payment_Error uid fresh_id selectedDebtor form_amount uid d e) as H.
      rewrite E in H. now apply H. }
  cbv zeta in Htry. rewrite Hw in Htry.
  destruct (JS.find _ debtors) as [x|] eqn:Ef.
  - destruct (JS.gt (JS.Number form_amount) (wb_balance x)) eqn:Egt.
    + left. split; [discriminate | reflexivity].
    + destruct Htry as [Hl|[Hr1 Hr2]]; [now left|].
      right. split; [exact Hr1|]. split; [|exact Hr2].
      intros y Hy. injection Hy as <-. exact Egt.
  - destruct Htry as [Hl|[Hr1 Hr2]]; [now left|].
    right. split; [exact Hr1|]. split; [|exact Hr2]. intros y Hy. discriminate Hy.
Qed.

(** ** The balance the payment form checks against *)

Lemma balance_amount_is_recorded
    (s : session) (uid fresh_id : uuid) (selectedDebtor : string) (form_amount : Z)
    (d_mount d : db) (x : debtor_with_balance) :
  canWrite (userRole s) = true ->
  user s = Some uid ->
  JS.is_empty selectedDebtor = false ->
  JS.find (fun y => String.eqb (wb_id y) selectedDebtor)
          (fetchDebtorsWithBalance d_mount) = Some x ->
  JS.Number form_amount = wb_balance x ->
  admin_or_staff d uid = true ->
  fits_decimal_12_2 form_amount = true ->
  existsb (fun p => String.eqb (payment_id p) fresh_id) (payments d) = false ->
  has_debtor d selectedDebtor = true ->
  existsb (String.eqb uid) (users d) = true ->
  AddPaymentPage_session s fresh_id selectedDebtor form_amount d_mount d =
    (Toast_recorded,
     set_payments d
       (payments d ++ [mk_payment fresh_id selectedDebtor form_amount (now d) uid])%list).
Proof.
  intros Hw Hu Hsel Hfind Heq Hrole Hfit Hfresh Hdeb Huser.
  destruct (find_some_wb _ _ Hfind) as [Hin _].
  pose proof (offered_balance_positive _ _ Hin) as Hpos.
  unfold AddPaymentPage_session, AddPaymentPage, AddPaymentPage_handleSubmit.
  rewrite Hw, Hsel. cbn [negb]. rewrite Hfind, Heq, gt_irrefl.
  unfold try_record_payment. rewrite Hu.
  rewrite insert_payment_accepts; auto.
  apply Number_gt_zero; [|now rewrite Heq].
  unfold fits_decimal_12_2 in Hfit. apply andb_true_iff in Hfit.
  destruct Hfit as [Hfit _]. apply Z.ltb_lt in Hfit. lia.
Qed.

Lemma fold_right_Zadd_app (l l' : list Z) :
  fold_right Z.add 0 (l ++ l') = fold_right Z.add 0 l + fold_right Z.add 0 l'.
Proof. induction l as [|a l IH]; simpl; [reflexivity | rewrite IH; lia]. Qed.

(** X9.  The overpayment check compares with the balance loaded when the form
    was opened, not with the ledger at submission.  From one loaded form,
    the full balance can be submitted twice: both submissions are recorded,
    and the debtor's payments grow by twice the amount. *)
Theorem full_balance_is_accepted_twice
    (s : session) (uid fresh1 fresh2 : uuid) (selectedDebtor : string) (form_amount : Z)
    (d_mount d : db) (x : debtor_with_balance) :
  canWrite (userRole s) = true ->
  user s = Some uid ->
  JS.is_empty selectedDebtor = false ->
  JS.find (fun y => String.eqb (wb_id y) selectedDebtor)
          (fetchDebtorsWithBalance d_mount) = Some x ->
  JS.Number form_amount = wb_balance x ->
  admin_or_staff d uid = true ->
  fits_decimal_12_2 form_amount = true ->
  existsb (fun p => String.eqb (payment_id p) fresh1) (payments d) = false ->
  existsb (fun p => String.eqb (payment_id p) fresh2) (payments d) = false ->
  String.eqb fresh1 fresh2 = false ->
  has_debtor d selectedDebtor = true ->
  existsb (String.eqb uid) (users d) = true ->
  let r1 := AddPaymentPage_session s fresh1 selectedDebtor form_amount d_mount d in
  let r2 := AddPaymentPage_session s fresh2 selectedDebtor form_amount d_mount (snd r1) in
  fst r1 = Toast_recorded /\
  fst r2 = Toast_recorded /\
  payments (snd r2) =
    (payments d ++ [mk_payment fresh1 selectedDebtor form_amount (now d) uid;
                    mk_payment fresh2 selectedDebtor form_amount (now d) uid])%list /\
  decimal_total_paid (snd r2) selectedDebtor =
    decimal_total_paid d selectedDebtor + 2 * form_amount.
Proof.
  intros Hw Hu Hsel Hfind Heq Hrole Hfit Hf1 Hf2 Hne Hdeb Huser r1 r2.
  assert (E1 : r1 = (Toast_recorded,
                     set_payments d
                       (payments d ++
                        [mk_payment fresh1 selectedDebtor form_amount (now d) uid])%list))
    by (now apply balance_amount_is_recorded with (x := x)).
  assert (E2 : r2 = (Toast_recorded,
                     set_payments (snd r1)
                       (payments (snd r1) ++
                        [mk_payment fresh2 selectedDebtor form_amount (now (snd r1)) uid])%list)).
  { subst r2. rewrite E1. cbn [snd].
    apply balance_amount_is_recorded with (x := x); auto.
    cbn [set_payments payments]. rewrite existsb_app, Hf2. cbn [existsb payment_id].
    now rewrite Hne. }
  rewrite E2, E1. cbn [fst snd set_payments payments now].
  split; [reflexivity|]. split; [reflexivity|]. split.
  - now rewrite <- app_assoc.
  - unfold decimal_total_paid, select_payments_eq, set_payments. cbn [payments].
    rewrite <- app_assoc, filter_app, map_app, fold_right_Zadd_app.
    cbn [filter app payment_debtor_id]. rewrite String.eqb_refl.
    cbn [map fold_right payment_amount]. lia.
Qed.

Lemma full_balance_is_accepted_twice_witness :
  decimal_total_paid
    (snd (AddPaymentPage_session Sample.staff_session "p8" "d1" 4550 Sample.spec_example
            (snd (AddPaymentPage_session Sample.staff_session "p9" "d1" 4550
                    Sample.spec_example Sample.spec_example))))
    "d1" = 3000 + 2 * 4550.
Proof.
  apply (@full_balance_is_accepted_twice Sample.staff_session Sample.sam "p9" "p8" "d1" 4550
           Sample.spec_example Sample.spec_example
           (mk_with_balance "d1" "Dana" "555-0001" 45.5%float)
           eq_refl eq_refl eq_refl eq_refl eq_refl eq_refl eq_refl eq_refl eq_refl
           eq_refl eq_refl eq_refl).
Defined.

(** ** How one statement changes each table *)

(** The debts after a statement: unchanged, one accepted row more, or the
    rows of a deleted debtor fewer. *)
Lemma exec_debts_shape (s : statement) (d : db) :
  debts (exec s d) = debts d \/
  (exists uid i id a reason cb,
     insert_debt uid i id a reason cb d = (Ok tt, exec s d) /\
     debts (exec s d) = (debts d ++ [mk_debt i id a reason (now d) cb])%list) \/
  (exists id, debts (exec s d) =
              filter (fun x => negb (String.eqb (debt_debtor_id x) id)) (debts d)).
Proof.
  destruct s as [i p n|i|u i n p gn gp|u i di a r cb|u i di a cb|u i|u r|u t r|u t r|];
    try (left;
         match goal with
         | |- context [exec ?s d] =>
             destruct (@role_statements_keep_ledger s d I) as (_ & E & _)
         end; exact E).
  - left. apply (create_user_tables i p n d).
  - left. apply (delete_user_tables i d).
  - left. apply (insert_debtor_tables u i n p gn gp d).
  - simpl. destruct (insert_debt u i di a r cb d) as [[[]|e] d'] eqn:E.
    + right. left. exists u, i, di, a, r, cb. cbn [snd]. split; [exact E|].
      apply insert_debt_Ok in E. now subst d'.
    + left. pose proof (@insert_debt_Error u i di a r cb d e) as H.
      rewrite E in H. simpl in *. now rewrite H.
  - left. simpl. destruct (insert_payment u i di a cb d) as [[[]|e] d'] eqn:E.
    + apply insert_payment_Ok in E. now subst d'.
    + pose proof (@insert_payment_Error u i di a cb d e) as H.
      rewrite E in H. simpl in *. now rewrite H.
  - simpl. unfold delete_debtor. repeat case_if; cbn [snd]; auto.
    right. right. exists i. reflexivity.
  - left. reflexivity.
Qed.

Lemma exec_payments_shape (s : statement) (d : db) :
  payments (exec s d) = payments d \/
  (exists uid i id a cb,
     insert_payment uid i id a cb d = (Ok tt, exec s d) /\
     payments (exec s d) = (payments d ++ [mk_payment i id a (now d) cb])%list) \/
  (exists id, payments (exec s d) =
              filter (fun x => negb (String.eqb (payment_debtor_id x) id)) (payments d)).
Proof.
  destruct s as [i p n|i|u i n p gn gp|u i di a r cb|u i di a cb|u i|u r|u t r|u t r|];
    try (left;
         match goal with
         | |- context [exec ?s d] =>
             destruct (@role_statements_keep_ledger s d I) as (_ & _ & E)
         end; exact E).
  - left. apply (create_user_tables i p n d).
  - left. apply (delete_user_tables i d).
  - left. apply (insert_debtor_tables u i n p gn gp d).
  - left. simpl. destruct (insert_debt u i di a r cb d) as [[[]|e] d'] eqn:E.
    + apply insert_debt_Ok in E. now subst d'.
    + pose proof (@insert_debt_Error u i di a r cb d e) as H.
      rewrite E in H. simpl in *. now rewrite H.
  - simpl. destruct (insert_payment u i di a cb d) as [[[]|e] d'] eqn:E.
    + right. left. exists u, i, di, a, cb. cbn [snd]. split; [exact E|].
      apply insert_payment_Ok in E. now subst d'.
    + left. pose proof (@insert_payment_Error u i di a cb d e) as H.
      rewrite E in H. simpl in *. now rewrite H.
  - simpl. unfold delete_debtor. repeat case_if; cbn [snd]; auto.
    right. right. exists i. reflexivity.
  - left. reflexivity.
Qed.

(** The clock never goes back. *)
Lemma exec_now (s : statement) (d : db) : now d <= now (exec s d).
Proof.
  destruct s; simpl.
  - unfold create_user, handle_new_user. repeat case_if; simpl; lia.
  - unfold delete_user. repeat case_if; simpl; lia.
  - unfold insert_debtor. repeat case_if; simpl; lia.
  - unfold insert_debt. repeat case_if; simpl; lia.
  - unfold insert_payment. repeat case_if; simpl; lia.
  - unfold delete_debtor. repeat case_if; simpl; lia.
  - lia.
  - unfold grant_role. repeat case_if; simpl; lia.
  - unfold revoke_role. repeat case_if; simpl; lia.
  - lia.
Qed.

(** An invariant of every statement holds in every state of every run. *)
Lemma observable_invariant (P : db -> Prop) :
  (forall s d, P d -> P (exec s d)) ->
  forall ss d, P d -> Forall P (observable ss d).
Proof.
  intros Hstep ss. induction ss as [|s ss IH]; intros d H; simpl.
  - constructor; [exact H | constructor].
  - constructor; [exact H|]. apply IH. now apply Hstep.
Qed.

(** ** The CHECK on amounts *)

Lemma exec_keeps_amounts (s : statement) (d : db) : amounts_ok d -> amounts_ok (exec s d).
Proof.
  intros [Hd Hp]. split.
  - destruct (exec_debts_shape s d) as [E|[(u & i & id & a & r & cb & Hins & E)|(id & E)]];
      rewrite E; [exact Hd| |].
    + intros x Hx. apply in_app_or in Hx. destruct Hx as [Hx|[<-|[]]]; [now apply Hd|].
      apply insert_debt_Ok_conditions in Hins. simpl. tauto.
    + intros x Hx. apply filter_In in Hx. now apply Hd.
  - destruct (exec_payments_shape s d) as [E|[(u & i & id & a & cb & Hins & E)|(id & E)]];
      rewrite E; [exact Hp| |].
    + intros x Hx. apply in_app_or in Hx. destruct Hx as [Hx|[<-|[]]]; [now apply Hp|].
      apply insert_payment_Ok_conditions in Hins. simpl. tauto.
    + intros x Hx. apply filter_In in Hx. now apply Hp.
Qed.

(** X10.  The CHECK on amounts is an invariant: from a ledger whose amounts
    are positive and fit the column, in particular from the empty database,
    every state of every run holds only debts and payments with an amount of
    at least 0.01 and below 10^10; an insert with an amount of 0 or less is
    refused and writes nothing. *)
Theorem amounts_stay_positive (ss : list statement) (d : db) :
  amounts_ok d ->
  Forall amounts_ok (observable ss d) /\
  (forall uid i id a reason cb, a <= 0 ->
     exists e, insert_debt uid i id a reason cb d = (Error e, d)) /\
  (forall uid i id a cb, a <= 0 ->
     exists e, insert_payment uid i id a cb d = (Error e, d)).
Proof.
  intro H. split; [|split].
  - apply observable_invariant; [apply exec_keeps_amounts | exact H].
  - intros uid i id a reason cb Ha. unfold insert_debt.
    destruct (negb (fits_decimal_12_2 a)); [eauto|].
    destruct (negb (admin_or_staff d uid)); [eauto|].
    destruct (Z.ltb_spec 0 a); [lia|]. cbn [negb]. eauto.
  - intros uid i id a cb Ha. unfold insert_payment.
    destruct (negb (fits_decimal_12_2 a)); [eauto|].
    destruct (negb (admin_or_staff d uid)); [eauto|].
    destruct (Z.ltb_spec 0 a); [lia|]. cbn [negb]. eauto.
Qed.

Lemma sample_amounts_ok : amounts_ok Sample.spec_example.
Proof.
  split; intros x Hx; simpl in Hx;
    repeat (destruct Hx as [<-|Hx]; [simpl; lia|]); destruct Hx.
Defined.

Lemma amounts_stay_positive_witness :
  Forall amounts_ok
    (observable [InsertDebt Sample.sam "3d1" "d1" 0 "gift" Sample.sam;
                 InsertPayment Sample.sam "2d1" "d1" 500 Sample.sam]
                Sample.spec_example).
Proof.
  apply (@amounts_stay_positive
           [InsertDebt Sample.sam "3d1" "d1" 0 "gift" Sample.sam;
            InsertPayment Sample.sam "2d1" "d1" 500 Sample.sam]
           Sample.spec_example sample_amounts_ok).
Defined.

(** ** The dates of the rows *)

Lemma StronglySorted_snoc (l : list Z) (n : Z) :
  StronglySorted Z.le l -> (forall x, In x l -> x <= n) ->
  StronglySorted Z.le (l ++ [n]).
Proof.
  induction 1 as [|a l HS IH HF]; intro Hle; simpl.
  - repeat constructor.
  - constructor.
    + apply IH. intros x Hx. apply Hle. now right.
    + apply Forall_app. split; [exact HF|]. constructor; [|constructor].
      apply Hle. now left.
Qed.

Lemma StronglySorted_map_filter (A : Type) (f : A -> Z) (p : A -> bool) (l : list A) :
  StronglySorted Z.le (map f l) -> StronglySorted Z.le (map f (filter p l)).
Proof.
  induction l as [|a l IH]; simpl; intro H; [constructor|].
  apply StronglySorted_inv in H. destruct H as [HS HF].
  destruct (p a); simpl; [|now apply IH].
  constructor; [now apply IH|].
  rewrite Forall_forall in *. intros y Hy. apply HF.
  apply in_map_iff in Hy. destruct Hy as (z & <- & Hz).
  apply filter_In in Hz. apply in_map. tauto.
Qed.

Lemma exec_keeps_chronological (s : statement) (d : db) :
  chronological d -> chronological (exec s d).
Proof.
  intros (Sd & Sp & Ld & Lp).
  pose proof (exec_now s d) as Hnow.
  assert (Hd : StronglySorted Z.le (map debt_date_recorded (debts (exec s d))) /\
               (forall x, In x (debts (exec s d)) -> debt_date_recorded x <= now (exec s d))).
  { destruct (exec_debts_shape s d) as [E|[(u & i & id & a & r & cb & _ & E)|(id & E)]];
      rewrite E.
    - split; [exact Sd|]. intros x Hx. specialize (Ld x Hx). lia.
    - split.
      + rewrite map_app. apply StronglySorted_snoc; [exact Sd|].
        intros y Hy. apply in_map_iff in Hy. destruct Hy as (z & <- & Hz). now apply Ld.
      + intros x Hx. apply in_app_or in Hx. destruct Hx as [Hx|[<-|[]]].
        * specialize (Ld x Hx). lia.
        * simpl. lia.
    - split; [now apply StronglySorted_map_filter|].
      intros x Hx. apply filter_In in Hx. destruct Hx as [Hx _].
      specialize (Ld x Hx). lia. }
  assert (Hp : StronglySorted Z.le (map payment_date_paid (payments (exec s d))) /\
               (forall x, In x (payments (exec s d)) -> payment_date_paid x <= now (exec s d))).
  { destruct (exec_payments_shape s d) as [E|[(u & i & id & a & cb & _ & E)|(id & E)]];
      rewrite E.
    - split; [exact Sp|]. intros x Hx. specialize (Lp x Hx). lia.
    - split.
      + rewrite map_app. apply StronglySorted_snoc; [exact Sp|].
        intros y Hy. apply in_map_iff in Hy. destruct Hy as (z & <- & Hz). now apply Lp.
      + intros x Hx. apply in_app_or in Hx. destruct Hx as [Hx|[<-|[]]].
        * specialize (Lp x Hx). lia.
        * simpl. lia.
    - split; [now apply StronglySorted_map_filter|].
      intros x Hx. apply filter_In in Hx. destruct Hx as [Hx _].
      specialize (Lp x Hx). lia. }
  unfold chronological. tauto.
Qed.

(** X11.  No page supplies a date: a row is dated by the clock when it is
    inserted.  So in every state of every run, the debts and the payments
    are stored in the order of their dates and none is dated later than the
    clock; and where the dates of a debtor's debts all differ, the search
    page lists them in the reverse of the order they were entered in. *)
Theorem rows_are_stored_in_date_order (ss : list statement) (d : db) :
  chronological d ->
  Forall chronological (observable ss d) /\
  (forall id,
     StronglySorted Z.lt (map debt_date_recorded (select_debts_eq (run ss d) id)) ->
     select_debts_eq_desc (run ss d) id = rev (select_debts_eq (run ss d) id)).
Proof.
  intro H. split.
  - apply observable_invariant; [apply exec_keeps_chronological | exact H].
  - intros id Hs. unfold select_debts_eq_desc. now apply rev_order_of_increasing.
Qed.

Lemma rows_are_stored_in_date_order_witness :
  select_debts_eq_desc
    (run [InsertDebt Sample.sam "1d1" "d1" 10 "tea" Sample.sam; Tick;
          InsertDebt Sample.sam "2d1" "d1" 20 "rice" Sample.sam]
         (Sample.ledger [] [])) "d1" =
  rev (select_debts_eq
         (run [InsertDebt Sample.sam "1d1" "d1" 10 "tea" Sample.sam; Tick;
               InsertDebt Sample.sam "2d1" "d1" 20 "rice" Sample.sam]
              (Sample.ledger [] [])) "d1").
Proof.
  apply (@rows_are_stored_in_date_order
           [InsertDebt Sample.sam "1d1" "d1" 10 "tea" Sample.sam; Tick;
            InsertDebt Sample.sam "2d1" "d1" 20 "rice" Sample.sam]
           (Sample.ledger [] [])).
  - repeat split; simpl; try constructor; intros x Hx; destruct Hx.
  - simpl. repeat constructor.
Defined.

(** ** The keys *)

Lemma NoDup_snoc (A : Type) (l : list A) (x : A) :
  NoDup l -> ~ In x l -> NoDup (l ++ [x]).
Proof.
  intros Hl Hx. apply NoDup_app; [exact Hl | repeat constructor; auto |].
  intros y Hy [<-|[]]. contradiction.
Qed.

Lemma filter_keeps_keys_unique (A K : Type) (key : A -> K) (keep : A -> bool)
    (rows : list A) (H : NoDup (map key rows)) :
  NoDup (map key (filter keep rows)).
Proof.
  induction rows as [|a l IH]; simpl in *; [constructor|].
  apply NoDup_cons_iff in H. destruct H as [Hn Hl].
  destruct (keep a); simpl; [|now apply IH].
  constructor; [|now apply IH].
  intro Hin. apply Hn. apply in_map_iff in Hin. destruct Hin as (z & <- & Hz).
  apply filter_In in Hz. apply in_map. tauto.
Qed.

Lemma NoDup_map_snoc (A : Type) (key : A -> uuid) (l : list A) (x : A) :
  NoDup (map key l) ->
  existsb (fun y => String.eqb (key y) (key x)) l = false ->
  NoDup (map key (l ++ [x])).
Proof.
  intros Hl Hx. rewrite map_app. apply NoDup_snoc; [exact Hl|].
  intro Hin. apply in_map_iff in Hin. destruct Hin as (z & Ez & Hz).
  assert (existsb (fun y => String.eqb (key y) (key x)) l = true); [|congruence].
  apply existsb_exists. exists z. split; [exact Hz|]. rewrite Ez. apply String.eqb_refl.
Qed.

Lemma app_role_eqb_refl (r : app_role) : app_role_eqb r r = true.
Proof. destruct r; reflexivity. Qed.

Lemma no_role_row (d : db) (u : uuid) (r : app_role) :
  has_role d u r = false -> ~ In (mk_user_role u r) (user_roles d).
Proof.
  intros H Hin.
  assert (has_role d u r = true); [|congruence].
  unfold has_role. apply existsb_exists. exists (mk_user_role u r).
  split; [exact Hin|]. simpl. now rewrite String.eqb_refl, app_role_eqb_refl.
Qed.

Lemma NoDup_filter_list (A : Type) (p : A -> bool) (l : list A) :
  NoDup l -> NoDup (filter p l).
Proof.
  intro H. rewrite <- (map_id (filter p l)). apply filter_keeps_keys_unique. now rewrite map_id.
Qed.

Lemma exec_keeps_keys (s : statement) (d : db) : keys_ok d -> keys_ok (exec s d).
Proof.
  intros (Ku & Kp & Kr & Kd & Kb & Ky). unfold keys_ok.
  destruct s as [i p n|i|u i n p gn gp|u i di a r cb|u i di a cb|u i|u r|u t r|u t r|];
    simpl.
  - rewrite create_user_raises. cbn [snd]. tauto.
  - unfold delete_user. case_if; cbn [snd]; simpl; [tauto|].
    repeat split; try assumption.
    + now apply NoDup_filter_list.
    + now apply filter_keeps_keys_unique.
    + now apply NoDup_filter_list.
  - unfold insert_debtor. repeat case_if; cbn [snd]; simpl; try tauto.
    repeat split; try assumption.
    apply (NoDup_map_snoc debtor_id); assumption.
  - destruct (insert_debt u i di a r cb d) as [[[]|e] d'] eqn:E.
    + destruct (insert_debt_Ok_conditions _ _ _ _ _ _ _ E) as (_ & _ & Hf & _).
      apply insert_debt_Ok in E. subst d'. cbn [snd]. simpl.
      repeat split; try assumption. apply (NoDup_map_snoc debt_id); assumption.
    + pose proof (@insert_debt_Error u i di a r cb d e) as H. rewrite E in H.
      simpl in *. rewrite H by reflexivity. tauto.
  - destruct (insert_payment u i di a cb d) as [[[]|e] d'] eqn:E.
    + destruct (insert_payment_Ok_conditions _ _ _ _ _ _ E) as (_ & _ & Hf & _).
      apply insert_payment_Ok in E. subst d'. cbn [snd]. simpl.
      repeat split; try assumption. apply (NoDup_map_snoc payment_id); assumption.
    + pose proof (@insert_payment_Error u i di a cb d e) as H. rewrite E in H.
      simpl in *. rewrite H by reflexivity. tauto.
  - unfold delete_debtor. repeat case_if; cbn [snd]; simpl; try tauto.
    repeat split; try assumption; now apply filter_keeps_keys_unique.
  - repeat split; try assumption.
    rewrite map_map.
    replace (map _ (profiles d)) with (map profile_id (profiles d)); [exact Kp|].
    apply map_ext. intro q. destruct (String.eqb (profile_id q) u); reflexivity.
  - unfold grant_role. repeat case_if; cbn [snd]; simpl; try tauto.
    repeat split; try assumption.
    apply NoDup_snoc; [exact Kr | now apply no_role_row].
  - unfold revoke_role. case_if; simpl; [tauto|].
    repeat split; try assumption. now apply NoDup_filter_list.
  - tauto.
Qed.

Lemma count_by_unique_key (A : Type) (key : A -> uuid) (id : uuid) (l : list A) :
  NoDup (map key l) ->
  List.length (filter (fun x => String.eqb (key x) id) l) =
  if existsb (fun x => String.eqb (key x) id) l then 1%nat else 0%nat.
Proof.
  induction l as [|a l IH]; simpl; intro H; [reflexivity|].
  apply NoDup_cons_iff in H. destruct H as [Hn Hl].
  destruct (String.eqb (key a) id) eqn:E; simpl.
  - apply String.eqb_eq in E. rewrite IH by exact Hl.
    destruct (existsb _ l) eqn:Ex; [|reflexivity].
    exfalso. apply Hn. apply existsb_exists in Ex. destruct Ex as (z & Hz & Ez).
    apply String.eqb_eq in Ez. rewrite E, <- Ez. now apply in_map.
  - now apply IH.
Qed.

(** X12.  The primary keys and the uniqueness of (user, role) are invariants
    of every statement: in every state of every run no two identities,
    profiles, debtors, debts or payments share an id and no role is held
    twice by one identity.  With unique ids, an admin's delete of a debtor
    reports one row when the debtor exists and none otherwise. *)
Theorem keys_stay_unique (ss : list statement) (d : db) :
  keys_ok d ->
  Forall keys_ok (observable ss d) /\
  (forall uid id, has_role d uid admin = true ->
     fst (delete_debtor uid id d) = Ok (if has_debtor d id then 1%nat else 0%nat)).
Proof.
  intro H. split.
  - apply observable_invariant; [apply exec_keeps_keys | exact H].
  - intros uid id Hadm. destruct H as (_ & _ & _ & Kd & _).
    unfold delete_debtor, has_debtor. rewrite Hadm. cbn [negb].
    rewrite (count_by_unique_key debtor_id id _ Kd).
    destruct (existsb _ (debtors d)); reflexivity.
Qed.

Lemma sample_keys_ok : keys_ok Sample.spec_example.
Proof.
  unfold keys_ok. simpl.
  repeat split; repeat (constructor; [simpl; intuition discriminate|]); constructor.
Defined.

Lemma keys_stay_unique_witness :
  fst (delete_debtor Sample.ada "d1" Sample.spec_example) = Ok 1%nat.
Proof.
  apply (@keys_stay_unique [] Sample.spec_example sample_keys_ok).
  reflexivity.
Defined.

(** ** Who created a row *)

Lemma exec_users_shape (s : statement) (d : db) :
  users (exec s d) = users d \/
  (exists i, users (exec s d) = (users d ++ [i])%list) \/
  (exists i, users (exec s d) = filter (fun u => negb (String.eqb u i)) (users d) /\
             existsb (fun x => match debtor_created_by x with
                               | Some u => String.eqb u i | None => false end) (debtors d)
               = false /\
             existsb (fun x => String.eqb (debt_created_by x) i) (debts d) = false /\
             existsb (fun x => String.eqb (payment_created_by x) i) (payments d) = false).
Proof.
  destruct s as [i p n|i|u i n p gn gp|u i di a r cb|u i di a cb|u i|u r|u t r|u t r|];
    try (left;
         match goal with
         | |- context [exec ?s d] =>
             destruct (@ledger_statements_keep_identities s d I) as (E & _ & _)
         end; exact E).
  - left. now rewrite exec_SignUp.
  - simpl. unfold delete_user.
    destruct (existsb _ (debtors d)) eqn:E1; [now left|].
    destruct (existsb _ (debts d)) eqn:E2; [now left|].
    destruct (existsb _ (payments d)) eqn:E3; [now left|].
    right. right. exists i. simpl. auto.
  - left. reflexivity.
  - left. simpl. unfold grant_role. repeat case_if; reflexivity.
  - left. simpl. unfold revoke_role. repeat case_if; reflexivity.
Qed.

Lemma exec_debtors_shape (s : statement) (d : db) :
  debtors (exec s d) = debtors d \/
  (exists i n p gn gp, debtors (exec s d) = (debtors d ++ [mk_debtor i n p gn gp None])%list) \/
  (exists id, debtors (exec s d) =
              filter (fun x => negb (String.eqb (debtor_id x) id)) (debtors d)).
Proof.
  destruct s as [i p n|i|u i n p gn gp|u i di a r cb|u i di a cb|u i|u r|u t r|u t r|];
    try (left;
         match goal with
         | |- context [exec ?s d] =>
             destruct (@role_statements_keep_ledger s d I) as (E & _ & _)
         end; exact E).
  - left. apply (create_user_tables i p n d).
  - left. apply (delete_user_tables i d).
  - simpl. unfold insert_debtor. repeat case_if; cbn [snd]; auto.
    right. left. exists i, n, p, gn, gp. reflexivity.
  - left. simpl. unfold insert_debt. repeat case_if; reflexivity.
  - left. simpl. unfold insert_payment. repeat case_if; reflexivity.
  - simpl. unfold delete_debtor. repeat case_if; cbn [snd]; auto.
    right. right. exists i. reflexivity.
  - left. reflexivity.
Qed.

Lemma exec_keeps_creators (s : statement) (d : db) :
  creators_ok d -> creators_ok (exec s d).
Proof.
  intros (Cd & Cb & Cp).
  assert (Hu : forall u, In u (users d) ->
            (existsb (fun x => match debtor_created_by x with
                               | Some v => String.eqb v u | None => false end) (debtors d)
             || existsb (fun x => String.eqb (debt_created_by x) u) (debts d)
             || existsb (fun x => String.eqb (payment_created_by x) u) (payments d)) = true ->
            In u (users (exec s d))).
  { intros u Hin Href.
    destruct (exec_users_shape s d) as [E|[(i & E)|(i & E & R1 & R2 & R3)]]; rewrite E.
    - exact Hin.
    - apply in_or_app. now left.
    - apply filter_In. split; [exact Hin|]. apply negb_true_iff.
      destruct (String.eqb u i) eqn:Eu; [|reflexivity].
      apply String.eqb_eq in Eu. subst i. rewrite R1, R2, R3 in Href. discriminate. }
  assert (Hd : forall x u, In x (debtors d) -> debtor_created_by x = Some u ->
                           In u (users (exec s d))).
  { intros x u Hx Hc. apply Hu; [now apply (Cd x)|].
    apply orb_true_iff. left. apply orb_true_iff. left.
    apply existsb_exists. exists x. split; [exact Hx|]. rewrite Hc. apply String.eqb_refl. }
  assert (Hb : forall x, In x (debts d) -> In (debt_created_by x) (users (exec s d))).
  { intros x Hx. apply Hu; [now apply Cb|].
    apply orb_true_iff. left. apply orb_true_iff. right.
    apply existsb_exists. exists x. split; [exact Hx | apply String.eqb_refl]. }
  assert (Hp : forall x, In x (payments d) -> In (payment_created_by x) (users (exec s d))).
  { intros x Hx. apply Hu; [now apply Cp|].
    apply orb_true_iff. right.
    apply existsb_exists. exists x. split; [exact Hx | apply String.eqb_refl]. }
  split; [|split].
  - destruct (exec_debtors_shape s d) as [E|[(i & n & p & gn & gp & E)|(id & E)]]; rewrite E.
    + exact Hd.
    + intros x u Hx Hc. apply in_app_or in Hx. destruct Hx as [Hx|[<-|[]]].
      * now apply (Hd x).
      * discriminate Hc.
    + intros x u Hx Hc. apply filter_In in Hx. now apply (Hd x).
  - destruct (exec_debts_shape s d) as [E|[(u & i & id & a & r & cb & Hins & E)|(id & E)]];
      rewrite E.
    + exact Hb.
    + intros x Hx. apply in_app_or in Hx. destruct Hx as [Hx|[<-|[]]]; [now apply Hb|].
      pose proof Hins as Hins'. apply insert_debt_Ok_conditions in Hins.
      destruct Hins as (_ & _ & _ & _ & Hcb). apply existsb_eqb_In in Hcb.
      apply insert_debt_Ok in Hins'. rewrite Hins'. simpl. exact Hcb.
    + intros x Hx. apply filter_In in Hx. now apply Hb.
  - destruct (exec_payments_shape s d) as [E|[(u & i & id & a & cb & Hins & E)|(id & E)]];
      rewrite E.
    + exact Hp.
    + intros x Hx. apply in_app_or in Hx. destruct Hx as [Hx|[<-|[]]]; [now apply Hp|].
      pose proof Hins as Hins'. apply insert_payment_Ok_conditions in Hins.
      destruct Hins as (_ & _ & _ & _ & Hcb). apply existsb_eqb_In in Hcb.
      apply insert_payment_Ok in Hins'. rewrite Hins'. simpl. exact Hcb.
    + intros x Hx. apply filter_In in Hx. now apply Hp.
Qed.

(** X13.  Whoever is named as the creator of a debtor, a debt or a payment is
    an identity that exists, in every state of every run: the rows are
    created in the name of an existing identity, and the delete of an
    identity that a debt or a payment names as its creator is refused with
    a foreign-key error and writes nothing. *)
Theorem creators_exist (ss : list statement) (d : db) :
  creators_ok d ->
  Forall creators_ok (observable ss d) /\
  (forall id x, In x (debts d) -> debt_created_by x = id ->
     delete_user id d = (Error foreign_key_violation, d)) /\
  (forall id x, In x (payments d) -> payment_created_by x = id ->
     delete_user id d = (Error foreign_key_violation, d)).
Proof.
  intro H. split; [|split].
  - apply observable_invariant; [apply exec_keeps_creators | exact H].
  - intros id x Hx Hc. unfold delete_user.
    assert (E : existsb (fun y => String.eqb (debt_created_by y) id) (debts d) = true).
    { apply existsb_exists. exists x. split; [exact Hx|]. rewrite Hc. apply String.eqb_refl. }
    rewrite E. rewrite orb_true_r. reflexivity.
  - intros id x Hx Hc. unfold delete_user.
    assert (E : existsb (fun y => String.eqb (payment_created_by y) id) (payments d) = true).
    { apply existsb_exists. exists x. split; [exact Hx|]. rewrite Hc. apply String.eqb_refl. }
    rewrite E. rewrite orb_true_r. reflexivity.
Qed.

Lemma sample_creators_ok : creators_ok Sample.spec_example.
Proof.
  unfold creators_ok. simpl. split; [|split].
  - intros x u Hx Hc. repeat (destruct Hx as [<-|Hx]; [discriminate Hc|]). destruct Hx.
  - intros x Hx. repeat (destruct Hx as [<-|Hx]; [simpl; auto|]). destruct Hx.
  - intros x Hx. repeat (destruct Hx as [<-|Hx]; [simpl; auto|]). destruct Hx.
Defined.

Lemma creators_exist_witness :
  delete_user Sample.sam Sample.spec_example =
  (Error foreign_key_violation, Sample.spec_example).
Proof.
  destruct (@creators_exist [] Sample.spec_example sample_creators_ok) as (_ & H & _).
  apply (H Sample.sam (Sample.owes "d1" 1 5000 1)); [left; reflexivity | reflexivity].
Defined.

(** ** Who can become staff or admin *)

Lemma exec_user_roles_shape (s : statement) (d : db) :
  user_roles (exec s d) = user_roles d \/
  (exists i, user_roles (exec s d) = (user_roles d ++ [mk_user_role i viewer])%list) \/
  (exists uid t r, has_role d uid admin = true /\
                   user_roles (exec s d) = (user_roles d ++ [mk_user_role t r])%list) \/
  (exists p, user_roles (exec s d) = filter p (user_roles d)).
Proof.
  destruct s as [i p n|i|u i n p gn gp|u i di a r cb|u i di a cb|u i|u r|u t r|u t r|];
    try (left;
         match goal with
         | |- context [exec ?s d] =>
             destruct (@ledger_statements_keep_identities s d I) as (_ & _ & E)
         end; exact E).
  - left. now rewrite exec_SignUp.
  - simpl. unfold delete_user. case_if; [now left|].
    right. right. right. eexists. reflexivity.
  - left. reflexivity.
  - simpl. unfold grant_role.
    destruct (has_role d u admin) eqn:Ha; cbn [negb]; [|now left].
    repeat case_if; cbn [snd]; [now left | now left |].
    right. right. left. exists u, t, r. auto.
  - simpl. unfold revoke_role. case_if; [now left|].
    right. right. right. eexists. reflexivity.
Qed.

Lemma existsb_filter_true (A : Type) (p q : A -> bool) (l : list A) :
  existsb p (filter q l) = true -> existsb p l = true.
Proof.
  intro H. apply existsb_exists in H. destruct H as (x & Hx & Hp).
  apply filter_In in Hx. apply existsb_exists. exists x. tauto.
Qed.

(** A role held after a statement was held before it, or is the viewer
    role, or was granted while somebody was an admin. *)
Lemma exec_has_role (s : statement) (d : db) (u : uuid) (r : app_role) :
  has_role (exec s d) u r = true ->
  has_role d u r = true \/ r = viewer \/ exists a, has_role d a admin = true.
Proof.
  unfold has_role at 1.
  destruct (exec_user_roles_shape s d) as [E|[(i & E)|[(a & t & r' & Ha & E)|(p & E)]]];
    rewrite E; intro H.
  - now left.
  - rewrite existsb_app in H. apply orb_true_iff in H. destruct H as [H|H]; [now left|].
    simpl in H. rewrite orb_false_r in H. apply andb_true_iff in H. destruct H as [_ H].
    right. left. destruct r; [discriminate | discriminate | reflexivity].
  - right. right. now exists a.
  - left. now apply existsb_filter_true in H.
Qed.

Lemma without_writers_ledger_is_frozen (s : statement) (d : db) :
  (forall u, admin_or_staff d u = false) ->
  debtors (exec s d) = debtors d /\
  debts (exec s d) = debts d /\
  payments (exec s d) = payments d.
Proof.
  intro Hno.
  assert (Hadm : forall u, has_role d u admin = false).
  { intro u. specialize (Hno u). unfold admin_or_staff in Hno.
    now apply orb_false_iff in Hno. }
  destruct s as [i p n|i|u i n p gn gp|u i di a r cb|u i di a cb|u i|u r|u t r|u t r|];
    try (match goal with
         | |- context [exec ?s d] => apply (@role_statements_keep_ledger s d I)
         end).
  - apply create_user_tables.
  - apply delete_user_tables.
  - simpl. unfold insert_debtor. rewrite Hno. auto.
  - simpl. unfold insert_debt. rewrite Hno. destruct (fits_decimal_12_2 a); auto.
  - simpl. unfold insert_payment. rewrite Hno. destruct (fits_decimal_12_2 a); auto.
  - simpl. unfold delete_debtor. rewrite Hadm. auto.
  - auto.
Qed.

(** X14.  Nothing but a grant by an identity that already is an admin makes
    anyone staff or admin: a sign-up does not, and an update of one's own
    profile does not touch [user_roles].  So where nobody is an
    admin, nobody becomes one and nobody new becomes staff, in any run; and
    from the empty database no run ever writes a debtor, a debt or a
    payment. *)
Theorem no_self_promotion (ss : list statement) (d : db) :
  no_admin d ->
  (forall s u, admin_or_staff (exec s d) u = true -> admin_or_staff d u = true) /\
  Forall (fun d' => no_admin d' /\
                    forall u, has_role d' u staff = true -> has_role d u staff = true)
         (observable ss d) /\
  Forall (fun d' => debtors d' = [] /\ debts d' = [] /\ payments d' = [])
         (observable ss empty_db).
Proof.
  intro Hno.
  assert (Hstep : forall s d0, no_admin d0 ->
            no_admin (exec s d0) /\
            forall u, has_role (exec s d0) u staff = true -> has_role d0 u staff = true).
  { intros s d0 H0. split.
    - intro u. apply not_true_is_false. intro H.
      apply exec_has_role in H. destruct H as [H|[H|(a & H)]].
      + rewrite H0 in H. discriminate.
      + discriminate.
      + rewrite H0 in H. discriminate.
    - intros u H. apply exec_has_role in H. destruct H as [H|[H|(a & H)]].
      + exact H.
      + discriminate.
      + rewrite H0 in H. discriminate. }
  split; [|split].
  - intros s u H. unfold admin_or_staff in *. apply orb_true_iff in H.
    destruct (Hstep s d Hno) as [Ha Hs]. destruct H as [H|H].
    + rewrite Ha in H. discriminate.
    + rewrite (Hs u H). apply orb_true_r.
  - clear Hstep.
    assert (G : forall ss d0,
              (no_admin d0 /\ forall u, has_role d0 u staff = true -> has_role d u staff = true) ->
              Forall (fun d' => no_admin d' /\
                        forall u, has_role d' u staff = true -> has_role d u staff = true)
                     (observable ss d0)).
    { apply observable_invariant. intros s d0 [H0 Hs]. split.
      - intro u. apply not_true_is_false. intro H.
        apply exec_has_role in H. destruct H as [H|[H|(a & H)]];
          [rewrite H0 in H | | rewrite H0 in H]; discriminate.
      - intros u H. apply exec_has_role in H. destruct H as [H|[H|(a & H)]].
        + now apply Hs.
        + discriminate.
        + rewrite H0 in H. discriminate. }
    apply G. split; [exact Hno | auto].
  - assert (G : forall ss d0,
              ((forall u, admin_or_staff d0 u = false) /\
               debtors d0 = [] /\ debts d0 = [] /\ payments d0 = []) ->
              Forall (fun d' => (forall u, admin_or_staff d' u = false) /\
                                debtors d' = [] /\ debts d' = [] /\ payments d' = [])
                     (observable ss d0)).
    { apply observable_invariant. intros s d0 (Hw & E1 & E2 & E3).
      destruct (without_writers_ledger_is_frozen s d0 Hw) as (-> & -> & ->).
      split; [|auto]. intro u. apply not_true_is_false. intro H.
      assert (H0 : no_admin d0).
      { intro v. specialize (Hw v). unfold admin_or_staff in Hw.
        now apply orb_false_iff in Hw. }
      destruct (Hstep s d0 H0) as [Ha Hs].
      unfold admin_or_staff in H. apply orb_true_iff in H. destruct H as [H|H].
      - rewrite Ha in H. discriminate.
      - apply Hs in H. specialize (Hw u). unfold admin_or_staff in Hw.
        apply orb_false_iff in Hw. destruct Hw as [_ Hw]. congruence. }
    eapply Forall_impl; [|apply (G ss empty_db)].
    + intros d' [_ H]. exact H.
    + split; [intro u; reflexivity | auto].
Qed.

Lemma no_self_promotion_witness :
  Forall (fun d' => no_admin d' /\
                    forall u, has_role d' u staff = true ->
                              has_role Sample.one_viewer u staff = true)
         (observable [UpdateOwnProfileRole Sample.vic admin;
                      GrantRole Sample.vic Sample.vic staff;
                      InsertDebtor Sample.vic "d1" "Dana" "555-0001" None None]
                     Sample.one_viewer).
Proof.
  apply (@no_self_promotion
           [UpdateOwnProfileRole Sample.vic admin;
            GrantRole Sample.vic Sample.vic staff;
            InsertDebtor Sample.vic "d1" "Dana" "555-0001" None None]
           Sample.one_viewer).
  intro u. unfold has_role. cbn -[String.eqb]. now rewrite andb_false_r.
Defined.

(** ** Undoing *)

Lemma filter_keep_all (A : Type) (p : A -> bool) (l : list A) :
  (forall x, In x l -> p x = true) -> filter p l = l.
Proof.
  induction l as [|a l IH]; simpl; intro H; [reflexivity|].
  rewrite (H a) by auto. rewrite IH; [reflexivity|]. auto.
Qed.

Lemma filter_snoc_drop (A : Type) (p : A -> bool) (l : list A) (x : A) :
  (forall y, In y l -> p y = true) -> p x = false -> filter p (l ++ [x]) = l.
Proof.
  intros Hl Hx. rewrite filter_app, filter_keep_all by exact Hl.
  simpl. rewrite Hx. apply app_nil_r.
Qed.

Lemma find_profile_filter_self (id : uuid) (l : list profile) :
  List.find (fun p => String.eqb (profile_id p) id)
            (filter (fun p => negb (String.eqb (profile_id p) id)) l) = None.
Proof.
  induction l as [|a l IH]; simpl; [reflexivity|].
  destruct (String.eqb (profile_id a) id) eqn:E; simpl; [exact IH|].
  now rewrite E.
Qed.

Lemma has_role_filter_self (id : uuid) (r : app_role) (l : list user_role) :
  existsb (fun x => String.eqb (ur_user_id x) id && app_role_eqb (ur_role x) r)
          (filter (fun x => negb (String.eqb (ur_user_id x) id)) l) = false.
Proof.
  induction l as [|a l IH]; simpl; [reflexivity|].
  destruct (String.eqb (ur_user_id a) id) eqn:E; simpl; [exact IH|].
  now rewrite E.
Qed.

(** X15.  Deleting an identity that no row of the ledger names as its
    creator succeeds and takes the identity's profile and role rows with it:
    afterwards the identity is gone, no profile and no role row is its own
    ([get_user_role] returns nothing for it and [has_role] is false for
    every role), while every other identity, its profile and its roles, and
    the three ledger tables are as they were. *)
Theorem delete_user_cascades (id : uuid) (d : db) :
  (forall x, In x (debtors d) -> debtor_created_by x <> Some id) ->
  (forall x, In x (debts d) -> debt_created_by x <> id) ->
  (forall x, In x (payments d) -> payment_created_by x <> id) ->
  let d' := snd (delete_user id d) in
  fst (delete_user id d) = Ok tt /\
  ~ In id (users d') /\
  (forall p, In p (profiles d') -> profile_id p <> id) /\
  (forall r, In r (user_roles d') -> ur_user_id r <> id) /\
  get_user_role d' id = None /\
  (forall r, has_role d' id r = false) /\
  (forall v, v <> id ->
     (In v (users d') <-> In v (users d)) /\
     get_user_role d' v = get_user_role d v /\
     (forall r, has_role d' v r = has_role d v r)) /\
  debtors d' = debtors d /\ debts d' = debts d /\ payments d' = payments d.
Proof.
  intros Cd Cb Cp d'. subst d'. unfold delete_user.
  assert (E1 : existsb (fun x => match debtor_created_by x with
                                 | Some u => String.eqb u id | None => false end)
                       (debtors d) = false).
  { apply not_true_is_false. intro H. apply existsb_exists in H.
    destruct H as (x & Hx & E). destruct (debtor_created_by x) as [u|] eqn:Eu; [|discriminate].
    apply String.eqb_eq in E. subst u. now apply (Cd x). }
  assert (E2 : existsb (fun x => String.eqb (debt_created_by x) id) (debts d) = false).
  { apply not_true_is_false. intro H. apply existsb_exists in H.
    destruct H as (x & Hx & E). apply String.eqb_eq in E. now apply (Cb x). }
  assert (E3 : existsb (fun x => String.eqb (payment_created_by x) id) (payments d) = false).
  { apply not_true_is_false. intro H. apply existsb_exists in H.
    destruct H as (x & Hx & E). apply String.eqb_eq in E. now apply (Cp x). }
  rewrite E1, E2, E3. cbn [orb fst snd].
  unfold get_user_role, has_role.
  cbn [users profiles user_roles debtors debts payments].
  split; [reflexivity|]. split; [|split; [|split; [|split; [|split; [|split]]]]].
  - intro H. apply filter_In in H. destruct H as [_ H].
    rewrite String.eqb_refl in H. discriminate.
  - intros p H E. apply filter_In in H. destruct H as [_ H].
    rewrite E, String.eqb_refl in H. discriminate.
  - intros r H E. apply filter_In in H. destruct H as [_ H].
    rewrite E, String.eqb_refl in H. discriminate.
  - now rewrite find_profile_filter_self.
  - intro r. apply has_role_filter_self.
  - intros v Hv. apply String.eqb_neq in Hv. split; [|split].
    + rewrite filter_In, Hv. simpl. tauto.
    + now rewrite find_filter_other.
    + intro r. now apply has_role_filter_other.
  - auto.
Qed.

Lemma delete_user_cascades_witness :
  fst (delete_user Sample.vic Sample.spec_example) = Ok tt /\
  get_user_role (snd (delete_user Sample.vic Sample.spec_example)) Sample.vic = None /\
  has_role (snd (delete_user Sample.vic Sample.spec_example)) Sample.sam staff = true.
Proof.
  destruct (@delete_user_cascades Sample.vic Sample.spec_example)
    as (H1 & _ & _ & _ & H2 & _ & H3 & _).
  - intros x Hx. simpl in Hx.
    repeat (destruct Hx as [<-|Hx]; [discriminate|]). destruct Hx.
  - intros x Hx. simpl in Hx.
    repeat (destruct Hx as [<-|Hx]; [discriminate|]). destruct Hx.
  - intros x Hx. simpl in Hx.
    repeat (destruct Hx as [<-|Hx]; [discriminate|]). destruct Hx.
  - split; [exact H1|]. split; [exact H2|].
    destruct (H3 Sample.sam) as (_ & _ & H4); [discriminate|].
    rewrite H4. reflexivity.
Defined.

Lemma run_cons (s : statement) (ss : list statement) (d : db) :
  run (s :: ss) d = run ss (exec s d).
Proof. reflexivity. Qed.

(** What stays true while only debts and payments of the debtor [id] are
    recorded after it was registered. *)
Lemma recording_for_one_debtor (id : uuid) (d : db) (new : debtor) (ss : list statement)
    (d1 : db) :
  forallb (records_for id) ss = true ->
  debtors d1 = (debtors d ++ [new])%list ->
  user_roles d1 = user_roles d ->
  (exists ex ep, debts d1 = (debts d ++ ex)%list /\ payments d1 = (payments d ++ ep)%list /\
                 (forall x, In x ex -> debt_debtor_id x = id) /\
                 (forall x, In x ep -> payment_debtor_id x = id)) ->
  debtors (run ss d1) = (debtors d ++ [new])%list /\
  user_roles (run ss d1) = user_roles d /\
  (exists ex ep, debts (run ss d1) = (debts d ++ ex)%list /\
                 payments (run ss d1) = (payments d ++ ep)%list /\
                 (forall x, In x ex -> debt_debtor_id x = id) /\
                 (forall x, In x ep -> payment_debtor_id x = id)).
Proof.
  revert d1. induction ss as [|s ss IH]; intros d1 Hss Hd Hr Hrows; [auto|].
  simpl in Hss. apply andb_true_iff in Hss. destruct Hss as [Hs Hss].
  rewrite run_cons. apply IH; [exact Hss| | |].
  - destruct s; try discriminate Hs; simpl.
    + unfold insert_debt. repeat case_if; exact Hd.
    + unfold insert_payment. repeat case_if; exact Hd.
  - destruct s; try discriminate Hs; simpl.
    + unfold insert_debt. repeat case_if; exact Hr.
    + unfold insert_payment. repeat case_if; exact Hr.
  - destruct Hrows as (ex & ep & Eb & Ep & Hex & Hep).
    destruct s as [| | |u i di a r cb|u i di a cb| | | | |]; try discriminate Hs;
      simpl in Hs; apply String.eqb_eq in Hs; subst di; simpl.
    + destruct (insert_debt u i id a r cb d1) as [[[]|e] d'] eqn:E.
      * apply insert_debt_Ok in E. subst d'. cbn [snd]. simpl.
        exists (ex ++ [mk_debt i id a r (now d1) cb])%list, ep.
        rewrite Eb, <- app_assoc. repeat split; auto.
        intros x Hx. apply in_app_or in Hx. destruct Hx as [Hx|[<-|[]]]; auto.
      * pose proof (@insert_debt_Error u i id a r cb d1 e) as H. rewrite E in H.
        simpl in *. rewrite H by reflexivity. exists ex, ep. auto.
    + destruct (insert_payment u i id a cb d1) as [[[]|e] d'] eqn:E.
      * apply insert_payment_Ok in E. subst d'. cbn [snd]. simpl.
        exists ex, (ep ++ [mk_payment i id a (now d1) cb])%list.
        rewrite Ep, <- app_assoc. repeat split; auto.
        intros x Hx. apply in_app_or in Hx. destruct Hx as [Hx|[<-|[]]]; auto.
      * pose proof (@insert_payment_Error u i id a cb d1 e) as H. rewrite E in H.
        simpl in *. rewrite H by reflexivity. exists ex, ep. auto.
Qed.

(** X16.  An admin's delete of a debtor undoes its registration and
    everything recorded for it since: after a debtor is registered under an
    unused id and any debts and payments are recorded for it, the delete
    leaves the three ledger tables exactly as they were before the
    registration. *)
Theorem delete_undoes_register_and_record
    (uid adm id : uuid) (name phone : string) (gn gp : option string)
    (ss : list statement) (d d1 : db) :
  fk_ok d ->
  insert_debtor uid id name phone gn gp d = (Ok tt, d1) ->
  forallb (records_for id) ss = true ->
  has_role d adm admin = true ->
  let d3 := snd (delete_debtor adm id (run ss d1)) in
  debtors d3 = debtors d /\ debts d3 = debts d /\ payments d3 = payments d.
Proof.
  intros [Fd Fp] Hins Hss Hadm d3.
  assert (Hfresh : has_debtor d id = false /\
                   d1 = set_debtors d (debtors d ++ [mk_debtor id name phone gn gp None])%list).
  { revert Hins. unfold insert_debtor. repeat case_if; intro H; try discriminate.
    injection H as <-. auto. }
  destruct Hfresh as [Hfresh ->].
  assert (Hstart : exists ex ep : list _,
            debts (set_debtors d (debtors d ++ [mk_debtor id name phone gn gp None])%list)
              = (debts d ++ ex)%list /\
            payments (set_debtors d (debtors d ++ [mk_debtor id name phone gn gp None])%list)
              = (payments d ++ ep)%list /\
            (forall x, In x ex -> debt_debtor_id x = id) /\
            (forall x, In x ep -> payment_debtor_id x = id)).
  { exists [], []. simpl. rewrite !app_nil_r. repeat split; intros x Hx; destruct Hx. }
  destruct (@recording_for_one_debtor id d (mk_debtor id name phone gn gp None) ss
              (set_debtors d (debtors d ++ [mk_debtor id name phone gn gp None])%list)
              Hss eq_refl eq_refl Hstart)
    as (Ed & Er & ex & ep & Eb & Ep & Hex & Hep).
  assert (Hkeep : forall x, In x (debtors d) -> negb (String.eqb (debtor_id x) id) = true).
  { intros x Hx. apply negb_true_iff. apply not_true_is_false. intro E.
    assert (has_debtor d id = true); [|congruence].
    unfold has_debtor. apply existsb_exists. eauto. }
  subst d3. unfold delete_debtor.
  assert (Hadm' : has_role (run ss (set_debtors d (debtors d ++ [mk_debtor id name phone gn gp None])%list))
                           adm admin = true)
    by (unfold has_role in *; now rewrite Er).
  rewrite Hadm'. cbn [negb]. rewrite Ed.
  rewrite filter_app. cbn [filter debtor_id]. rewrite String.eqb_refl.
  rewrite length_app. cbn [List.length].
  replace (List.length _ + 1)%nat with (S (List.length (filter (fun x => String.eqb (debtor_id x) id) (debtors d))))
    by lia.
  cbn [snd debtors debts payments]. rewrite Eb, Ep.
  split; [|split].
  - apply filter_snoc_drop; [exact Hkeep|]. simpl. now rewrite String.eqb_refl.
  - rewrite filter_app, filter_keep_all.
    + rewrite filter_none; [apply app_nil_r|].
      intros x Hx. rewrite (Hex x Hx), String.eqb_refl. reflexivity.
    + intros x Hx. apply negb_true_iff. apply not_true_is_false. intro E.
      apply String.eqb_eq in E. specialize (Fd x Hx). rewrite E in Fd. congruence.
  - rewrite filter_app, filter_keep_all.
    + rewrite filter_none; [apply app_nil_r|].
      intros x Hx. rewrite (Hep x Hx), String.eqb_refl. reflexivity.
    + intros x Hx. apply negb_true_iff. apply not_true_is_false. intro E.
      apply String.eqb_eq in E. specialize (Fp x Hx). rewrite E in Fp. congruence.
Qed.

Lemma delete_undoes_register_and_record_witness :
  debts (snd (delete_debtor Sample.ada "d3"
                (run [InsertDebt Sample.sam "1d3" "d3" 700 "tools" Sample.sam;
                      InsertPayment Sample.sam "1p3" "d3" 200 Sample.sam]
                     (snd (insert_debtor Sample.sam "d3" "Eve" "555-0003" None None
                             Sample.spec_example))))) =
  debts Sample.spec_example.
Proof.
  apply (@delete_undoes_register_and_record Sample.sam Sample.ada "d3" "Eve" "555-0003"
           None None
           [InsertDebt Sample.sam "1d3" "d3" 700 "tools" Sample.sam;
            InsertPayment Sample.sam "1p3" "d3" 200 Sample.sam]
           Sample.spec_example
           (snd (insert_debtor Sample.sam "d3" "Eve" "555-0003" None None Sample.spec_example))
           sample_fk_ok eq_refl eq_refl eq_refl).
Defined.

(** ** A debtor that was deleted, a debtor that is new *)

Lemma deleted_debtor_is_absent (adm id : uuid) (d : db) :
  has_role d adm admin = true ->
  has_debtor (snd (delete_debtor adm id d)) id = false.
Proof.
  intro Hadm. unfold delete_debtor. rewrite Hadm. cbn [negb].
  destruct (List.length (filter (fun x => String.eqb (debtor_id x) id) (debtors d)))
    as [|n] eqn:Elen; cbn [snd].
  - unfold has_debtor. rewrite existsb_length_filter, Elen. reflexivity.
  - unfold has_debtor. simpl. apply existsb_filter_self.
Qed.

Lemma absent_debtor_not_listed (d : db) (id : uuid) (x : debtor) :
  has_debtor d id = false -> In x (select_debtors_by_name d) -> debtor_id x <> id.
Proof.
  intros Hno Hin E. unfold select_debtors_by_name in Hin. apply order_In in Hin.
  assert (has_debtor d id = true); [|congruence].
  unfold has_debtor. apply existsb_exists. exists x. split; [exact Hin|].
  rewrite E. apply String.eqb_refl.
Qed.

(** X17.  Once an admin has deleted a debtor, no page shows it: it is not on
    the dashboard, the debt form and the payment form do not offer it, no
    search returns it, and a debt or a payment for it is refused. *)
Theorem deleted_debtor_is_gone_from_every_page (adm id : uuid) (d : db) :
  has_role d adm admin = true ->
  let d' := snd (delete_debtor adm id d) in
  (forall t, In t (fetchDebtors d') -> debtor_id (of_debtor t) <> id) /\
  (forall o, In o (AddDebtPage_fetchDebtors d') -> opt_id o <> id) /\
  (forall y, In y (fetchDebtorsWithBalance d') -> wb_id y <> id) /\
  (forall term r, handleSearch term d' = Some (Some r) -> debtor_id (h_debtor r) <> id) /\
  (forall uid i a reason cb, exists e, insert_debt uid i id a reason cb d' = (Error e, d')) /\
  (forall uid i a cb, exists e, insert_payment uid i id a cb d' = (Error e, d')).
Proof.
  intros Hadm d'.
  pose proof (@deleted_debtor_is_absent adm id d Hadm) as Hno. fold d' in Hno.
  split; [|split; [|split; [|split; [|split]]]].
  - intros t Ht. unfold fetchDebtors in Ht. apply in_map_iff in Ht.
    destruct Ht as (x & <- & Hx). now apply (absent_debtor_not_listed d').
  - intros o Ho. unfold AddDebtPage_fetchDebtors in Ho. apply in_map_iff in Ho.
    destruct Ho as (x & <- & Hx). now apply (absent_debtor_not_listed d').
  - intros y Hy. unfold fetchDebtorsWithBalance in Hy. apply filter_In in Hy.
    destruct Hy as [Hy _]. apply in_map_iff in Hy.
    destruct Hy as (x & <- & Hx). now apply (absent_debtor_not_listed d').
  - intros term r H E. unfold handleSearch in H.
    destruct (JS.is_empty (JS.trim term)); [discriminate|].
    destruct (leaves_the_filter term); [discriminate|].
    destruct (single (filter (matches term) (debtors d'))) as [x|] eqn:Es; [|discriminate].
    injection H as <-. cbn [h_debtor search_history] in E.
    apply single_Some in Es.
    assert (Hin : In x (filter (matches term) (debtors d'))) by (rewrite Es; now left).
    apply filter_In in Hin. destruct Hin as [Hin _].
    assert (has_debtor d' id = true); [|congruence].
    unfold has_debtor. apply existsb_exists. exists x. split; [exact Hin|].
    rewrite E. apply String.eqb_refl.
  - intros uid i a reason cb. unfold insert_debt. rewrite Hno. cbn [negb].
    repeat case_if; eauto.
  - intros uid i a cb. unfold insert_payment. rewrite Hno. cbn [negb].
    repeat case_if; eauto.
Qed.

Lemma deleted_debtor_is_gone_from_every_page_witness :
  handleSearch "dana" (snd (delete_debtor Sample.ada "d1" Sample.spec_example)) = Some None /\
  forall t, In t (fetchDebtors (snd (delete_debtor Sample.ada "d1" Sample.spec_example))) ->
            debtor_id (of_debtor t) <> "d1".
Proof.
  destruct (@deleted_debtor_is_gone_from_every_page Sample.ada "d1" Sample.spec_example
              eq_refl) as (H1 & _).
  split; [reflexivity | exact H1].
Defined.

(** X18.  A debtor registered through the form, in a ledger whose debts and
    payments reference existing debtors, is on the dashboard at once with
    the totals 0, 0, 0 and the badge Paid, is offered by the debt form and
    is not offered by the payment form. *)
Theorem new_debtor_is_listed_with_zero_totals
    (s : session) (fresh_id : uuid)
    (name phoneNumber guarantorName guarantorPhone : string) (d d' : db) :
  fk_ok d ->
  AddDebtorPage s fresh_id name phoneNumber guarantorName guarantorPhone d
    = (Toast_recorded, d') ->
  let x := mk_debtor fresh_id (JS.trim name) (JS.trim phoneNumber)
             (JS.or_null (JS.trim guarantorName))
             (JS.or_null (JS.trim guarantorPhone)) None in
  In (mk_totals x 0%float 0%float 0%float) (fetchDebtors d') /\
  Index_badge (index_totals d' x) = Paid /\
  In (mk_option fresh_id (JS.trim name) (JS.trim phoneNumber)) (AddDebtPage_fetchDebtors d') /\
  (forall y, In y (fetchDebtorsWithBalance d') -> wb_id y <> fresh_id).
Proof.
  intros [Fd Fp] Hsub x.
  assert (Hd' : has_debtor d fresh_id = false /\
                d' = set_debtors d (debtors d ++ [x])%list).
  { revert Hsub. unfold AddDebtorPage, AddDebtorPage_handleSubmit, insert_debtor.
    destruct (negb (canWrite (userRole s))); [discriminate|].
    destruct (user s) as [uid|]; [|discriminate].
    destruct (negb (admin_or_staff d uid)); [discriminate|].
    destruct (has_debtor d fresh_id); [discriminate|].
    intro H. injection H as <-. auto. }
  destruct Hd' as [Hfresh ->].
  assert (Hnod : select_debts_eq (set_debtors d (debtors d ++ [x])%list) fresh_id = []).
  { unfold select_debts_eq. simpl. apply filter_none. intros r Hr.
    apply not_true_is_false. intro E. apply String.eqb_eq in E.
    specialize (Fd r Hr). rewrite E in Fd. congruence. }
  assert (Hnop : select_payments_eq (set_debtors d (debtors d ++ [x])%list) fresh_id = []).
  { unfold select_payments_eq. simpl. apply filter_none. intros r Hr.
    apply not_true_is_false. intro E. apply String.eqb_eq in E.
    specialize (Fp r Hr). rewrite E in Fp. congruence. }
  assert (Hin : In x (select_debtors_by_name (set_debtors d (debtors d ++ [x])%list))).
  { unfold select_debtors_by_name. apply order_In. simpl. apply in_or_app. right. now left. }
  assert (Htot : index_totals (set_debtors d (debtors d ++ [x])%list) x =
                 mk_totals x 0%float 0%float 0%float).
  { unfold index_totals. change (debtor_id x) with fresh_id. rewrite Hnod, Hnop.
    reflexivity. }
  split; [|split; [|split]].
  - rewrite <- Htot. unfold fetchDebtors. now apply in_map.
  - rewrite Htot. reflexivity.
  - unfold AddDebtPage_fetchDebtors.
    change (mk_option fresh_id (JS.trim name) (JS.trim phoneNumber))
      with ((fun z => mk_option (debtor_id z) (debtor_name z) (debtor_phone_number z)) x).
    now apply in_map.
  - intros y Hy E. unfold fetchDebtorsWithBalance in Hy. apply filter_In in Hy.
    destruct Hy as [Hy Hpos]. apply in_map_iff in Hy. destruct Hy as (z & <- & Hz).
    cbn [wb_id payment_balance] in E.
    revert Hpos. unfold payment_balance. cbn [wb_balance]. rewrite E, Hnod, Hnop.
    vm_compute. discriminate.
Qed.

Lemma new_debtor_is_listed_with_zero_totals_witness :
  In (mk_totals (mk_debtor "d3" "Eve" "555-0003" None None None) 0%float 0%float 0%float)
     (fetchDebtors
        (snd (AddDebtorPage Sample.staff_session "d3" " Eve" "555-0003 " " " " "
                Sample.spec_example))).
Proof.
  apply (@new_debtor_is_listed_with_zero_totals Sample.staff_session "d3"
           " Eve" "555-0003 " " " " " Sample.spec_example
           (snd (AddDebtorPage Sample.staff_session "d3" " Eve" "555-0003 " " " " "
                   Sample.spec_example))
           sample_fk_ok eq_refl).
Defined.

(** ** The sign of the totals *)

Lemma binary_normalize_pos_signed (p : positive) (e : Z) :
  signed false (binary_normalize prec emax (Z.pos p) e false).
Proof.
  unfold binary_normalize, binary_round.
  destruct (shl_align p e _) as [mz ez]. apply binary_round_aux_signed.
Qed.

(** The sum of two numbers that are not negative is not negative. *)
Lemma add_signed (x y : JS.number) :
  signed false (Prim2SF x) -> signed false (Prim2SF y) ->
  signed false (Prim2SF (JS.add x y)).
Proof.
  unfold JS.add. rewrite FloatAxioms.add_spec. unfold SF64add, SFadd.
  destruct (Prim2SF x) as [sx|sx| |sx mx ex], (Prim2SF y) as [sy|sy| |sy my ey];
    simpl; intros Hx Hy; subst; simpl; auto.
  apply binary_normalize_pos_signed.
Qed.

Lemma Number_signed (cents : Z) :
  0 <= cents < 9007199254740992 -> signed false (Prim2SF (JS.Number cents)).
Proof.
  intro H. unfold JS.Number.
  destruct (Z.ltb_spec (Z.abs cents) 9007199254740992); [|lia].
  destruct (Z.ltb_spec cents 0); [lia|].
  apply div_100_signed. apply of_uint63_signed.
Qed.

Lemma reduce_sum_signed (A : Type) (amount : A -> Z) (rows : list A) :
  (forall r, In r rows -> 0 <= amount r < 9007199254740992) ->
  signed false (Prim2SF (JS.reduce_sum amount rows)).
Proof.
  unfold JS.reduce_sum.
  assert (G : forall acc, signed false (Prim2SF acc) ->
            (forall r, In r rows -> 0 <= amount r < 9007199254740992) ->
            signed false (Prim2SF (fold_left (fun sum r => JS.add sum (JS.Number (amount r)))
                                             rows acc))).
  { induction rows as [|a rows IH]; intros acc Hacc Hrows; simpl; [exact Hacc|].
    apply IH.
    - apply add_signed; [exact Hacc|]. apply Number_signed. apply Hrows. now left.
    - intros r Hr. apply Hrows. now right. }
  intro H. apply G; [|exact H]. vm_compute. reflexivity.
Qed.

Lemma or_zero_signed (x : JS.number) :
  signed false (Prim2SF x) -> signed false (Prim2SF (JS.or_zero x)).
Proof.
  intro H. unfold JS.or_zero. destruct (JS.truthy x); [exact H|]. vm_compute. reflexivity.
Qed.

Lemma signed_not_below_zero (x : JS.number) :
  signed false (Prim2SF x) -> JS.gt 0%float x = false.
Proof.
  unfold JS.gt. rewrite FloatAxioms.ltb_spec.
  change (Prim2SF 0%float) with (S754_zero false).
  destruct (Prim2SF x) as [s|s| |s m e]; simpl; intro H; subst; reflexivity.
Qed.

(** X19.  With the amounts of the stored rows positive, as the CHECK keeps
    them, no total is below zero: neither total borrowed nor total paid, on
    the dashboard and on the search page, for any debtor. *)
Theorem totals_are_never_negative (d : db) (x : debtor) :
  amounts_ok d ->
  JS.gt 0%float (total_debt (index_totals d x)) = false /\
  JS.gt 0%float (total_paid (index_totals d x)) = false /\
  JS.gt 0%float (h_total_debt (search_history d x)) = false /\
  JS.gt 0%float (h_total_paid (search_history d x)) = false.
Proof.
  intros [Hd Hp].
  assert (Sd : forall r, In r (select_debts_eq d (debtor_id x)) ->
                         0 <= debt_amount r < 9007199254740992).
  { intros r Hr. apply filter_In in Hr. destruct Hr as [Hr _]. specialize (Hd r Hr). lia. }
  assert (Sp : forall r, In r (select_payments_eq d (debtor_id x)) ->
                         0 <= payment_amount r < 9007199254740992).
  { intros r Hr. apply filter_In in Hr. destruct Hr as [Hr _]. specialize (Hp r Hr). lia. }
  cbn [index_totals search_history total_debt total_paid h_total_debt h_total_paid].
  repeat split; apply signed_not_below_zero.
  - apply or_zero_signed. now apply reduce_sum_signed.
  - apply or_zero_signed. now apply reduce_sum_signed.
  - apply reduce_sum_signed. intros r Hr. apply Sd.
    unfold select_debts_eq_desc in Hr. now apply order_In in Hr.
  - apply reduce_sum_signed. intros r Hr. apply Sp.
    unfold select_payments_eq_desc in Hr. now apply order_In in Hr.
Qed.

Lemma totals_are_never_negative_witness :
  JS.gt 0%float (total_debt (index_totals Sample.spec_example Sample.dana)) = false.
Proof.
  apply (@totals_are_never_negative Sample.spec_example Sample.dana sample_amounts_ok).
Defined.

(** ** Text that needs no trimming *)

(** X20.  A name and a phone number that carry no white space at either
    end are stored by the registration form exactly as typed, spaces inside
    them included, the no-break space among them.  Trimming leaves a text
    as it is exactly when it has no white space at either end; so what the
    form stores would be stored unchanged if it were submitted again. *)
Theorem clean_text_is_stored_as_typed
    (s : session) (uid fresh_id : uuid)
    (name phoneNumber guarantorName guarantorPhone : string) (d : db) :
  canWrite (userRole s) = true ->
  user s = Some uid ->
  admin_or_staff d uid = true ->
  has_debtor d fresh_id = false ->
  starts_with_space name = false -> ends_with_space name = false ->
  starts_with_space phoneNumber = false -> ends_with_space phoneNumber = false ->
  debtors (snd (AddDebtorPage s fresh_id name phoneNumber guarantorName guarantorPhone d)) =
    (debtors d ++
     [mk_debtor fresh_id name phoneNumber
        (JS.or_null (JS.trim guarantorName)) (JS.or_null (JS.trim guarantorPhone)) None])%list /\
  (forall t, JS.trim t = t <-> starts_with_space t = false /\ ends_with_space t = false) /\
  (forall t, JS.trim (JS.trim t) = JS.trim t).
Proof.
  intros Hw Hu Hrole Hfresh N1 N2 P1 P2.
  assert (Hclean : forall t, starts_with_space t = false -> ends_with_space t = false ->
                             JS.trim t = t).
  { intros t T1 T2. unfold JS.trim. rewrite (trim_start_clean _ T1). now apply trim_end_clean. }
  split; [|split].
  - unfold AddDebtorPage, AddDebtorPage_handleSubmit, insert_debtor.
    rewrite Hw, Hu, Hrole, Hfresh. cbn [negb snd set_debtors debtors].
    now rewrite (Hclean name N1 N2), (Hclean phoneNumber P1 P2).
  - intro t. split.
    + intro E. destruct (trim_spec t) as (T1 & T2 & _). rewrite E in T1, T2. auto.
    + intros [T1 T2]. now apply Hclean.
  - intro t. apply trim_trim.
Qed.

(** A name with a no-break space inside. *)
Lemma clean_text_is_stored_as_typed_witness :
  debtors (snd (AddDebtorPage Sample.staff_session "d3"
                  ("Eve" ++ Sample.nbsp ++ "Adams") "555 0003" " " Sample.nbsp
                  Sample.spec_example)) =
  (debtors Sample.spec_example ++
   [mk_debtor "d3" ("Eve" ++ Sample.nbsp ++ "Adams") "555 0003" None None None])%list.
Proof.
  apply (@clean_text_is_stored_as_typed Sample.staff_session Sample.sam "d3"
           ("Eve" ++ Sample.nbsp ++ "Adams") "555 0003" " " Sample.nbsp Sample.spec_example
           eq_refl eq_refl eq_refl eq_refl eq_refl eq_refl eq_refl eq_refl).
Defined.

(** ** The role in the profile and the roles that are enforced *)

Lemma has_role_user_roles (d d' : db) (u : uuid) (r : app_role) :
  user_roles d' = user_roles d -> has_role d' u r = has_role d u r.
Proof. unfold has_role. now intros ->. Qed.

(** X21.  An identity can set the role in its own profile to any value, and
    [get_user_role] then returns that value; but the policies ask
    [has_role], which reads [user_roles], so the identity can write exactly
    what it could write before. *)
Theorem own_profile_role_is_not_enforced
    (u : uuid) (r r0 : app_role) (d : db) :
  get_user_role d u = Some r0 ->
  let d' := update_own_profile_role u r d in
  get_user_role d' u = Some r /\
  (forall v, String.eqb v u = false -> get_user_role d' v = get_user_role d v) /\
  (forall v role, has_role d' v role = has_role d v role) /\
  (forall v id n p gn gp,
     fst (insert_debtor v id n p gn gp d') = fst (insert_debtor v id n p gn gp d)) /\
  (forall v i id a reason cb,
     fst (insert_debt v i id a reason cb d') = fst (insert_debt v i id a reason cb d)) /\
  (forall v i id a cb,
     fst (insert_payment v i id a cb d') = fst (insert_payment v i id a cb d)) /\
  (forall v id, fst (delete_debtor v id d') = fst (delete_debtor v id d)).
Proof.
  intros Hg d'.
  assert (Hr : forall v role, has_role d' v role = has_role d v role)
    by (intros v role; now apply has_role_user_roles).
  assert (Hf : forall v,
            List.find (fun p => String.eqb (profile_id p) v) (profiles d') =
            option_map (fun p => if String.eqb (profile_id p) u
                                 then mk_profile (profile_id p) (profile_phone_number p)
                                                 (profile_full_name p) r
                                 else p)
                       (List.find (fun p => String.eqb (profile_id p) v) (profiles d))).
  { intro v. subst d'. simpl. apply find_map_profile.
    intro q. destruct (String.eqb (profile_id q) u); reflexivity. }
  split; [|split; [|split; [exact Hr|split; [|split; [|split]]]]].
  - unfold get_user_role in *. rewrite Hf.
    destruct (List.find _ (profiles d)) as [q|] eqn:Ef; [|discriminate].
    apply find_some in Ef. destruct Ef as [_ Ef]. simpl. now rewrite Ef.
  - intros v Hv. unfold get_user_role. rewrite Hf.
    destruct (List.find _ (profiles d)) as [q|] eqn:Ef; [|reflexivity].
    apply find_some in Ef. destruct Ef as [_ Ef]. apply String.eqb_eq in Ef. simpl.
    rewrite Ef, Hv. reflexivity.
  - intros v id n p gn gp. unfold insert_debtor, admin_or_staff, has_debtor.
    rewrite !Hr. change (debtors d') with (debtors d).
    repeat case_if; reflexivity.
  - intros v i id a reason cb. unfold insert_debt, admin_or_staff, has_debtor.
    rewrite !Hr. change (debtors d') with (debtors d). change (debts d') with (debts d).
    change (users d') with (users d).
    repeat case_if; reflexivity.
  - intros v i id a cb. unfold insert_payment, admin_or_staff, has_debtor.
    rewrite !Hr. change (debtors d') with (debtors d).
    change (payments d') with (payments d). change (users d') with (users d).
    repeat case_if; reflexivity.
  - intros v id. unfold delete_debtor. rewrite Hr. change (debtors d') with (debtors d).
    repeat case_if; reflexivity.
Qed.

Lemma own_profile_role_is_not_enforced_witness :
  get_user_role (update_own_profile_role Sample.vic admin Sample.spec_example) Sample.vic
    = Some admin /\
  fst (insert_debtor Sample.vic "d3" "Eve" "555-0003" None None
         (update_own_profile_role Sample.vic admin Sample.spec_example))
    = Error rls_violation.
Proof.
  destruct (@own_profile_role_is_not_enforced Sample.vic admin viewer Sample.spec_example
              eq_refl) as (H1 & _ & _ & H4 & _).
  split; [exact H1|]. rewrite H4. reflexivity.
Defined.

(** X22.  A grant and a revocation by an admin take effect on the next
    statement: an identity that could not write registers a debtor right
    after an admin grants it staff, and is refused again right after the
    admin revokes it. *)
Theorem grant_then_write_then_revoke
    (adm target id : uuid) (n p : string) (gn gp : option string) (d : db) :
  has_role d adm admin = true ->
  admin_or_staff d target = false ->
  existsb (String.eqb target) (users d) = true ->
  has_debtor d id = false ->
  let d1 := snd (grant_role adm target staff d) in
  let d2 := revoke_role adm target staff d1 in
  insert_debtor target id n p gn gp d = (Error rls_violation, d) /\
  fst (insert_debtor target id n p gn gp d1) = Ok tt /\
  insert_debtor target id n p gn gp d2 = (Error rls_violation, d2) /\
  user_roles d2 = user_roles d.
Proof.
  intros Hadm Hno Huser Hfresh d1 d2.
  unfold admin_or_staff in Hno. apply orb_false_iff in Hno. destruct Hno as [Ha Hs].
  assert (E1 : d1 = mk_db (users d) (profiles d) (user_roles d ++ [mk_user_role target staff])
                          (debtors d) (debts d) (payments d) (now d)).
  { subst d1. unfold grant_role. rewrite Hadm, Hs, Huser. reflexivity. }
  assert (Hadm1 : has_role d1 adm admin = true).
  { rewrite E1. unfold has_role in *. simpl. rewrite existsb_app, Hadm. reflexivity. }
  assert (E2 : user_roles d2 = user_roles d).
  { subst d2. unfold revoke_role. rewrite Hadm1. cbn [negb user_roles]. rewrite E1.
    cbn [user_roles]. apply filter_snoc_drop.
    - intros x Hx. apply negb_true_iff. apply not_true_is_false. intro E.
      assert (has_role d target staff = true); [|congruence].
      unfold has_role. apply existsb_exists. eauto.
    - simpl. now rewrite String.eqb_refl. }
  split; [|split; [|split]].
  - unfold insert_debtor, admin_or_staff. rewrite Ha, Hs. reflexivity.
  - unfold insert_debtor, admin_or_staff, has_debtor. rewrite E1.
    unfold has_role at 2. cbn [user_roles debtors]. rewrite existsb_app. simpl.
    rewrite String.eqb_refl. cbn [andb orb]. rewrite orb_true_r, orb_true_r. cbn [negb].
    unfold has_debtor in Hfresh. rewrite Hfresh. reflexivity.
  - unfold insert_debtor, admin_or_staff.
    rewrite (has_role_user_roles d d2 target admin E2), (has_role_user_roles d d2 target staff E2).
    rewrite Ha, Hs. reflexivity.
  - exact E2.
Qed.

Lemma grant_then_write_then_revoke_witness :
  fst (insert_debtor Sample.vic "d3" "Eve" "555-0003" None None
         (snd (grant_role Sample.ada Sample.vic staff Sample.spec_example))) = Ok tt.
Proof.
  apply (@grant_then_write_then_revoke Sample.ada Sample.vic "d3" "Eve" "555-0003" None None
           Sample.spec_example eq_refl eq_refl eq_refl eq_refl).
Defined.
